(** * Session, route guard and live-status layer of the contact-page-submitter console

    A shallow embedding of the client-side code that decides the behaviour
    of the session controller ([useAuth.jsx]), the API gateway
    ([services/api.js]), the route guard (the two [App.jsx] files), the
    campaign status polling of [FormSubmitterPage.jsx], the WebSocket hook
    ([useCampaignWebSocket.js]) and the request de-duplication of
    [OwnerDashboard.jsx].

    JavaScript values are an inductive type; the browser (storage,
    navigation, network log) and the React state are explicit records that
    the functions thread through a small state-and-exception monad;
    asynchronous code is a transition function over the events the event
    loop can deliver (timer ticks, settled requests, calls). *)

From Stdlib Require Import ZArith String Ascii List Bool Lia.
From stdpp Require Import base option gmap strings list pretty.

Local Open Scope Z_scope.
Local Open Scope string_scope.
#[local] Set Warnings "-register-all".

(* ===================================================================== *)
(** ** JavaScript values *)
(* ===================================================================== *)

Module JS.

(** The values the code reads from parsed JSON bodies and from React
    state. Numbers are the integers (a body may carry fractions; every
    test the code makes on a number here is ["is it zero"], so integers
    stand for them). Objects are finite maps from property names. *)
Inductive value : Type :=
| JUndefined
| JNull
| JBool (b : bool)
| JNum (n : Z)
| JStr (s : string)
| JArr (items : list value)
| JObj (fields : gmap string value).

(** ToBoolean. *)
Definition truthy (v : value) : bool :=
  match v with
  | JUndefined | JNull => false
  | JBool b => b
  | JNum n => negb (n =? 0)%Z
  | JStr s => negb (String.eqb s "")
  | JArr _ | JObj _ => true
  end.

(** [a || b]. *)
Definition or_else (a b : value) : value := if truthy a then a else b.

(** [v === null || v === undefined]. *)
Definition nullish (v : value) : bool :=
  match v with JUndefined | JNull => true | _ => false end.

(** [v.k] for a [v] that is not nullish. The property names read in this
    development ([detail], [message], [role], [is_complete], ...) exist
    on no prototype, so a primitive or an array answers [undefined]. *)
Definition prop (v : value) (k : string) : value :=
  match v with
  | JObj f => default JUndefined (f !! k)
  | _ => JUndefined
  end.

(** [v?.k]. *)
Definition opt_prop (v : value) (k : string) : value :=
  if nullish v then JUndefined else prop v k.

(** [typeof v]. *)
Definition typeof (v : value) : string :=
  match v with
  | JUndefined => "undefined"
  | JNull => "object"
  | JBool _ => "boolean"
  | JNum _ => "number"
  | JStr _ => "string"
  | JArr _ | JObj _ => "object"
  end.

Definition is_number (v : value) : bool :=
  match v with JNum _ => true | _ => false end.

(** Decimal rendering of an integer. *)
Definition string_of_Z (n : Z) : string := pretty n.

(** [Array.prototype.join]. *)
Fixpoint join (sep : string) (l : list string) : string :=
  match l with
  | [] => ""
  | [x] => x
  | x :: rest => x +:+ sep +:+ join sep rest
  end.

(** [String(v)]: an array joins its elements with a comma, rendering
    [null] and [undefined] elements as empty; a plain object is
    ["[object Object]"]. This is the JavaScript conversion on the values
    [stringifies] below accepts; outside them JavaScript prints a number
    in exponent form or throws, and statements that depend on the
    printed text are made for values that [stringifies]. *)
Fixpoint to_string (v : value) : string :=
  match v with
  | JUndefined => "undefined"
  | JNull => "null"
  | JBool true => "true"
  | JBool false => "false"
  | JNum n => string_of_Z n
  | JStr s => s
  | JArr items =>
      join "," (List.map (fun x => if nullish x then "" else to_string x) items)
  | JObj _ => "[object Object]"
  end.

(** The values on which [to_string] is [String(v)]: a number below
    10^21 in size (from there on JavaScript prints an exponent), an
    object that has no [toString] property of its own (a parsed JSON
    object that has one makes the conversion throw a [TypeError], its
    value not being callable), and arrays of such values. *)
Fixpoint stringifies (v : value) : bool :=
  match v with
  | JNum n => (Z.abs n <? 10 ^ 21)%Z
  | JArr items => forallb stringifies items
  | JObj fields => bool_decide (fields !! "toString" = None)
  | _ => true
  end.

(** The values [String(v)] and a template literal convert without
    throwing: all but an object with a [toString] property of its own,
    alone or inside an array. *)
Fixpoint converts (v : value) : bool :=
  match v with
  | JArr items => forallb converts items
  | JObj fields => bool_decide (fields !! "toString" = None)
  | _ => true
  end.

(** [xs.includes(v)] for an array literal of strings: SameValueZero
    equals a string only to the same string. *)
Definition includes (xs : list string) (v : value) : bool :=
  match v with
  | JStr s => existsb (String.eqb s) xs
  | _ => false
  end.

(** [s.includes(t)] on strings. *)
Fixpoint str_includes (t s : string) : bool :=
  String.prefix t s
  || match s with
     | EmptyString => false
     | String _ s' => str_includes t s'
     end.

(** [{ ...a, ...b }] on property maps: the later spread wins. *)
Definition spread (a b : gmap string value) : gmap string value := b ∪ a.

End JS.
Export JS.

(* ===================================================================== *)
(** ** The browser, thrown errors and the effect monad *)
(* ===================================================================== *)

(** What an error object carries, as far as the code inspects it:
    [error.code], [error.response] (status and parsed body) and
    [error.message]. A [new Error(m)] and a [TypeError] have neither code
    nor response. *)
Record http_response := HttpResponse { status : Z; data : value }.

Record js_error := JsError {
  code : option string;
  response : option http_response;
  message : string }.

Definition new_Error (m : value) : js_error :=
  {| code := None; response := None; message := to_string m |}.

(** The [TypeError] of reading property [k] of [null] or [undefined]. *)
Definition type_error (v : value) (k : string) : js_error :=
  {| code := None; response := None;
     message := "Cannot read properties of " +:+ to_string v +:+
                " (reading '" +:+ k +:+ "')" |}.

(** How a promise settles. *)
Inductive settled (A : Type) : Type :=
| Resolved (a : A)
| Rejected (e : js_error).
Arguments Resolved {A} a.
Arguments Rejected {A} e.

(** A request as it leaves the axios instance, after the request
    interceptor. *)
Record request := Request {
  method : string;
  url : string;
  body : value;
  authorization : option string }.

(** The browser: both storages, the hard navigations performed through
    [window.location.href] (latest first) and the requests sent (latest
    first). *)
Record browser := Browser {
  localStorage : gmap string string;
  sessionStorage : gmap string string;
  navigations : list string;
  sent : list request }.

Definition fresh_browser : browser :=
  {| localStorage := ∅; sessionStorage := ∅; navigations := []; sent := [] |}.

(** Computations over a state [S] that may throw. *)
Definition M (S A : Type) : Type := S -> settled A * S.

Definition ret {S A} (a : A) : M S A := fun s => (Resolved a, s).
Definition throw {S A} (e : js_error) : M S A := fun s => (Rejected e, s).
Definition bind {S A B} (m : M S A) (k : A -> M S B) : M S B :=
  fun s => match m s with
           | (Resolved a, s') => k a s'
           | (Rejected e, s') => (Rejected e, s')
           end.
Definition modify {S} (f : S -> S) : M S unit := fun s => (Resolved tt, f s).
Definition gets {S A} (f : S -> A) : M S A := fun s => (Resolved (f s), s).

(** [try { m } catch (e) { h e }]. *)
Definition try_catch {S A} (m : M S A) (h : js_error -> M S A) : M S A :=
  fun s => match m s with
           | (Resolved a, s') => (Resolved a, s')
           | (Rejected e, s') => h e s'
           end.

(** [try { m } finally { f }], for an [f] that does not throw. *)
Definition finally {S A} (m : M S A) (f : S -> S) : M S A :=
  fun s => let '(r, s') := m s in (r, f s').

(** The monad operations under stdpp's notations [x ← m; k] and
    [m;; k]. *)
#[export] Instance M_ret {S} : MRet (M S) := fun _ a => ret a.
#[export] Instance M_bind {S} : MBind (M S) := fun _ _ k m => bind m k.

(** [v.k] where [v] may be nullish: throws the [TypeError]. *)
Definition get_prop {S} (v : value) (k : string) : M S value :=
  if nullish v then throw (type_error v k) else mret (prop v k).

(** Storage and navigation primitives. *)
Definition ls_set (k v : string) (b : browser) : browser :=
  {| localStorage := <[k := v]> (localStorage b); sessionStorage := sessionStorage b;
     navigations := navigations b; sent := sent b |}.
Definition ls_remove (k : string) (b : browser) : browser :=
  {| localStorage := delete k (localStorage b); sessionStorage := sessionStorage b;
     navigations := navigations b; sent := sent b |}.
Definition ls_clear (b : browser) : browser :=
  {| localStorage := ∅; sessionStorage := sessionStorage b;
     navigations := navigations b; sent := sent b |}.
Definition navigate_hard (path : string) (b : browser) : browser :=
  {| localStorage := localStorage b; sessionStorage := sessionStorage b;
     navigations := path :: navigations b; sent := sent b |}.
Definition log_request (r : request) (b : browser) : browser :=
  {| localStorage := localStorage b; sessionStorage := sessionStorage b;
     navigations := navigations b; sent := r :: sent b |}.

(** [localStorage.getItem(k)] followed by a truthiness test: a missing
    key is [null], the empty string is falsy. *)
Definition stored_token (b : browser) : option string :=
  match localStorage b !! "access_token" with
  | Some t => if String.eqb t "" then None else Some t
  | None => None
  end.

(* ===================================================================== *)
(** ** services/api.js: the ApiService singleton *)
(* ===================================================================== *)

Module ApiService.
Section WithNetwork.

(** The adapter under the axios instance. axios resolves with the
    response on a 2xx status; otherwise it rejects, with an error that
    carries the response when one was received and with one that has no
    response when none was. *)
Variable net : request -> settled http_response.

(** [JSON.stringify], a built-in the code calls on the user record. *)
Variable JSON_stringify : value -> string.

(** Request interceptor: attach the bearer token when one is stored. *)
Definition request_interceptor (method url : string) (body : value)
    (b : browser) : request :=
  {| method := method; url := url; body := body;
     authorization := (fun t => "Bearer " +:+ t) <$> stored_token b |}.

(** [error.response?.status === 401]. *)
Definition is_401 (e : js_error) : bool :=
  match response e with
  | Some r => (status r =? 401)%Z
  | None => false
  end.

(** Response interceptor, rejection side. *)
Definition response_error_interceptor (error : js_error) : M browser value :=
  (if is_401 error then
     modify (ls_remove "access_token");;
     modify (ls_remove "user_info");;
     modify (navigate_hard "/")
   else mret tt);;
  throw error.

(** One call of [this.axiosInstance({method, url, data})]: the request
    interceptor, one request on the network, the response interceptor
    ([response => response.data] on success). *)
Definition axiosInstance (method url : string) (body : value) : M browser value :=
  fun b =>
    let r := request_interceptor method url body b in
    let b' := log_request r b in
    match net r with
    | Resolved resp => (Resolved (data resp), b')
    | Rejected error => response_error_interceptor error b'
    end.

(** [error.response?.data]. *)
Definition response_data (error : js_error) : value :=
  match response error with
  | Some r => data r
  | None => JUndefined
  end.

Definition makeRequest (method url : string) (body : value) : M browser value :=
  try_catch (axiosInstance method url body)
    (fun error =>
       let d := response_data error in
       if truthy d then
         throw (new_Error (or_else (prop d "detail")
                             (or_else (prop d "message") (JStr "Request failed"))))
       else throw error).

(** Both [login] and [register] store what a response with a truthy
    [access_token] carries. *)
Definition store_session (response : value) : M browser unit :=
  if truthy response && truthy (prop response "access_token") then
    modify (ls_set "access_token" (to_string (prop response "access_token")));;
    modify (ls_set "user_info" (JSON_stringify (prop response "user")))
  else mret tt.

Definition login (email password : string) : M browser value :=
  response ← makeRequest "post" "/api/auth/login"
               (JObj (<["email" := JStr email]> (<["password" := JStr password]> ∅)));
  store_session response;;
  mret response.

Definition register (userData : value) : M browser value :=
  response ← makeRequest "post" "/api/auth/register" userData;
  store_session response;;
  mret response.

Definition logout : M browser unit :=
  finally (makeRequest "post" "/api/auth/logout" JNull;; mret tt)
    (fun b => ls_remove "user_info" (ls_remove "access_token" b)).

(** The request [getCurrentUser] sends from a browser. *)
Definition me_request (b : browser) : request :=
  request_interceptor "get" "/api/auth/me" JNull b.

Definition getCurrentUser : M browser value :=
  makeRequest "get" "/api/auth/me" JNull.

Definition is_array (v : value) : bool :=
  match v with JArr _ => true | _ => false end.

Definition getCampaigns : M browser value :=
  try_catch
    (response ← makeRequest "get" "/api/campaigns" JNull;
     mret (if is_array response then response
           else or_else (opt_prop response "data") (JArr [])))
    (fun _ => mret (JArr [])).

Definition getCampaign (campaignId : string) : M browser value :=
  makeRequest "get" ("/api/campaigns/" +:+ campaignId) JNull.

Definition deleteCampaign (campaignId : string) : M browser value :=
  makeRequest "delete" ("/api/campaigns/" +:+ campaignId) JNull.

Definition getCampaignStatus (campaignId : string) : M browser value :=
  makeRequest "get" ("/api/campaigns/" +:+ campaignId +:+ "/status") JNull.

(** The eight summary fields of the analytics object (the object also
    repeats [campaigns_count] under [total_campaigns]). *)
Definition summary_fields : list string :=
  ["campaigns_count"; "active_campaigns"; "completed_campaigns"; "success_rate";
   "total_submissions"; "successful_submissions"; "failed_submissions";
   "websites_count"].

(** What [...v] contributes to an object literal: the own properties of
    an object, the indices of an array or of a string, nothing for the
    other primitives. *)
Definition indexed (items : list value) : gmap string value :=
  list_to_map (zip (pretty <$> seq 0 (length items)) items).

Definition own_props (v : value) : gmap string value :=
  match v with
  | JObj f => f
  | JArr items => indexed items
  | JStr s => indexed ((fun c => JStr (String c EmptyString)) <$> list_ascii_of_string s)
  | _ => ∅
  end.

(** The literal of the [try] branch before its spread: every field is
    [response.f || 0]. *)
Definition analytics_defaults (response : value) : gmap string value :=
  let f k := or_else (prop response k) (JNum 0) in
  <["campaigns_count" := f "campaigns_count"]>
  (<["total_campaigns" := f "campaigns_count"]>
  (<["active_campaigns" := f "active_campaigns"]>
  (<["completed_campaigns" := f "completed_campaigns"]>
  (<["success_rate" := f "success_rate"]>
  (<["total_submissions" := f "total_submissions"]>
  (<["successful_submissions" := f "successful_submissions"]>
  (<["failed_submissions" := f "failed_submissions"]>
  (<["websites_count" := f "websites_count"]> ∅)))))))).

(** The literal of the [catch] branch. *)
Definition analytics_fallback : gmap string value :=
  <["campaigns_count" := JNum 0]>
  (<["total_campaigns" := JNum 0]>
  (<["active_campaigns" := JNum 0]>
  (<["completed_campaigns" := JNum 0]>
  (<["success_rate" := JNum 0]>
  (<["total_submissions" := JNum 0]>
  (<["successful_submissions" := JNum 0]>
  (<["failed_submissions" := JNum 0]>
  (<["websites_count" := JNum 0]>
  (<["error" := JBool true]> ∅))))))))).

Definition getUserAnalytics : M browser value :=
  try_catch
    (response ← makeRequest "get" "/api/analytics/user" JNull;
     get_prop response "campaigns_count";;
     mret (JObj (spread (analytics_defaults response) (own_props response))))
    (fun _ => mret (JObj analytics_fallback)).

(** The literal of [getPerformanceMetrics]'s [catch] branch. *)
Definition performance_fallback : gmap string value :=
  <["success_rate" := JNum 0]>
  (<["processing_speed" := JNum 0]>
  (<["average_duration" := JNum 0]> ∅)).

Definition getPerformanceMetrics : M browser value :=
  try_catch (makeRequest "get" "/api/analytics/performance" JNull)
    (fun _ => mret (JObj performance_fallback)).

(** What the response interceptor does to the browser when one request
    of a batch settles. *)
Definition settle_effect (r : settled http_response) (b : browser) : browser :=
  match r with
  | Rejected error =>
      if is_401 error
      then navigate_hard "/" (ls_remove "user_info" (ls_remove "access_token" b))
      else b
  | Resolved _ => b
  end.

Definition is_fulfilled (r : settled http_response) : bool :=
  match r with Resolved _ => true | Rejected _ => false end.

(** The body of [batchDeleteCampaigns] once [campaignIds.map] has the
    ids: [map] starts every [deleteCampaign] before any response can
    arrive, so every request leaves with the token stored at the call;
    [Promise.allSettled] then waits for all of them, and the interceptor
    acts on each rejection. The result counts the fulfilled ones. *)
Definition delete_each (ids : list string) : M browser value :=
  fun b =>
    let requests :=
      (fun id => request_interceptor "delete" ("/api/campaigns/" +:+ id) JNull b)
        <$> ids in
    let results := net <$> requests in
    let b := fold_left (fun b q => log_request q b) requests b in
    let b := fold_left (fun b r => settle_effect r b) results b in
    (Resolved (JObj (<["deleted" := JNum (Z.of_nat (length (filter (fun r => is_fulfilled r = true) results)))]>
                    (<["total" := JNum (Z.of_nat (length ids))]> ∅))),
     b).

(** [batchDeleteCampaigns(campaignIds)]. The call of [campaignIds.map]
    is not guarded: on [null] or [undefined] reading [map] throws, and on
    any other value that is not an array [map] is not a function. Each id
    of an array goes into the URL as its text. *)
Definition batchDeleteCampaigns (campaignIds : value) : M browser value :=
  match campaignIds with
  | JArr ids => delete_each (to_string <$> ids)
  | JUndefined | JNull => throw (type_error campaignIds "map")
  | _ => throw {| code := None; response := None;
                  message := "campaignIds.map is not a function" |}
  end.

End WithNetwork.
End ApiService.

(* ===================================================================== *)
(** ** hooks/useAuth.jsx: the AuthProvider *)
(* ===================================================================== *)

Module AuthProvider.

(** ASCII views of [String.prototype.trim], [toLowerCase] and
    [toUpperCase]: bytes outside ASCII are left alone. On ASCII text
    they are the JavaScript functions; on other text JavaScript also
    strips U+00A0, U+FEFF and the other Unicode spaces and folds the case
    of other letters, so what the validators and the form accept is
    stated for ASCII text ([Validators.ascii_only]). *)
Definition is_space (c : ascii) : bool :=
  let n := nat_of_ascii c in
  (n =? 32)%nat || ((9 <=? n)%nat && (n <=? 13)%nat).

Fixpoint trim_start (s : string) : string :=
  match s with
  | String c s' => if is_space c then trim_start s' else s
  | EmptyString => EmptyString
  end.

Fixpoint trim_end (s : string) : string :=
  match s with
  | String c s' =>
      match trim_end s' with
      | EmptyString => if is_space c then EmptyString else String c EmptyString
      | t => String c t
      end
  | EmptyString => EmptyString
  end.

Definition trim (s : string) : string := trim_end (trim_start s).

Definition lower (c : ascii) : ascii :=
  let n := nat_of_ascii c in
  if (65 <=? n)%nat && (n <=? 90)%nat then ascii_of_nat (n + 32) else c.

Definition upper (c : ascii) : ascii :=
  let n := nat_of_ascii c in
  if (97 <=? n)%nat && (n <=? 122)%nat then ascii_of_nat (n - 32) else c.

Fixpoint toLowerCase (s : string) : string :=
  match s with
  | String c s' => String (lower c) (toLowerCase s')
  | EmptyString => EmptyString
  end.

(** [action.charAt(0).toUpperCase() + action.slice(1)]. *)
Definition capitalize (action : string) : string :=
  match action with
  | String c s' => String (upper c) s'
  | EmptyString => EmptyString
  end.

(** The callback of the 422 branch: one validation entry to its line.
    Reading [err.loc] of a nullish entry throws. *)
Definition last_item (l : list value) : value := List.last l JUndefined.

Definition friendly_field (field : value) : value :=
  match field with
  | JStr s =>
      if String.eqb s "email" then JStr "Email"
      else if String.eqb s "password" then JStr "Password"
      else if String.eqb s "first_name" then JStr "First Name"
      else if String.eqb s "last_name" then JStr "Last Name"
      else field
  | _ => field
  end.

(** The two values the callback's template literal converts to text:
    [field], and [err.msg || 'Invalid value']. *)
Definition validation_field (err : value) : value :=
  match prop err "loc" with
  | JArr (x :: rest) => friendly_field (last_item (x :: rest))
  | _ => JStr "Field"
  end.

Definition validation_text (err : value) : value :=
  or_else (prop err "msg") (JStr "Invalid value").

Definition validation_line (err : value) : settled string :=
  if nullish err then Rejected (type_error err "loc")
  else
    Resolved (to_string (validation_field err) +:+ ": " +:+
              to_string (validation_text err)).

Fixpoint validation_lines (errs : list value) : settled (list string) :=
  match errs with
  | [] => Resolved []
  | err :: rest =>
      match validation_line err with
      | Rejected e => Rejected e
      | Resolved l =>
          match validation_lines rest with
          | Rejected e => Rejected e
          | Resolved ls => Resolved (l :: ls)
          end
      end
  end.

Definition failed_retry (action : string) : string :=
  capitalize action +:+ " failed. Please try again.".

(** [getErrorMessage(error, action)]. *)
Definition getErrorMessage (error : js_error) (action : string) : settled value :=
  if match code error with
     | Some c => String.eqb c "ERR_NETWORK" || String.eqb c "ECONNABORTED"
     | None => false
     end
  then Resolved (JStr "Cannot connect to server. Please ensure the backend is running on http://127.0.0.1:8000")
  else
    match response error with
    | Some r =>
        let st := status r in
        let d := data r in
        if (st =? 401)%Z then
          Resolved (JStr "Invalid email or password. Please check your credentials.")
        else if (st =? 403)%Z then
          match opt_prop d "detail" with
          | JStr detail =>
              if str_includes "verify" detail then
                Resolved (JStr "Please verify your email to login.")
              else if str_includes "inactive" detail then
                Resolved (JStr "Your account is inactive. Please contact support.")
              else Resolved (JStr detail)
          | _ => Resolved (JStr "Your account is restricted.")
          end
        else if (st =? 404)%Z then
          Resolved (JStr (capitalize action +:+
                          " service not found. Please check the server configuration."))
        else if (st =? 409)%Z then
          Resolved (JStr "This email is already registered. Please login instead.")
        else if (st =? 422)%Z then
          match opt_prop d "detail" with
          | JArr validationErrors =>
              match validation_lines validationErrors with
              | Resolved ls => Resolved (JStr (join ", " ls))
              | Rejected e => Rejected e
              end
          | JStr validationErrors => Resolved (JStr validationErrors)
          | _ =>
              Resolved (JStr ("Invalid input. Please check your " +:+
                              (if String.eqb action "login" then "email and password"
                               else "information") +:+ "."))
          end
        else if (st =? 500)%Z then
          Resolved (JStr "Server error. Please try again in a moment.")
        else
          Resolved (or_else (opt_prop d "detail")
                      (or_else (opt_prop d "message") (JStr (failed_retry action))))
    | None =>
        if negb (String.eqb (message error) "") then Resolved (JStr (message error))
        else Resolved (JStr (failed_retry action))
    end.

(** The provider's React state next to the browser it runs in. *)
Record world := World {
  window : browser;
  user : value;
  loading : bool;
  loginLoading : bool }.

Definition initial (b : browser) : world :=
  {| window := b; user := JNull; loading := true; loginLoading := false |}.

Definition on_window (f : browser -> browser) (w : world) : world :=
  {| window := f (window w); user := user w; loading := loading w;
     loginLoading := loginLoading w |}.
Definition setUser (u : value) (w : world) : world :=
  {| window := window w; user := u; loading := loading w;
     loginLoading := loginLoading w |}.
Definition setLoading (l : bool) (w : world) : world :=
  {| window := window w; user := user w; loading := l;
     loginLoading := loginLoading w |}.
Definition setLoginLoading (l : bool) (w : world) : world :=
  {| window := window w; user := user w; loading := loading w;
     loginLoading := l |}.

(** Run a gateway call in the provider's browser. *)
Definition call {A} (m : M browser A) : M world A :=
  fun w => let '(r, b) := m (window w) in (r, on_window (fun _ => b) w).

(** What [login] and [register] resolve with: [{success: true, user}] or
    [{success: false, error}]. *)
Inductive outcome :=
| Success (user : value)
| Failure (error : value).

(** [!!user]. *)
Definition isAuthenticated (w : world) : bool := truthy (user w).

Section WithNetwork.

Variable net : request -> settled http_response.
Variable JSON_stringify : value -> string.

Definition checkAuthStatus : M world unit :=
  finally
    (try_catch
       (token ← gets (fun w => stored_token (window w));
        match token with
        | None => modify (setLoading false)
        | Some _ =>
            response ← call (ApiService.getCurrentUser net);
            modify (setUser response)
        end)
       (fun _ =>
          modify (on_window (ls_remove "access_token"));;
          modify (on_window (ls_remove "user_id"));;
          modify (setUser JNull)))
    (setLoading false).

Definition login (email password : string) : M world outcome :=
  modify (setLoginLoading true);;
  finally
    (try_catch
       (response ← call (ApiService.login net JSON_stringify
                           (toLowerCase (trim email)) password);
        access_token ← get_prop response "access_token";
        if truthy access_token && truthy (prop response "user") then
          modify (on_window (ls_set "access_token" (to_string access_token)));;
          (let id := prop (prop response "user") "id" in
           if truthy id then modify (on_window (ls_set "user_id" (to_string id)))
           else mret tt);;
          modify (setUser (prop response "user"));;
          mret (Success (prop response "user"))
        else mret (Failure (JStr "Invalid response from server")))
       (fun error =>
          match getErrorMessage error "login" with
          | Resolved errorMessage => mret (Failure errorMessage)
          | Rejected e => throw e
          end))
    (setLoginLoading false).

(** [v.trim().toLowerCase()] for what [userData.email] holds: reading
    [trim] of a nullish value throws, and so does calling it on a value
    that is not a string. *)
Definition normalized (v : value) : M world string :=
  match v with
  | JStr s => mret (toLowerCase (trim s))
  | JUndefined | JNull => throw (type_error v "trim")
  | _ => throw {| code := None; response := None;
                  message := "userData.email.trim is not a function" |}
  end.

(** [register(userData)]. Its first statement, outside the [try], logs
    [userData.email]. *)
Definition register (userData : value) : M world outcome :=
  get_prop userData "email";;
  modify (setLoginLoading true);;
  finally
    (try_catch
       (email ← normalized (prop userData "email");
        response ← call (ApiService.register net JSON_stringify
                           (JObj (<["email" := JStr email]> (ApiService.own_props userData))));
        access_token ← get_prop response "access_token";
        if truthy access_token && truthy (prop response "user") then
          modify (on_window (ls_set "access_token" (to_string access_token)));;
          (let id := prop (prop response "user") "id" in
           if truthy id then modify (on_window (ls_set "user_id" (to_string id)))
           else mret tt);;
          modify (setUser (prop response "user"));;
          mret (Success (prop response "user"))
        else mret (Failure (JStr "Registration failed")))
       (fun error =>
          match getErrorMessage error "register" with
          | Resolved errorMessage => mret (Failure errorMessage)
          | Rejected e => throw e
          end))
    (setLoginLoading false).

Definition logout : M world unit :=
  finally
    (try_catch (call (ApiService.logout net)) (fun _ => mret tt))
    (fun w =>
       on_window (navigate_hard "/")
         (setUser JNull
            (on_window ls_clear
               (on_window (ls_remove "user_id")
                  (on_window (ls_remove "access_token") w))))).

Definition refreshUser : M world value :=
  try_catch
    (response ← call (ApiService.getCurrentUser net);
     modify (setUser response);;
     mret response)
    (fun _ => mret JNull).

End WithNetwork.
End AuthProvider.

(* ===================================================================== *)
(** ** The route guard: the two App.jsx files and the header's role *)
(* ===================================================================== *)

(** What a guard renders: a redirect ([<Navigate to=... replace />]) or
    the page it protects. *)
Inductive element :=
| Navigate (to : string)
| Children.

(** The props of [ProtectedRoute], with their defaults [[]] and [false]. *)
Record route_props := RouteProps {
  allowedRoles : list string;
  requiresContactInfo : bool }.

(** [allowedRoles.length > 0 && !allowedRoles.includes(user.role)]. *)
Definition role_rejected (props : route_props) (user : value) : bool :=
  negb (length (allowedRoles props) =? 0)%nat
  && negb (includes (allowedRoles props) (prop user "role")).

(** [requiresContactInfo && !user.contactInfoCompleted], and not already
    on the contact page. *)
Definition needs_contact_info (props : route_props) (user : value)
    (pathname : string) : bool :=
  requiresContactInfo props
  && negb (truthy (prop user "contactInfoCompleted"))
  && negb (String.eqb pathname "/contact-info").

(** The App.jsx with role home pages (the file headed "Fixed Version with
    Correct Owner Dashboard Import"). *)
Module AppRoleHome.

Definition getDefaultPathForRole (role : value) : string :=
  match role with
  | JStr r =>
      if String.eqb r "owner" then "/owner"
      else if String.eqb r "admin" then "/admin"
      else "/dashboard"
  | _ => "/dashboard"
  end.

(** The guard renders an element and may remember the path in
    [sessionStorage]. *)
Definition ProtectedRoute (props : route_props) (user : value)
    (pathname : string) (ss : gmap string string) : element * gmap string string :=
  if negb (truthy user) then
    (Navigate "/", <["redirectAfterLogin" := pathname]> ss)
  else if role_rejected props user then
    (Navigate (getDefaultPathForRole (prop user "role")), ss)
  else if needs_contact_info props user pathname then
    (Navigate "/contact-info", <["redirectAfterContactInfo" := pathname]> ss)
  else (Children, ss).

End AppRoleHome.

(** frontend/src/App.jsx (headed "Complete Version with Correct
    Routing"): one dashboard for every role. *)
Module App.

Definition ProtectedRoute (props : route_props) (user : value)
    (pathname : string) (ss : gmap string string) : element * gmap string string :=
  if negb (truthy user) then
    (Navigate "/", <["redirectAfterLogin" := pathname]> ss)
  else if role_rejected props user then
    (Navigate "/dashboard", ss)
  else if needs_contact_info props user pathname then
    (Navigate "/contact-info", <["redirectAfterContactInfo" := pathname]> ss)
  else (Children, ss).

End App.

(** components/layout/Header.jsx. *)
Module Header.

(** [getUserRole]: an object role answers its truthy [value]; a falsy
    role is ['user']; anything else is returned as it is. *)
Definition getUserRole (user : value) : value :=
  let role := opt_prop user "role" in
  if String.eqb (typeof role) "object" && truthy (opt_prop role "value") then
    prop role "value"
  else or_else role (JStr "user").

(** The [label] of [getRoleInfo]: the role of [getUserRole], lower-cased,
    picks the badge. Calling [toLowerCase] on a role that is not a string
    throws. *)
Definition getRoleInfo (user : value) : settled string :=
  match getUserRole user with
  | JStr role =>
      let role := AuthProvider.toLowerCase role in
      if String.eqb role "owner" then Resolved "Owner"
      else if String.eqb role "admin" then Resolved "Admin"
      else Resolved "User"
  | _ => Rejected {| code := None; response := None;
                     message := "getUserRole(...).toLowerCase is not a function" |}
  end.

End Header.

(** The three roles of the data model. *)
Definition enumerated_role (role : value) : bool :=
  includes ["user"; "admin"; "owner"] role.

(* ===================================================================== *)
(** ** The WebSocket side: useCampaignWebSocket.js and ApiService *)
(* ===================================================================== *)

Module WebSocket.

Inductive ready_state := CONNECTING | OPEN | CLOSING | CLOSED.

(** What the socket delivers to its handlers; a message carries the
    parse of [event.data], [None] when the text is not JSON. *)
Inductive ws_event :=
| OnOpen
| OnMessage (parsed : option value)
| OnClose.

(** *** The hook of useCampaignWebSocket.js *)

(** The hook's state ([stats], [connected]), the [campaignId] of the
    latest render, the socket the effect holds (sockets are numbered in
    the order the hook creates them), how many it has created, the
    sockets [ws.close()] was called on (latest first), and whether the
    component is still mounted. *)
Record hook := Hook {
  campaignId : value;
  stats : value;
  connected : bool;
  held : option nat;
  created : nat;
  close_calls : list nat;
  alive : bool }.

(** The three handlers the effect installs on a socket. A text that is
    not JSON makes [JSON.parse] throw inside [onmessage], before
    [setStats]. *)
Definition hook_handle (ev : ws_event) (h : hook) : hook :=
  match ev with
  | OnOpen =>
      {| campaignId := campaignId h; stats := stats h; connected := true;
         held := held h; created := created h; close_calls := close_calls h;
         alive := alive h |}
  | OnMessage (Some data) =>
      {| campaignId := campaignId h; stats := data; connected := connected h;
         held := held h; created := created h; close_calls := close_calls h;
         alive := alive h |}
  | OnMessage None => h
  | OnClose =>
      {| campaignId := campaignId h; stats := stats h; connected := false;
         held := held h; created := created h; close_calls := close_calls h;
         alive := alive h |}
  end.

(** Whether the effect gets its socket: the template literal throws on
    a [campaignId] that does not convert to text, and [new WebSocket]
    throws a [SyntaxError] on a URL with a fragment, which the URL has
    exactly when the text of [campaignId] holds a [#] (the host is fixed
    and every other text parses as its path or query). *)
Definition constructs (campaignId : value) : bool :=
  converts campaignId && negb (str_includes "#" (to_string campaignId)).

(** The body of the effect: nothing for a falsy [campaignId], otherwise
    a new socket with the handlers on it. When the body throws, React
    unmounts the component; the effect has then returned no cleanup and
    holds no socket. *)
Definition hook_effect (h : hook) : hook :=
  if truthy (campaignId h) then
    if constructs (campaignId h) then
      {| campaignId := campaignId h; stats := stats h; connected := connected h;
         held := Some (created h); created := S (created h);
         close_calls := close_calls h; alive := alive h |}
    else
      {| campaignId := campaignId h; stats := stats h; connected := connected h;
         held := None; created := created h;
         close_calls := close_calls h; alive := false |}
  else h.

(** The cleanup the effect returned, if it created a socket:
    [ws.close()]. *)
Definition hook_cleanup (h : hook) : hook :=
  match held h with
  | Some k =>
      {| campaignId := campaignId h; stats := stats h; connected := connected h;
         held := None; created := created h;
         close_calls := k :: close_calls h; alive := alive h |}
  | None => h
  end.

Definition hook_mount (campaignId : value) : hook :=
  hook_effect {| campaignId := campaignId; stats := JNull; connected := false;
                 held := None; created := 0; close_calls := []; alive := true |}.

(** What reaches the hook: an event of one of its sockets, a render with
    a [campaignId], or the unmount. *)
Inductive hook_event :=
| FromSocket (k : nat) (ev : ws_event)
| Rerender (campaignId : value)
| HookUnmount.

(** [Object.is] on the effect's dependency between two renders:
    primitives compare by value; an array or an object is a reference. A
    render that passes the reference of the render before changes
    nothing and is no event here: a [Rerender] with an array or an
    object carries a new one. *)
Definition same_id (a b : value) : bool :=
  match a, b with
  | JUndefined, JUndefined | JNull, JNull => true
  | JBool x, JBool y => Bool.eqb x y
  | JNum x, JNum y => (x =? y)%Z
  | JStr x, JStr y => String.eqb x y
  | _, _ => false
  end.

(** A socket delivers to a mounted hook. After [close()] was called on
    it, it delivers its [close] event and nothing else. *)
Definition delivers (k : nat) (ev : ws_event) (h : hook) : bool :=
  alive h && (k <? created h)%nat
  && match ev with
     | OnClose => true
     | _ => negb (existsb (Nat.eqb k) (close_calls h))
     end.

Definition hook_step (ev : hook_event) (h : hook) : hook :=
  match ev with
  | FromSocket k ev => if delivers k ev h then hook_handle ev h else h
  | Rerender id =>
      if alive h && negb (same_id (campaignId h) id) then
        let h := hook_cleanup h in
        hook_effect {| campaignId := id; stats := stats h; connected := connected h;
                       held := held h; created := created h;
                       close_calls := close_calls h; alive := alive h |}
      else h
  | HookUnmount =>
      if alive h then
        let h := hook_cleanup h in
        {| campaignId := campaignId h; stats := stats h; connected := connected h;
           held := held h; created := created h; close_calls := close_calls h;
           alive := false |}
      else h
  end.

Definition hook_run (evs : list hook_event) (h : hook) : hook :=
  fold_left (fun h ev => hook_step ev h) evs h.

(** No socket is left behind: [close()] was called once on every socket
    created except the one held, and one is held exactly while the hook
    is mounted with a truthy [campaignId]. *)
Definition tidy (h : hook) : Prop :=
  NoDup (close_calls h)
  /\ (forall k, In k (close_calls h) <-> (k < created h)%nat /\ held h <> Some k)
  /\ (forall k, held h = Some k -> (k < created h)%nat)
  /\ (held h <> None <-> alive h = true /\ truthy (campaignId h) = true).

(** *** [ApiService.connectWebSocket] and [closeWebSocket] *)

(** The socket object with the [_pingInterval] the service hangs on it,
    the frames sent and what reached the consumer's [onMessage]
    (latest first). *)
Record socket := Socket {
  readyState : ready_state;
  pingInterval : bool;
  frames : list string;
  dispatched : list value }.

Definition is_open (ws : socket) : bool :=
  match readyState ws with OPEN => true | _ => false end.

Definition send_ping (ws : socket) : socket :=
  if is_open ws then
    {| readyState := readyState ws; pingInterval := pingInterval ws;
       frames := "ping" :: frames ws; dispatched := dispatched ws |}
  else ws.

(** [connectWebSocket]: no socket without a stored token (the error
    callback is told); otherwise a connecting socket with its ping
    interval armed. The first component is what [onError] received. *)
Definition connectWebSocket (b : browser) : option string * option socket :=
  match stored_token b with
  | None => (Some "No authentication token", None)
  | Some _ =>
      (None, Some {| readyState := CONNECTING; pingInterval := true;
                     frames := []; dispatched := [] |})
  end.

(** [ws.onmessage]: the informational types are logged, every other
    message goes to [onMessage]; reading [type] of a [null] message
    throws inside the [try] and is logged. *)
Definition forwards (data : value) : bool :=
  negb (nullish data)
  && match prop data "type" with
     | JStr t => negb (String.eqb t "connection" || String.eqb t "pong"
                       || String.eqb t "keepalive")
     | _ => true
     end.

Definition socket_handle (ev : ws_event) (ws : socket) : socket :=
  match ev with
  | OnOpen =>
      send_ping {| readyState := OPEN; pingInterval := pingInterval ws;
                   frames := frames ws; dispatched := dispatched ws |}
  | OnMessage (Some data) =>
      if forwards data then
        {| readyState := readyState ws; pingInterval := pingInterval ws;
           frames := frames ws; dispatched := data :: dispatched ws |}
      else ws
  | OnMessage None => ws
  | OnClose =>
      {| readyState := CLOSED; pingInterval := pingInterval ws;
         frames := frames ws; dispatched := dispatched ws |}
  end.

(** One firing of the 30 s interval: ping when open, otherwise the
    interval clears itself. *)
Definition ping_tick (ws : socket) : socket :=
  if negb (pingInterval ws) then ws
  else if is_open ws then send_ping ws
  else {| readyState := readyState ws; pingInterval := false;
          frames := frames ws; dispatched := dispatched ws |}.

(** [closeWebSocket(ws)]. *)
Definition closeWebSocket (ws : option socket) : option socket :=
  match ws with
  | None => None
  | Some ws =>
      Some {| readyState := if is_open ws then CLOSING else readyState ws;
              pingInterval := false;
              frames := frames ws; dispatched := dispatched ws |}
  end.

Definition socket_run (evs : list ws_event) (ws : socket) : socket :=
  fold_left (fun ws ev => socket_handle ev ws) evs ws.

(** The messages among the events that parsed as JSON, in arrival
    order. *)
Definition received (evs : list ws_event) : list value :=
  omap (fun ev => match ev with OnMessage (Some data) => Some data | _ => None end) evs.

End WebSocket.

(* ===================================================================== *)
(** ** pages/FormSubmitterPage.jsx: the status-polling effect *)
(* ===================================================================== *)

Module FormSubmitterPage.

(** An interval installed by one run of the effect, with the values its
    callback closed over. *)
Record closure := Closure {
  timer_id : nat;
  cap_campaign : value;
  cap_errors : Z }.

(** The React state the effect reads and writes, the interval that is
    running, the callbacks suspended at [await getCampaignStatus] (oldest
    first), and what left the component: the campaign ids of the status
    requests issued, the toasts and the navigations asked for (latest
    first). *)
Record page := Page {
  processingCampaignId : value;
  campaignStatus : value;
  statusCheckErrors : Z;
  error : value;
  success : bool;
  statusInterval : option closure;
  next_timer : nat;
  inflight : list closure;
  polls : list value;
  toasts : list (string * value);
  navigations : list string }.

Definition mounted : page :=
  {| processingCampaignId := JNull; campaignStatus := JNull; statusCheckErrors := 0;
     error := JNull; success := false; statusInterval := None; next_timer := 0;
     inflight := []; polls := []; toasts := []; navigations := [] |}.

Definition setProcessingCampaignId (v : value) (p : page) : page :=
  {| processingCampaignId := v; campaignStatus := campaignStatus p;
     statusCheckErrors := statusCheckErrors p; error := error p; success := success p;
     statusInterval := statusInterval p; next_timer := next_timer p;
     inflight := inflight p; polls := polls p; toasts := toasts p;
     navigations := navigations p |}.
Definition setCampaignStatus (v : value) (p : page) : page :=
  {| processingCampaignId := processingCampaignId p; campaignStatus := v;
     statusCheckErrors := statusCheckErrors p; error := error p; success := success p;
     statusInterval := statusInterval p; next_timer := next_timer p;
     inflight := inflight p; polls := polls p; toasts := toasts p;
     navigations := navigations p |}.
Definition setStatusCheckErrors (f : Z -> Z) (p : page) : page :=
  {| processingCampaignId := processingCampaignId p; campaignStatus := campaignStatus p;
     statusCheckErrors := f (statusCheckErrors p); error := error p; success := success p;
     statusInterval := statusInterval p; next_timer := next_timer p;
     inflight := inflight p; polls := polls p; toasts := toasts p;
     navigations := navigations p |}.
Definition setError (v : value) (p : page) : page :=
  {| processingCampaignId := processingCampaignId p; campaignStatus := campaignStatus p;
     statusCheckErrors := statusCheckErrors p; error := v; success := success p;
     statusInterval := statusInterval p; next_timer := next_timer p;
     inflight := inflight p; polls := polls p; toasts := toasts p;
     navigations := navigations p |}.
Definition setSuccess (v : bool) (p : page) : page :=
  {| processingCampaignId := processingCampaignId p; campaignStatus := campaignStatus p;
     statusCheckErrors := statusCheckErrors p; error := error p; success := v;
     statusInterval := statusInterval p; next_timer := next_timer p;
     inflight := inflight p; polls := polls p; toasts := toasts p;
     navigations := navigations p |}.
Definition set_interval (i : option closure) (n : nat) (p : page) : page :=
  {| processingCampaignId := processingCampaignId p; campaignStatus := campaignStatus p;
     statusCheckErrors := statusCheckErrors p; error := error p; success := success p;
     statusInterval := i; next_timer := n;
     inflight := inflight p; polls := polls p; toasts := toasts p;
     navigations := navigations p |}.
Definition set_inflight (l : list closure) (p : page) : page :=
  {| processingCampaignId := processingCampaignId p; campaignStatus := campaignStatus p;
     statusCheckErrors := statusCheckErrors p; error := error p; success := success p;
     statusInterval := statusInterval p; next_timer := next_timer p;
     inflight := l; polls := polls p; toasts := toasts p;
     navigations := navigations p |}.
Definition log_poll (id : value) (p : page) : page :=
  {| processingCampaignId := processingCampaignId p; campaignStatus := campaignStatus p;
     statusCheckErrors := statusCheckErrors p; error := error p; success := success p;
     statusInterval := statusInterval p; next_timer := next_timer p;
     inflight := inflight p; polls := id :: polls p; toasts := toasts p;
     navigations := navigations p |}.
Definition toast (kind : string) (msg : value) (p : page) : page :=
  {| processingCampaignId := processingCampaignId p; campaignStatus := campaignStatus p;
     statusCheckErrors := statusCheckErrors p; error := error p; success := success p;
     statusInterval := statusInterval p; next_timer := next_timer p;
     inflight := inflight p; polls := polls p; toasts := (kind, msg) :: toasts p;
     navigations := navigations p |}.
Definition navigate (path : string) (p : page) : page :=
  {| processingCampaignId := processingCampaignId p; campaignStatus := campaignStatus p;
     statusCheckErrors := statusCheckErrors p; error := error p; success := success p;
     statusInterval := statusInterval p; next_timer := next_timer p;
     inflight := inflight p; polls := polls p; toasts := toasts p;
     navigations := path :: navigations p |}.

(** [clearInterval(id)]: stops the interval with that id if it is the
    one running. *)
Definition clearInterval (id : nat) (p : page) : page :=
  match statusInterval p with
  | Some cl => if (timer_id cl =? id)%nat then set_interval None (next_timer p) p else p
  | None => p
  end.

(** [Object.is] on the values a dependency takes: primitives compare by
    value; an array or object is the same only if it is the same
    reference, that is if the state holding it was not replaced. *)
Definition prim_eqb (a b : value) : bool :=
  match a, b with
  | JUndefined, JUndefined | JNull, JNull => true
  | JBool x, JBool y => Bool.eqb x y
  | JNum x, JNum y => (x =? y)%Z
  | JStr x, JStr y => String.eqb x y
  | _, _ => false
  end.

Definition object_is (replaced : bool) (a b : value) : bool :=
  match b with
  | JArr _ | JObj _ => negb replaced
  | _ => prim_eqb a b
  end.

(** The dependency array [processingCampaignId,
    campaignStatus?.is_complete, statusCheckErrors, navigate] between two
    renders ([navigate] is the router's stable function). *)
Definition deps_same (id_replaced status_replaced : bool) (old new : page) : bool :=
  object_is id_replaced (processingCampaignId old) (processingCampaignId new)
  && object_is status_replaced (opt_prop (campaignStatus old) "is_complete")
       (opt_prop (campaignStatus new) "is_complete")
  && (statusCheckErrors old =? statusCheckErrors new)%Z.

(** [processingCampaignId && !campaignStatus?.is_complete]. *)
Definition should_poll (p : page) : bool :=
  truthy (processingCampaignId p)
  && negb (truthy (opt_prop (campaignStatus p) "is_complete")).

(** The render after a batch of state updates: when a dependency
    changed, the previous effect's cleanup clears its interval and the
    effect body runs again, installing a fresh interval whose callback
    closes over the state of this render. *)
Definition commit (same : bool) (p : page) : page :=
  if same then p
  else if should_poll p then
    set_interval
      (Some {| timer_id := next_timer p; cap_campaign := processingCampaignId p;
               cap_errors := statusCheckErrors p |})
      (S (next_timer p)) p
  else set_interval None (next_timer p) p.

(** The [catch] block of the interval callback. The threshold test reads
    the [statusCheckErrors] the callback closed over. *)
Definition on_error (cl : closure) (p : page) : page :=
  let p := setStatusCheckErrors (fun prev => prev + 1)%Z p in
  if (cap_errors cl >=? 10)%Z then
    toast "error" (JStr "Connection lost. Please check campaign status manually.")
      (setError (JStr "Lost connection to campaign processing. Please check campaign list.")
         (clearInterval (timer_id cl) p))
  else p.

Definition campaign_path (cl : closure) : string :=
  "/campaigns/" +:+ to_string (cap_campaign cl).

Section WithToast.

(** Whether the toast library in use has an [info] method; calling a
    missing method throws inside the [try]. The library is not part of
    the repository. *)
Variable toast_info_defined : bool.

(** The [try] block after [await] resolved with [status]. *)
Definition on_status (status : value) (cl : closure) (p : page) : page :=
  let p := setStatusCheckErrors (fun _ => 0%Z) (setCampaignStatus status p) in
  if nullish status then on_error cl p
  else if truthy (prop status "is_complete") then
    let p := setProcessingCampaignId JNull (clearInterval (timer_id cl) p) in
    match prop status "status" with
    | JStr s =>
        if String.eqb s "COMPLETED" then
          (* the navigation is deferred by a 2 s timeout *)
          navigate (campaign_path cl)
            (toast "success" (JStr "Campaign completed successfully!") (setSuccess true p))
        else if String.eqb s "FAILED" then
          let errorMsg := or_else (prop status "error_message")
                            (JStr "Campaign processing failed") in
          toast "error" errorMsg (setError errorMsg p)
        else if String.eqb s "STOPPED" then
          if toast_info_defined then
            navigate (campaign_path cl) (toast "info" (JStr "Campaign was stopped") p)
          else on_error cl p
        else p
    | _ => p
    end
  else p.

(** What the event loop delivers to the page. [Submit] is the branch of
    [handleSubmit] taken when the start request answered with a truthy
    [success] and a truthy [campaign_id]; with a falsy id that branch is
    not taken and the event is ignored. *)
Inductive event :=
| Submit (campaign_id total_urls : value)   (* the success branch of [handleSubmit] *)
| Tick                                      (* the 2 s interval fires *)
| Settle (k : nat) (r : settled value).     (* the k-th pending status request settles *)

Definition step (ev : event) (p : page) : page :=
  match ev with
  | Submit campaign_id total_urls =>
      if truthy campaign_id then
        let st := JObj (<["campaign_id" := campaign_id]>
                       (<["total" := or_else total_urls (JNum 0)]>
                       (<["processed" := JNum 0]>
                       (<["successful" := JNum 0]>
                       (<["failed" := JNum 0]>
                       (<["status" := JStr "PROCESSING"]>
                       (<["progress_percent" := JNum 0]>
                       (<["is_complete" := JBool false]> ∅)))))))) in
        let p' := toast "success"
                    (JStr ("Campaign started with " +:+ to_string total_urls +:+ " URLs"))
                    (setCampaignStatus st (setProcessingCampaignId campaign_id p)) in
        commit (deps_same true true p p') p'
      else p
  | Tick =>
      match statusInterval p with
      | Some cl => set_inflight (inflight p ++ [cl]) (log_poll (cap_campaign cl) p)
      | None => p
      end
  | Settle k r =>
      match inflight p !! k with
      | Some cl =>
          let p0 := set_inflight (delete k (inflight p)) p in
          match r with
          | Resolved status =>
              let p' := on_status status cl p0 in
              commit (deps_same false true p p') p'
          | Rejected _ =>
              let p' := on_error cl p0 in
              commit (deps_same false false p p') p'
          end
      | None => p
      end
  end.

Definition run (evs : list event) (p : page) : page :=
  fold_left (fun p ev => step ev p) evs p.

(** One poll that settles before the next tick. *)
Definition poll (r : settled value) : list event := [Tick; Settle 0 r].

(** [n] polls in a row that all fail with [e]. *)
Definition failed_polls (n : nat) (e : js_error) : list event :=
  concat (replicate n (poll (Rejected e))).

End WithToast.

(** The interval runs only while the effect's condition holds. *)
Definition interval_justified (p : page) : Prop :=
  forall cl, statusInterval p = Some cl -> should_poll p = true.

(** An event other than a submission. *)
Definition not_submit (ev : event) : bool :=
  match ev with Submit _ _ => false | _ => true end.

(** The campaign ids of the submissions that started a campaign, in
    order. *)
Definition submitted (evs : list event) : list value :=
  omap (fun ev => match ev with
                  | Submit campaign_id _ =>
                      if truthy campaign_id then Some campaign_id else None
                  | _ => None
                  end) evs.

(** Every campaign id the page holds, polls for or has polled for is
    among [ids]. *)
Definition tracks (ids : list value) (p : page) : Prop :=
  (truthy (processingCampaignId p) = true -> In (processingCampaignId p) ids)
  /\ (forall cl, statusInterval p = Some cl -> In (cap_campaign cl) ids)
  /\ Forall (fun cl => In (cap_campaign cl) ids) (inflight p)
  /\ Forall (fun id => In id ids) (polls p).

End FormSubmitterPage.

(* ===================================================================== *)
(** ** pages/OwnerDashboard.jsx: fetchAPI and fetchDashboardData *)
(* ===================================================================== *)

Module OwnerDashboard.

(** The seven URLs a batch requests. *)
Inductive endpoint :=
| AnalyticsUser (days : Z)
| DailyStats (days : Z)
| Performance (days : Z)
| Campaigns
| AdminUsers
| Revenue (days : Z)
| AdminMetrics.

Definition getDaysFromPeriod (period : string) : Z :=
  if String.eqb period "today" then 1
  else if String.eqb period "week" then 7
  else if String.eqb period "month" then 30
  else if String.eqb period "year" then 365
  else 30.

(** What the network delivers for one [fetch]: an ok response with its
    parsed text ([None] for an empty text), a response that is not ok, or
    a throw (the fetch rejected, or the text is not JSON). An abort is
    not a reply: it is caused by the component itself. *)
Inductive reply :=
| ReplyOk (parsed : option value)
| ReplyStatus (status : Z) (statusText : string)
| ReplyThrows (e : js_error).

(** A [fetch] on the wire: the abort signal it was given (the controller
    in the ref when [fetchAPI] was called), its bearer token, and the
    batch and slot awaiting its result. *)
Record fetch := Fetch {
  rid : nat;
  target : endpoint;
  signal : option nat;
  bearer : option string;
  owner : nat;
  slot : string }.

(** An invocation of [fetchDashboardData] suspended at an [await]:
    waiting for the analytics request, or for [Promise.allSettled] over
    the supporting requests still pending, with the entries of [dataMap]
    known so far. *)
Inductive phase :=
| AwaitAnalytics
| AwaitSupporting (analyticsData : value) (dataMap : gmap string value) (pending : nat).

Record batch := Batch {
  batch_id : nat;
  days : Z;
  at_phase : phase }.

Section WithProcessing.

(** Steps 4 and later of [fetchDashboardData] compute the arguments of
    the seven batched setters from [analyticsData] and [dataMap] alone
    (number and date formatting included), and throw on data of the wrong
    shape. The model keeps the pair the arguments are computed from, and
    is parametric in whether the computation throws. *)
Variable processing_error : value -> gmap string value -> option js_error.

(** The refs, the React state, the browser, and the in-flight work.
    [writes] lists the batches whose batched update was applied, latest
    first. *)
Record dashboard := Dashboard {
  abortControllerRef : option nat;
  isLoadingRef : bool;
  lastFetchTimeRef : Z;
  mountedRef : bool;
  selectedPeriod : string;
  loading : bool;
  error : value;
  view : option (value * gmap string value);
  notifications : list (string * string);
  window : browser;
  flying : list fetch;
  issued : list fetch;
  batches : list batch;
  fresh : nat;
  writes : list nat }.

Definition mounted (b : browser) : dashboard :=
  {| abortControllerRef := None; isLoadingRef := false; lastFetchTimeRef := 0;
     mountedRef := true; selectedPeriod := "month"; loading := true; error := JNull;
     view := None; notifications := []; window := b; flying := []; issued := [];
     batches := []; fresh := 0; writes := [] |}.

Definition set_refs (c : option nat) (l : bool) (t : Z) (m : bool) (d : dashboard) :=
  {| abortControllerRef := c; isLoadingRef := l; lastFetchTimeRef := t;
     mountedRef := m; selectedPeriod := selectedPeriod d; loading := loading d;
     error := error d; view := view d; notifications := notifications d;
     window := window d; flying := flying d; issued := issued d;
     batches := batches d; fresh := fresh d; writes := writes d |}.
Definition set_isLoadingRef (l : bool) (d : dashboard) :=
  set_refs (abortControllerRef d) l (lastFetchTimeRef d) (mountedRef d) d.
Definition set_react (period : string) (l : bool) (e : value) (d : dashboard) :=
  {| abortControllerRef := abortControllerRef d; isLoadingRef := isLoadingRef d;
     lastFetchTimeRef := lastFetchTimeRef d; mountedRef := mountedRef d;
     selectedPeriod := period; loading := l; error := e; view := view d;
     notifications := notifications d; window := window d; flying := flying d;
     issued := issued d; batches := batches d; fresh := fresh d; writes := writes d |}.
Definition setLoading (l : bool) (d : dashboard) :=
  set_react (selectedPeriod d) l (error d) d.
Definition setError (e : value) (d : dashboard) :=
  set_react (selectedPeriod d) (loading d) e d.
Definition set_view (u : value * gmap string value) (by_batch : nat) (d : dashboard) :=
  {| abortControllerRef := abortControllerRef d; isLoadingRef := isLoadingRef d;
     lastFetchTimeRef := lastFetchTimeRef d; mountedRef := mountedRef d;
     selectedPeriod := selectedPeriod d; loading := loading d; error := error d;
     view := Some u; notifications := notifications d; window := window d;
     flying := flying d; issued := issued d; batches := batches d; fresh := fresh d;
     writes := by_batch :: writes d |}.
Definition set_window (b : browser) (d : dashboard) :=
  {| abortControllerRef := abortControllerRef d; isLoadingRef := isLoadingRef d;
     lastFetchTimeRef := lastFetchTimeRef d; mountedRef := mountedRef d;
     selectedPeriod := selectedPeriod d; loading := loading d; error := error d;
     view := view d; notifications := notifications d; window := b;
     flying := flying d; issued := issued d; batches := batches d; fresh := fresh d;
     writes := writes d |}.
Definition set_work (fl iss : list fetch) (bs : list batch) (n : nat) (d : dashboard) :=
  {| abortControllerRef := abortControllerRef d; isLoadingRef := isLoadingRef d;
     lastFetchTimeRef := lastFetchTimeRef d; mountedRef := mountedRef d;
     selectedPeriod := selectedPeriod d; loading := loading d; error := error d;
     view := view d; notifications := notifications d; window := window d;
     flying := fl; issued := iss; batches := bs; fresh := n; writes := writes d |}.

(** [displayNotification(message, type)], a no-op once unmounted. *)
Definition displayNotification (msg type : string) (d : dashboard) :=
  if mountedRef d then
    {| abortControllerRef := abortControllerRef d; isLoadingRef := isLoadingRef d;
       lastFetchTimeRef := lastFetchTimeRef d; mountedRef := mountedRef d;
       selectedPeriod := selectedPeriod d; loading := loading d; error := error d;
       view := view d; notifications := (msg, type) :: notifications d;
       window := window d; flying := flying d; issued := issued d;
       batches := batches d; fresh := fresh d; writes := writes d |}
  else d.

(** The synchronous part of [fetchAPI(endpoint)]: the request leaves with
    the signal of the controller that is in the ref now. *)
Definition fetchAPI (target : endpoint) (owner : nat) (slot : string)
    (d : dashboard) : dashboard :=
  let f := {| rid := fresh d; target := target; signal := abortControllerRef d;
              bearer := stored_token (window d); owner := owner; slot := slot |} in
  set_work (flying d ++ [f]) (f :: issued d) (batches d) (S (fresh d)) d.

(** How [fetchAPI] settles on a reply. *)
Definition fetchAPI_result (r : reply) (d : dashboard) : settled value * dashboard :=
  match r with
  | ReplyOk None => (Resolved JNull, d)
  | ReplyOk (Some jsonData) => (Resolved jsonData, d)
  | ReplyStatus st statusText =>
      if (st =? 401)%Z then
        (Rejected (new_Error (JStr "Authentication required")),
         set_window (navigate_hard "/" (ls_remove "access_token" (window d))) d)
      else
        (Rejected (new_Error (JStr ("API Error: " +:+ pretty st +:+ " - " +:+ statusText))), d)
  | ReplyThrows e => (Rejected e, d)
  end.

(** The [finally] block. *)
Definition finish (d : dashboard) : dashboard :=
  let d := set_isLoadingRef false d in
  if mountedRef d then setLoading false d else d.

Definition drop_batch (id : nat) (d : dashboard) : dashboard :=
  set_work (flying d) (issued d)
    (filter (fun b => batch_id b ≠ id) (batches d)) (fresh d) d.

Definition put_batch (b : batch) (d : dashboard) : dashboard :=
  set_work (flying d) (issued d)
    (b :: filter (fun b' => batch_id b' ≠ batch_id b) (batches d)) (fresh d) d.

(** Step 3: the six supporting requests, issued in the order of the
    object literal. *)
Definition start_supporting (b : batch) (analyticsData : value) (d : dashboard) :=
  let id := batch_id b in
  let d := fetchAPI (DailyStats (days b)) id "dailyStats" d in
  let d := fetchAPI (Performance (days b)) id "performance" d in
  let d := fetchAPI Campaigns id "campaigns" d in
  let d := fetchAPI AdminUsers id "users" d in
  let d := fetchAPI (Revenue (days b)) id "revenue" d in
  let d := fetchAPI AdminMetrics id "metrics" d in
  put_batch {| batch_id := id; days := days b;
               at_phase := AwaitSupporting analyticsData ∅ 6 |} d.

(** After [Promise.allSettled]: the batched update, or the [catch]. *)
Definition complete (b : batch) (analyticsData : value) (dataMap : gmap string value)
    (d : dashboard) : dashboard :=
  let d := drop_batch (batch_id b) d in
  if negb (mountedRef d) then finish d
  else
    match processing_error analyticsData dataMap with
    | None => finish (set_view (analyticsData, dataMap) (batch_id b) d)
    | Some err =>
        finish (displayNotification "Failed to load dashboard data. Please try again." "error"
                  (setError (JStr ("Failed to load dashboard data: " +:+ message err)) d))
    end.

(** The continuation of the batch that awaited request [f], resumed with
    the result [r] of its [fetchAPI]. *)
Definition resume (f : fetch) (r : settled value) (d : dashboard) : dashboard :=
  match List.find (fun b => (batch_id b =? owner f)%nat) (batches d) with
  | None => d
  | Some b =>
      match at_phase b with
      | AwaitAnalytics =>
          if negb (mountedRef d) then finish (drop_batch (batch_id b) d)
          else
            match r with
            | Resolved analyticsData => start_supporting b analyticsData d
            | Rejected e =>
                start_supporting b JNull
                  (displayNotification ("Failed to load analytics data: " +:+ message e)
                     "error" d)
            end
      | AwaitSupporting analyticsData dataMap pending =>
          let v := match r with Resolved v => v | Rejected _ => JNull end in
          let dataMap := <[slot f := v]> dataMap in
          match pending with
          | 1%nat => complete b analyticsData dataMap d
          | _ => put_batch {| batch_id := batch_id b; days := days b;
                              at_phase := AwaitSupporting analyticsData dataMap
                                            (Nat.pred pending) |} d
          end
      end
  end.

(** [abortControllerRef.current.abort()]: every request flying under that
    controller leaves the wire; its [fetchAPI] will answer [null]. *)
Definition abort_current (d : dashboard) : list fetch * dashboard :=
  match abortControllerRef d with
  | None => ([], d)
  | Some c =>
      (filter (fun f => signal f = Some c) (flying d),
       set_work (filter (fun f => signal f ≠ Some c) (flying d))
         (issued d) (batches d) (fresh d) d)
  end.

(** The microtasks after the synchronous code: the batches whose requests
    were aborted resume with [null]. *)
Definition drain (aborted : list fetch) (d : dashboard) : dashboard :=
  fold_left (fun d f => resume f (Resolved JNull) d) aborted d.

(** [!forceRefresh && (isLoadingRef.current || timeSinceLastFetch < 1000)]. *)
Definition suppressed (forceRefresh : bool) (now : Z) (d : dashboard) : bool :=
  negb forceRefresh && (isLoadingRef d || (now - lastFetchTimeRef d <? 1000)%Z).

(** The synchronous part of [fetchDashboardData(forceRefresh)] called at
    time [now], up to its first [await]. *)
Definition start_batch (now : Z) (aborted_d : list fetch * dashboard) : dashboard :=
  let d := snd aborted_d in
  let d := set_refs (Some (fresh d)) true now (mountedRef d) d in
  let d := set_work (flying d) (issued d) (batches d) (S (fresh d)) d in
  if negb (mountedRef d) then d
  else
    let d := setError JNull (setLoading true d) in
    match stored_token (window d) with
    | None => finish (setError (JStr "Authentication required. Please login again.") d)
    | Some _ =>
        let b := {| batch_id := fresh d; days := getDaysFromPeriod (selectedPeriod d);
                    at_phase := AwaitAnalytics |} in
        let d := set_work (flying d) (issued d) (b :: batches d) (S (fresh d)) d in
        fetchAPI (AnalyticsUser (days b)) (batch_id b) "analytics" d
    end.

Definition fetchDashboardData (forceRefresh : bool) (now : Z) (d : dashboard) : dashboard :=
  if suppressed forceRefresh now d then d
  else
    let aborted_d := abort_current d in
    drain (fst aborted_d) (start_batch now aborted_d).

(** What the event loop delivers to the dashboard. *)
Inductive event :=
| Effect (period : string) (now : Z)   (* mount, or a period button: the data effect runs *)
| Refresh (now : Z)                    (* [handleRefresh], from the Refresh or Retry button *)
| Settle (id : nat) (r : reply)        (* the network answers request [id] *)
| Unmount.

(** While [loading] is true the component renders the loader alone:
    neither the period buttons nor the Refresh and Retry buttons are on
    the page. So a click reaches the dashboard only when [loading] is
    false, and the data effect runs either then (a period was chosen) or
    at the mount, before any fetch has installed a controller. *)
Definition offered (ev : event) (d : dashboard) : bool :=
  match ev with
  | Effect _ _ =>
      negb (loading d) || match abortControllerRef d with None => true | Some _ => false end
  | Refresh _ => negb (loading d)
  | Settle _ _ | Unmount => true
  end.

Definition step (ev : event) (d : dashboard) : dashboard :=
  match ev with
  | Effect period now =>
      if negb (offered ev d) then d else
      let d := set_react period (loading d) (error d) d in
      match stored_token (window d) with
      | None => setLoading false (setError (JStr "Please login to view dashboard") d)
      | Some _ => fetchDashboardData false now d
      end
  | Refresh now =>
      if negb (offered ev d) then d else fetchDashboardData true now d
  | Settle id r =>
      match List.find (fun f => (rid f =? id)%nat) (flying d) with
      | None => d
      | Some f =>
          let d := set_work (filter (fun f' => rid f' ≠ id) (flying d))
                     (issued d) (batches d) (fresh d) d in
          let '(res, d) := fetchAPI_result r d in
          resume f res d
      end
  | Unmount =>
      let d := set_refs (abortControllerRef d) (isLoadingRef d) (lastFetchTimeRef d) false d in
      let aborted_d := abort_current d in
      drain (fst aborted_d) (snd aborted_d)
  end.

Definition run (evs : list event) (d : dashboard) : dashboard :=
  fold_left (fun d ev => step ev d) evs d.


End WithProcessing.


(** [d'] shows what [d] showed: the React state, the applied updates and
    the requests issued are the same, and the component is unmounted. *)
Definition quiet (d d' : dashboard) : Prop :=
  mountedRef d' = false
  /\ selectedPeriod d' = selectedPeriod d
  /\ loading d' = loading d
  /\ error d' = error d
  /\ view d' = view d
  /\ notifications d' = notifications d
  /\ writes d' = writes d
  /\ issued d' = issued d.


(** A browser with a token, and a processing that never throws. *)
Definition signed_in : browser := ls_set "access_token" "tok" fresh_browser.
Definition no_throw (a : value) (m : gmap string value) : option js_error := None.

End OwnerDashboard.

(* ===================================================================== *)
(** ** utils/validators.js *)
(* ===================================================================== *)

Module Validators.

(** Strings are byte strings here; on ASCII text a byte is a UTF-16 code
    unit, and [trim], [toLowerCase], [length] and the class [\s] are the
    JavaScript ones. *)
Definition ascii_only (s : string) : bool :=
  forallb (fun c => (nat_of_ascii c <? 128)%nat) (list_ascii_of_string s).

(** [s.endsWith(suffix)]. *)
Definition endsWith (suffix s : string) : bool :=
  (String.length suffix <=? String.length s)%nat
  && String.eqb (String.substring (String.length s - String.length suffix)
                   (String.length suffix) s) suffix.

(** What the validators read of a [File]. *)
Record file := File { name : string; size : Z }.

Definition validateCSVFile (f : option file) : list string :=
  match f with
  | None => ["CSV file is required"]
  | Some f =>
      (if negb (endsWith ".csv" (AuthProvider.toLowerCase (name f)))
       then ["File must be a CSV file"] else [])
      ++ (if (size f >? 5 * 1024 * 1024)%Z
          then ["File size must be less than 5MB"] else [])
      ++ (if (size f =? 0)%Z then ["CSV file is empty"] else [])
  end%list.

(** [!v || v.trim().length === 0]; calling [trim] on a truthy value that
    is not a string throws. *)
Definition blank (v : value) : settled bool :=
  if negb (truthy v) then Resolved true
  else match v with
       | JStr s => Resolved (String.length (AuthProvider.trim s) =? 0)%nat
       | _ => Rejected {| code := None; response := None;
                          message := "trim is not a function" |}
       end.

(** [validateCampaignName] and [validateMessage], on the string a form
    field holds: required, then a minimum, then a maximum, on the trimmed
    length. *)
Definition validateCampaignName (name : string) : list string :=
  let n := String.length (AuthProvider.trim name) in
  if String.eqb name "" || (n =? 0)%nat then ["Campaign name is required"]
  else if (n <? 3)%nat then ["Campaign name must be at least 3 characters"]
  else if (100 <? n)%nat then ["Campaign name must be less than 100 characters"]
  else [].

Definition validateMessage (message : string) : list string :=
  let n := String.length (AuthProvider.trim message) in
  if String.eqb message "" || (n =? 0)%nat then ["Message is required"]
  else if (n <? 10)%nat then ["Message must be at least 10 characters"]
  else if (1000 <? n)%nat then ["Message must be less than 1000 characters"]
  else [].

(** A regular expression over bytes, as far as the email pattern needs:
    character classes, sequence, repetition, and the alternatives its
    derivatives introduce. *)
Inductive regex :=
| Void
| Eps
| Cls (p : ascii -> bool)
| Seq (r1 r2 : regex)
| Alt (r1 r2 : regex)
| Star (r : regex).

Fixpoint nullable (r : regex) : bool :=
  match r with
  | Void => false
  | Eps => true
  | Cls _ => false
  | Seq r1 r2 => nullable r1 && nullable r2
  | Alt r1 r2 => nullable r1 || nullable r2
  | Star _ => true
  end.

Fixpoint deriv (c : ascii) (r : regex) : regex :=
  match r with
  | Void | Eps => Void
  | Cls p => if p c then Eps else Void
  | Seq r1 r2 =>
      if nullable r1 then Alt (Seq (deriv c r1) r2) (deriv c r2)
      else Seq (deriv c r1) r2
  | Alt r1 r2 => Alt (deriv c r1) (deriv c r2)
  | Star r1 => Seq (deriv c r1) (Star r1)
  end.

(** [/^r$/.test(s)]. *)
Fixpoint test (r : regex) (s : string) : bool :=
  match s with
  | EmptyString => nullable r
  | String c s' => test (deriv c r) s'
  end.

(** [[^\s@]]: neither white space nor the at sign. *)
Definition not_space_at (c : ascii) : bool :=
  negb (AuthProvider.is_space c) && negb (Ascii.eqb c "@").

Definition plus (r : regex) : regex := Seq r (Star r).

(** [/^[^\s@]+@[^\s@]+\.[^\s@]+$/]. *)
Definition emailRegex : regex :=
  Seq (plus (Cls not_space_at))
    (Seq (Cls (Ascii.eqb "@"))
       (Seq (plus (Cls not_space_at))
          (Seq (Cls (Ascii.eqb ".")) (plus (Cls not_space_at))))).

Definition isValidEmail (email : string) : bool := test emailRegex email.

(** The language of a regular expression: the texts it matches from the
    first to the last character. *)
Inductive matches : regex -> list ascii -> Prop :=
| MEps : matches Eps []
| MCls p c : p c = true -> matches (Cls p) [c]
| MSeq r1 r2 l1 l2 : matches r1 l1 -> matches r2 l2 -> matches (Seq r1 r2) (l1 ++ l2)
| MAltL r1 r2 l : matches r1 l -> matches (Alt r1 r2) l
| MAltR r1 r2 l : matches r2 l -> matches (Alt r1 r2) l
| MStar0 r : matches (Star r) []
| MStarS r l1 l2 : matches r l1 -> matches (Star r) l2 -> matches (Star r) (l1 ++ l2).

(** No white space and no at sign anywhere in a piece of text. *)
Definition clean (l : list ascii) : bool := forallb not_space_at l.

(** [validateUserProfile(profile)]: reading a field of a nullish profile
    throws, and so does a truthy field that is not a string. The email is
    tested as it is, not trimmed. *)
Definition validateUserProfile (profile : value) : settled (list string) :=
  if nullish profile then Rejected (type_error profile "first_name")
  else
    match blank (prop profile "first_name") with
    | Rejected e => Rejected e
    | Resolved b1 =>
    match blank (prop profile "last_name") with
    | Rejected e => Rejected e
    | Resolved b2 =>
    match blank (prop profile "email") with
    | Rejected e => Rejected e
    | Resolved b3 =>
    match blank (prop profile "message") with
    | Rejected e => Rejected e
    | Resolved b4 =>
        Resolved
          ((if b1 then ["First name is required"] else [])
           ++ (if b2 then ["Last name is required"] else [])
           ++ (if b3 then ["Email is required"]
               else if negb (isValidEmail (to_string (prop profile "email")))
                    then ["Email format is invalid"] else [])
           ++ (if b4 then ["Message template is required"] else []))%list
    end end end end.

(** [csvText.split('\n')]. *)
Fixpoint split_lines (s : string) : list string :=
  match s with
  | EmptyString => [EmptyString]
  | String c s' =>
      if Ascii.eqb c "010" then EmptyString :: split_lines s'
      else match split_lines s' with
           | l :: ls => String c l :: ls
           | [] => [String c EmptyString]
           end
  end.

Section WithURL.

(** [new URL(text).href], [None] when the constructor throws. *)
Variable parse_url : string -> option string.

(** A line is skipped when, trimmed, it is empty or is the word [url] or
    [website] in any letter case. *)
Definition skipped (line : string) : bool :=
  let trimmed := AuthProvider.trim line in
  String.eqb trimmed ""
  || String.eqb (AuthProvider.toLowerCase trimmed) "url"
  || String.eqb (AuthProvider.toLowerCase trimmed) "website".

(** The callback of [lines.forEach], on the line at [index]. *)
Definition parse_line (index : nat) (line : string)
    (acc : list string * list string) : list string * list string :=
  if skipped line then acc
  else
    let trimmed := AuthProvider.trim line in
    match parse_url trimmed with
    | Some href => (fst acc ++ [href], snd acc)%list
    | None =>
        (fst acc,
         (snd acc ++ ["Line " +:+ pretty (S index) +:+ ": Invalid URL - " +:+ trimmed])%list)
    end.

Fixpoint parse_lines (index : nat) (lines : list string)
    (acc : list string * list string) : list string * list string :=
  match lines with
  | [] => acc
  | line :: rest => parse_lines (S index) rest (parse_line index line acc)
  end.

(** The entry of [errors] that the line at [index] is answered with, if
    any: the [catch] branch of the callback taken alone. *)
Definition line_error (index : nat) (line : string) : option string :=
  if skipped line then None
  else match parse_url (AuthProvider.trim line) with
       | Some _ => None
       | None => Some ("Line " +:+ pretty (S index) +:+ ": Invalid URL - "
                       +:+ AuthProvider.trim line)
       end.

(** [parseCSVContent(csvText)]: the pair [{urls, errors}]. *)
Definition parseCSVContent (csvText : string) : list string * list string :=
  parse_lines 0 (split_lines csvText) ([], []).

End WithURL.
End Validators.

(* ===================================================================== *)
(** ** pages/FormSubmitterPage.jsx: the form checks *)
(* ===================================================================== *)

Module FormSubmitterForm.

(** What [handleFileUpload] does with the chosen file: nothing without a
    file, a validation error, or the file taken into the form. *)
Inductive upload :=
| NoFile
| Refused (csv_file_error : string)
| Taken (csv_filename : string).

Definition handleFileUpload (f : option Validators.file) : upload :=
  match f with
  | None => NoFile
  | Some f =>
      if negb (Validators.endsWith ".csv" (AuthProvider.toLowerCase (Validators.name f)))
      then Refused "File must be a CSV"
      else if (Validators.size f >? 10 * 1024 * 1024)%Z
      then Refused "File size must be less than 10MB"
      else Taken (Validators.name f)
  end.

(** The validation at the head of [handleSubmit]: the entries of
    [errors], in the order they are set. *)
Definition submit_errors (campaign_name message_template : string)
    (editing has_file : bool) : list (string * string) :=
  ((if String.eqb (AuthProvider.trim campaign_name) ""
    then [("campaign_name", "Campaign name is required")] else [])
   ++ (if negb editing && negb has_file
       then [("csv_file", "CSV file is required")] else [])
   ++ (if String.eqb (AuthProvider.trim message_template) ""
       then [("message_template", "Message template is required")] else []))%list.

End FormSubmitterForm.

(* ===================================================================== *)
(** ** The route table and login redirect of the App.jsx with role homes *)
(* ===================================================================== *)

Module AppRoleHomeRoutes.

(** The guarded routes with a fixed path, as the [<Routes>] element
    lists them. No route sets [requiresContactInfo]. *)
Definition routes : list (string * route_props) :=
  [("/owner", RouteProps ["owner"] false);
   ("/user-management", RouteProps ["owner"; "admin"] false);
   ("/reports", RouteProps ["owner"; "admin"] false);
   ("/billing", RouteProps ["owner"] false);
   ("/monitoring", RouteProps ["owner"; "admin"] false);
   ("/integrations", RouteProps ["owner"] false);
   ("/admin", RouteProps ["admin"; "owner"] false);
   ("/dashboard", RouteProps [] false);
   ("/user", RouteProps ["user"] false);
   ("/campaigns", RouteProps [] false);
   ("/campaign-detail", RouteProps [] false);
   ("/form-submitter", RouteProps [] false);
   ("/activity", RouteProps [] false);
   ("/contact-info", RouteProps [] false);
   ("/notifications", RouteProps [] false);
   ("/help", RouteProps [] false);
   ("/settings", RouteProps [] false)].

Definition route (path : string) : option route_props :=
  snd <$> List.find (fun r => String.eqb (fst r) path) routes.

(** [RoleDashboard], the page behind "/dashboard": owners and admins are
    sent on to their home, everyone else sees the dashboard page. *)
Definition RoleDashboard (user : value) : element :=
  match opt_prop user "role" with
  | JStr r =>
      if String.eqb r "owner" then Navigate "/owner"
      else if String.eqb r "admin" then Navigate "/admin"
      else Children
  | _ => Children
  end.

(** What a guarded path renders for a user: the guard, then the page
    (which for "/dashboard" is [RoleDashboard]). *)
Definition render (path : string) (user : value) (ss : gmap string string)
    : option (element * gmap string string) :=
  match route path with
  | None => None
  | Some props =>
      match AppRoleHome.ProtectedRoute props user path ss with
      | (Children, ss') =>
          Some (if String.eqb path "/dashboard" then RoleDashboard user else Children, ss')
      | redirect => Some redirect
      end
  end.

Section WithNetwork.

Variable net : request -> settled http_response.
Variable JSON_stringify : value -> string.

Definition set_sessionStorage (m : gmap string string) (b : browser) : browser :=
  {| localStorage := localStorage b; sessionStorage := m;
     navigations := navigations b; sent := sent b |}.

(** What [handleLogin] does once [login] has resolved: after a success,
    go to the remembered path if there is one (and forget it), else to
    the role's default path. *)
Definition after_login (result : AuthProvider.outcome)
    : M AuthProvider.world AuthProvider.outcome :=
  match result with
  | AuthProvider.Success user =>
      redirect ← gets (fun w => sessionStorage (AuthProvider.window w) !! "redirectAfterLogin");
      match redirect with
      | Some path =>
          if negb (String.eqb path "") then
            modify (AuthProvider.on_window
                      (fun b => navigate_hard path
                                  (set_sessionStorage
                                     (delete "redirectAfterLogin" (sessionStorage b)) b)))
          else
            modify (AuthProvider.on_window
                      (navigate_hard (AppRoleHome.getDefaultPathForRole (opt_prop user "role"))))
      | None =>
          modify (AuthProvider.on_window
                    (navigate_hard (AppRoleHome.getDefaultPathForRole (opt_prop user "role"))))
      end;;
      mret result
  | AuthProvider.Failure _ => mret result
  end.

(** [handleLogin(email, password)]. *)
Definition handleLogin (email password : string)
    : M AuthProvider.world AuthProvider.outcome :=
  result ← AuthProvider.login net JSON_stringify email password;
  after_login result.

(** One of App's effects that follow a remembered path: when [enabled],
    and the key holds a non-empty path, forget it and go there. *)
Definition follow_remembered (enabled : bool) (key : string)
    (w : AuthProvider.world) : AuthProvider.world :=
  match sessionStorage (AuthProvider.window w) !! key with
  | Some redirect =>
      if enabled && negb (String.eqb redirect "") then
        AuthProvider.on_window
          (fun b => navigate_hard redirect
                      (set_sessionStorage (delete key (sessionStorage b)) b)) w
      else w
  | None => w
  end.

(** App's three effects, in the render that follows [setUser] while the
    router is at [pathname]: go to the role's default path when at the
    root; follow [redirectAfterLogin]; follow [redirectAfterContactInfo]
    once the contact information is complete. *)
Definition login_effects (pathname : string) (w : AuthProvider.world)
    : AuthProvider.world :=
  let user := AuthProvider.user w in
  let w :=
    if truthy user && String.eqb pathname "/" then
      AuthProvider.on_window
        (navigate_hard (AppRoleHome.getDefaultPathForRole (prop user "role"))) w
    else w in
  let w := follow_remembered (truthy user) "redirectAfterLogin" w in
  follow_remembered (truthy (opt_prop user "contactInfoCompleted"))
    "redirectAfterContactInfo" w.

(** A login made at the root, where the guard sends every anonymous
    visitor. [handleLogin] continues in a microtask after [login] has
    resolved and App's effects run in the render that [setUser] asked
    for; both orders are given. *)
Definition login_at_root (effects_first : bool) (email password : string)
    : M AuthProvider.world AuthProvider.outcome :=
  if effects_first then
    result ← AuthProvider.login net JSON_stringify email password;
    modify (login_effects "/");;
    after_login result
  else
    result ← handleLogin email password;
    modify (login_effects "/");;
    mret result.

End WithNetwork.
End AppRoleHomeRoutes.

(* ===================================================================== *)
(** ** Backends used as concrete inputs *)
(* ===================================================================== *)

(** A backend that accepts the login and answers 401 to everything
    else. *)
Definition expiring_backend (q : request) : settled http_response :=
  if String.eqb (url q) "/api/auth/login" then
    Resolved (HttpResponse 200
      (JObj (<["access_token" := JStr "tok"]>
            (<["user" := JObj (<["id" := JStr "u1"]> (<["role" := JStr "user"]> ∅))]> ∅))))
  else
    Rejected {| code := Some "ERR_BAD_REQUEST";
                response := Some (HttpResponse 401 (JObj {["detail" := JStr "Token expired"]}));
                message := "Request failed with status code 401" |}.

(** A backend whose current-user record carries a role outside the
    enumeration. *)
Definition superadmin_backend (q : request) : settled http_response :=
  Resolved (HttpResponse 200
    (JObj (<["id" := JStr "u9"]> (<["role" := JStr "superadmin"]> ∅)))).

(** A backend that refuses the password the way the API does: HTTP 401
    with a [detail] in the body. *)
Definition wrong_password_backend (q : request) : settled http_response :=
  Rejected {| code := Some "ERR_BAD_REQUEST";
              response := Some (HttpResponse 401
                                  (JObj {["detail" := JStr "Incorrect email or password"]}));
              message := "Request failed with status code 401" |}.

(** A backend whose analytics body sends the rate as text. *)
Definition loose_analytics_backend (q : request) : settled http_response :=
  Resolved (HttpResponse 200
    (JObj (<["campaigns_count" := JNum 12]>
          (<["success_rate" := JStr "87%"]>
          (<["total_submissions" := JNum 40]> ∅))))).


(** A backend that is unreachable. *)
Definition unreachable_backend (q : request) : settled http_response :=
  Rejected {| code := Some "ERR_NETWORK"; response := None; message := "Network Error" |}.

(* ===================================================================== *)
(** * Properties *)
(* ===================================================================== *)

Example to_string_of_array :
  to_string (JArr [JNum 12; JNull; JStr "x"; JArr [JBool true; JNum (-3)]]) = "12,,x,true,-3".
Proof. vm_compute. reflexivity. Qed.

Example or_else_picks_first_truthy :
  or_else (JStr "") (or_else JNull (JStr "Request failed")) = JStr "Request failed".
Proof. reflexivity. Qed.

Example trim_lowercase_email :
  AuthProvider.toLowerCase (AuthProvider.trim "  User@Test.COM ") = "user@test.com".
Proof. vm_compute. reflexivity. Qed.

(* --------------------------------------------------------------------- *)
(** ** The route guard *)
(* --------------------------------------------------------------------- *)

Section Guard.

Lemma includes_false_neq (xs : list string) (role : value) (r : string) :
  includes xs role = false -> r ∈ xs -> role <> JStr r.
Proof.
  intros Hinc Hin ->. simpl in Hinc.
  apply not_true_iff_false in Hinc. apply Hinc.
  apply existsb_exists. exists r. split.
  - by apply list_elem_of_In.
  - apply String.eqb_refl.
Qed.

Lemma role_rejected_spec (props : route_props) (user : value) :
  allowedRoles props <> [] ->
  includes (allowedRoles props) (prop user "role") = false ->
  role_rejected props user = true.
Proof.
  intros Hne Hinc. unfold role_rejected. rewrite Hinc.
  destruct (allowedRoles props); [done | reflexivity].
Qed.

Lemma default_path_cases (role : value) :
  (role = JStr "owner" /\ AppRoleHome.getDefaultPathForRole role = "/owner")
  \/ (role = JStr "admin" /\ AppRoleHome.getDefaultPathForRole role = "/admin")
  \/ (role <> JStr "owner" /\ role <> JStr "admin"
      /\ AppRoleHome.getDefaultPathForRole role = "/dashboard").
Proof.
  destruct role as [| | b | n | r | items | fields];
    try (right; right; repeat split; congruence).
  unfold AppRoleHome.getDefaultPathForRole.
  destruct (String.eqb_spec r "owner") as [-> | Ho]; [by left |].
  destruct (String.eqb_spec r "admin") as [-> | Ha]; [by right; left |].
  right; right. repeat split; congruence.
Qed.

(** C1, as amended. A truthy user whose role is not among a route's
    non-empty [allowedRoles] is never shown the page. The App.jsx with
    role home pages redirects to [getDefaultPathForRole] of the role
    (owner to "/owner", admin to "/admin", anything else to
    "/dashboard"); frontend/src/App.jsx redirects every role to
    "/dashboard", which is the role's default path exactly when the role
    is neither owner nor admin. Neither touches the remembered paths. *)
Theorem role_mismatch_redirect (props : route_props) (user : value)
    (pathname : string) (ss : gmap string string) :
  truthy user = true ->
  allowedRoles props <> [] ->
  includes (allowedRoles props) (prop user "role") = false ->
  AppRoleHome.ProtectedRoute props user pathname ss
    = (Navigate (AppRoleHome.getDefaultPathForRole (prop user "role")), ss)
  /\ App.ProtectedRoute props user pathname ss = (Navigate "/dashboard", ss)
  /\ AppRoleHome.getDefaultPathForRole (JStr "owner") = "/owner"
  /\ AppRoleHome.getDefaultPathForRole (JStr "admin") = "/admin"
  /\ (AppRoleHome.getDefaultPathForRole (prop user "role") = "/dashboard"
      <-> prop user "role" <> JStr "owner" /\ prop user "role" <> JStr "admin").
Proof.
  intros Hu Hne Hinc.
  pose proof (role_rejected_spec props user Hne Hinc) as Hrej.
  unfold AppRoleHome.ProtectedRoute, App.ProtectedRoute.
  rewrite Hu, Hrej. simpl.
  split; [reflexivity |]. split; [reflexivity |].
  split; [reflexivity |]. split; [reflexivity |].
  destruct (default_path_cases (prop user "role"))
    as [[Hr Hp] | [[Hr Hp] | (Ho & Ha & Hp)]]; rewrite Hp.
  - split; [discriminate | intros [Ho _]; congruence].
  - split; [discriminate | intros [_ Ha]; congruence].
  - split; [intros _; by split | reflexivity].
Qed.

(** An ordinary user on a route for owners and admins. *)
Lemma role_mismatch_redirect_witness :
  let props := RouteProps ["owner"; "admin"] false in
  let user := JObj {["role" := JStr "user"]} in
  AppRoleHome.ProtectedRoute props user "/admin" ∅
    = (Navigate (AppRoleHome.getDefaultPathForRole (prop user "role")), ∅)
  /\ App.ProtectedRoute props user "/admin" ∅ = (Navigate "/dashboard", ∅)
  /\ AppRoleHome.getDefaultPathForRole (JStr "owner") = "/owner"
  /\ AppRoleHome.getDefaultPathForRole (JStr "admin") = "/admin"
  /\ (AppRoleHome.getDefaultPathForRole (prop user "role") = "/dashboard"
      <-> prop user "role" <> JStr "owner" /\ prop user "role" <> JStr "admin").
Proof.
  apply role_mismatch_redirect; [reflexivity | discriminate | vm_compute; reflexivity].
Defined.

(** The claim as stated fails on frontend/src/App.jsx: an owner opening
    the admin-only route is sent to "/dashboard", not to the owner's
    default path. *)
Lemma app_guard_owner_to_dashboard :
  let props := RouteProps ["admin"] false in
  let user := JObj {["role" := JStr "owner"]} in
  truthy user = true
  /\ allowedRoles props <> []
  /\ includes (allowedRoles props) (prop user "role") = false
  /\ fst (App.ProtectedRoute props user "/admin" ∅) = Navigate "/dashboard"
  /\ fst (App.ProtectedRoute props user "/admin" ∅)
     <> Navigate (AppRoleHome.getDefaultPathForRole (prop user "role")).
Proof.
  vm_compute. repeat split; discriminate.
Qed.

End Guard.

(* --------------------------------------------------------------------- *)
(** ** The gateway *)
(* --------------------------------------------------------------------- *)

Section Gateway.

Variable net : request -> settled http_response.

(** What the response interceptor leaves behind for a rejection. *)
Lemma axiosInstance_rejected method url body b e :
  net (ApiService.request_interceptor method url body b) = Rejected e ->
  ApiService.axiosInstance net method url body b
  = (Rejected e,
     let b' := log_request (ApiService.request_interceptor method url body b) b in
     if ApiService.is_401 e
     then navigate_hard "/" (ls_remove "user_info" (ls_remove "access_token" b'))
     else b').
Proof.
  intros Hnet. unfold ApiService.axiosInstance. rewrite Hnet.
  unfold ApiService.response_error_interceptor.
  destruct (ApiService.is_401 e); reflexivity.
Qed.

Lemma axiosInstance_resolved method url body b resp :
  net (ApiService.request_interceptor method url body b) = Resolved resp ->
  ApiService.axiosInstance net method url body b
  = (Resolved (data resp),
     log_request (ApiService.request_interceptor method url body b) b).
Proof.
  intros Hnet. unfold ApiService.axiosInstance. by rewrite Hnet.
Qed.

Lemma makeRequest_resolved method url body b resp :
  net (ApiService.request_interceptor method url body b) = Resolved resp ->
  ApiService.makeRequest net method url body b
  = (Resolved (data resp),
     log_request (ApiService.request_interceptor method url body b) b).
Proof.
  intros Hnet. unfold ApiService.makeRequest, try_catch.
  by rewrite (axiosInstance_resolved _ _ _ _ _ Hnet).
Qed.

Lemma makeRequest_rejected method url body b e :
  net (ApiService.request_interceptor method url body b) = Rejected e ->
  ApiService.makeRequest net method url body b
  = (Rejected
       (if truthy (ApiService.response_data e) then
          new_Error (or_else (prop (ApiService.response_data e) "detail")
                       (or_else (prop (ApiService.response_data e) "message")
                          (JStr "Request failed")))
        else e),
     let b' := log_request (ApiService.request_interceptor method url body b) b in
     if ApiService.is_401 e
     then navigate_hard "/" (ls_remove "user_info" (ls_remove "access_token" b'))
     else b').
Proof.
  intros Hnet. unfold ApiService.makeRequest, try_catch.
  rewrite (axiosInstance_rejected _ _ _ _ _ Hnet).
  destruct (truthy (ApiService.response_data e)); reflexivity.
Qed.



End Gateway.



(* --------------------------------------------------------------------- *)
(** ** The 401 handler and the stored credential *)
(* --------------------------------------------------------------------- *)

(** The response interceptor removes the two keys the service wrote,
    navigates to the root, and leaves every other key where it is. *)
Lemma unauthorized_clears_service_keys net method url body b e r :
  net (ApiService.request_interceptor method url body b) = Rejected e ->
  response e = Some r -> status r = 401%Z ->
  let b' := snd (ApiService.makeRequest net method url body b) in
  localStorage b' = delete "user_info" (delete "access_token" (localStorage b))
  /\ navigations b' = "/" :: navigations b.
Proof.
  intros Hnet Hr Hs. rewrite (makeRequest_rejected _ _ _ _ _ _ Hnet).
  unfold ApiService.is_401. rewrite Hr, Hs. simpl. split; reflexivity.
Qed.

(** C4: the code at the failing input. After a login wrote
    [access_token], [user_info] and [user_id], a status request answered
    with 401 removes the first two and navigates to the root, and
    [user_id] is still stored. *)
Theorem unauthorized_leaves_user_id :
  let stringify := fun _ : value => "{}" in
  let w1 := snd (AuthProvider.login expiring_backend stringify "user@test.com" "pw"
                   (AuthProvider.initial fresh_browser)) in
  let b2 := snd (ApiService.getCampaignStatus expiring_backend "7" (AuthProvider.window w1)) in
  (localStorage (AuthProvider.window w1) !! "access_token" = Some "tok"
   /\ localStorage (AuthProvider.window w1) !! "user_info" = Some "{}"
   /\ localStorage (AuthProvider.window w1) !! "user_id" = Some "u1")
  /\ localStorage b2 !! "access_token" = None
  /\ localStorage b2 !! "user_info" = None
  /\ navigations b2 = ["/"]
  /\ localStorage b2 !! "user_id" = Some "u1".
Proof.
  vm_compute. repeat split; reflexivity.
Qed.

(* --------------------------------------------------------------------- *)
(** ** The session controller *)
(* --------------------------------------------------------------------- *)

Section Session.

Variable net : request -> settled http_response.
Variable JSON_stringify : value -> string.

(** C8, as amended. When the re-fetch of the current user fails,
    [refreshUser] resolves with [null] and the provider's React state
    ([user], [loading], [loginLoading]) is what it was. The browser is
    what it was too, one request sent apart, unless the failure is an
    HTTP 401: then the gateway's interceptor, on the way, has removed
    [access_token] and [user_info] and navigated to the root. *)
Theorem refreshUser_failure (w : AuthProvider.world) (e : js_error) :
  net (ApiService.me_request (AuthProvider.window w)) = Rejected e ->
  let w' := snd (AuthProvider.refreshUser net w) in
  fst (AuthProvider.refreshUser net w) = Resolved JNull
  /\ AuthProvider.user w' = AuthProvider.user w
  /\ AuthProvider.loading w' = AuthProvider.loading w
  /\ AuthProvider.loginLoading w' = AuthProvider.loginLoading w
  /\ sent (AuthProvider.window w')
     = ApiService.me_request (AuthProvider.window w) :: sent (AuthProvider.window w)
  /\ sessionStorage (AuthProvider.window w') = sessionStorage (AuthProvider.window w)
  /\ (ApiService.is_401 e = false ->
      localStorage (AuthProvider.window w') = localStorage (AuthProvider.window w)
      /\ navigations (AuthProvider.window w') = navigations (AuthProvider.window w))
  /\ (ApiService.is_401 e = true ->
      localStorage (AuthProvider.window w')
      = delete "user_info" (delete "access_token" (localStorage (AuthProvider.window w)))
      /\ navigations (AuthProvider.window w') = "/" :: navigations (AuthProvider.window w)).
Proof.
  intros Hnet.
  unfold AuthProvider.refreshUser, try_catch, AuthProvider.call, ApiService.getCurrentUser.
  unfold mbind, M_bind, bind.
  rewrite (makeRequest_rejected net _ _ _ _ _ Hnet). simpl.
  destruct (ApiService.is_401 e); simpl; repeat split; intros; try reflexivity; discriminate.
Qed.

(** C9, as amended. The session controller holds the user record exactly
    as the backend sent it: [checkAuthStatus] and [refreshUser] store the
    body of the current-user response, so the held role is the received
    one, enumerated or not. A role outside the three is treated like
    [user] where a page is chosen for it: [getDefaultPathForRole] gives
    "/dashboard", [RoleDashboard] shows the user dashboard, and the
    header's badge is "User" for a role text that does not lower-case to
    owner or admin; the header substitutes ['user'] itself only for a
    falsy role. The route guards do not: both decide on the role as
    held, and send a user with such a role to "/dashboard" from every
    route that lists allowed roles (all of them among the three). *)
Theorem session_holds_user_as_received (w : AuthProvider.world) (resp : http_response)
    (t : string) :
  stored_token (AuthProvider.window w) = Some t ->
  net (ApiService.me_request (AuthProvider.window w)) = Resolved resp ->
  AuthProvider.user (snd (AuthProvider.checkAuthStatus net w)) = data resp
  /\ AuthProvider.user (snd (AuthProvider.refreshUser net w)) = data resp
  /\ (forall role, enumerated_role role = false ->
        AppRoleHome.getDefaultPathForRole role = "/dashboard")
  /\ (forall user, enumerated_role (opt_prop user "role") = false ->
        AppRoleHomeRoutes.RoleDashboard user = Children)
  /\ (forall user s, opt_prop user "role" = JStr s -> s <> "" ->
        AuthProvider.toLowerCase s <> "owner" -> AuthProvider.toLowerCase s <> "admin" ->
        Header.getRoleInfo user = Resolved "User")
  /\ (forall user, truthy (opt_prop user "role") = false ->
        Header.getUserRole user = JStr "user"
        /\ Header.getRoleInfo user = Resolved "User")
  /\ (forall user s, opt_prop user "role" = JStr s -> s <> "" ->
        Header.getUserRole user = JStr s)
  /\ (forall user props pathname ss,
        truthy user = true ->
        enumerated_role (prop user "role") = false ->
        allowedRoles props <> [] ->
        (forall r, In r (allowedRoles props) -> In r ["user"; "admin"; "owner"]) ->
        AppRoleHome.ProtectedRoute props user pathname ss = (Navigate "/dashboard", ss)
        /\ App.ProtectedRoute props user pathname ss = (Navigate "/dashboard", ss)).
Proof.
  intros Htok Hnet.
  assert (Hfalsy : forall user, truthy (opt_prop user "role") = false ->
            Header.getUserRole user = JStr "user").
  { intros user Hf. unfold Header.getUserRole, or_else.
    rewrite Hf.
    destruct (String.eqb (typeof (opt_prop user "role")) "object"
              && truthy (opt_prop (opt_prop user "role") "value")) eqn:Hobj;
      [| reflexivity].
    destruct (opt_prop user "role"); simpl in *; try discriminate. }
  assert (Hkept : forall user s, opt_prop user "role" = JStr s -> s <> "" ->
            Header.getUserRole user = JStr s).
  { intros user s Hs Hne. unfold Header.getUserRole, or_else.
    rewrite Hs. simpl.
    destruct (String.eqb_spec s ""); [done | reflexivity]. }
  split; [| split; [| split; [| split; [| split; [| split; [| split]]]]]].
  - unfold AuthProvider.checkAuthStatus, finally, try_catch, AuthProvider.call,
      ApiService.getCurrentUser.
    unfold mbind, M_bind, bind, gets. rewrite Htok.
    unfold mbind, M_bind, bind.
    rewrite (makeRequest_resolved net _ _ _ _ _ Hnet). reflexivity.
  - unfold AuthProvider.refreshUser, try_catch, AuthProvider.call, ApiService.getCurrentUser.
    unfold mbind, M_bind, bind.
    rewrite (makeRequest_resolved net _ _ _ _ _ Hnet). reflexivity.
  - intros role Hrole.
    destruct (default_path_cases role) as [[-> _] | [[-> _] | (_ & _ & H)]];
      [discriminate | discriminate | exact H].
  - intros user Hrole. unfold AppRoleHomeRoutes.RoleDashboard.
    destruct (opt_prop user "role") as [| | b0 | n | r | items | f]; try reflexivity.
    destruct (String.eqb_spec r "owner") as [-> | _]; [discriminate |].
    destruct (String.eqb_spec r "admin") as [-> | _]; [discriminate |]. reflexivity.
  - intros user s Hs Hne Ho Ha. unfold Header.getRoleInfo.
    rewrite (Hkept user s Hs Hne).
    apply String.eqb_neq in Ho, Ha. by rewrite Ho, Ha.
  - intros user Hf. split; [by apply Hfalsy |].
    unfold Header.getRoleInfo. by rewrite (Hfalsy user Hf).
  - exact Hkept.
  - intros user props pathname ss Hu Hrole Hne Hall.
    assert (Hinc : includes (allowedRoles props) (prop user "role") = false).
    { destruct (prop user "role") as [| | b0 | n | r | items | f]; try reflexivity.
      simpl. apply not_true_iff_false. intros Hex.
      apply existsb_exists in Hex as (x & Hin & Heq).
      apply String.eqb_eq in Heq. subst x.
      specialize (Hall r Hin). simpl in Hall.
      destruct Hall as [<- | [<- | [<- | []]]]; discriminate. }
    pose proof (role_rejected_spec props user Hne Hinc) as Hrej.
    unfold AppRoleHome.ProtectedRoute, App.ProtectedRoute. rewrite Hu, Hrej. simpl.
    split; [| reflexivity].
    destruct (default_path_cases (prop user "role"))
      as [[Hr _] | [[Hr _] | (_ & _ & Hp)]];
      [rewrite Hr in Hrole; discriminate | rewrite Hr in Hrole; discriminate | by rewrite Hp].
Qed.

End Session.

(** The claim C8 as stated fails when the failure is a 401: the stored
    token is gone and a hard navigation to the root was made, although
    the held user is untouched. *)
Lemma refreshUser_401_clears_token :
  let b := ls_set "user_id" "u1" (ls_set "access_token" "tok" fresh_browser) in
  let w := AuthProvider.setUser (JObj {["id" := JStr "u1"]}) (AuthProvider.initial b) in
  let w' := snd (AuthProvider.refreshUser expiring_backend w) in
  fst (AuthProvider.refreshUser expiring_backend w) = Resolved JNull
  /\ AuthProvider.user w' = AuthProvider.user w
  /\ stored_token (AuthProvider.window w) = Some "tok"
  /\ stored_token (AuthProvider.window w') = None
  /\ localStorage (AuthProvider.window w') <> localStorage (AuthProvider.window w)
  /\ navigations (AuthProvider.window w') = ["/"].
Proof.
  intros b w w'.
  split; [vm_compute; reflexivity |]. split; [vm_compute; reflexivity |].
  split; [vm_compute; reflexivity |]. split; [vm_compute; reflexivity |].
  split; [| vm_compute; reflexivity].
  intros H.
  apply (f_equal (fun m : gmap string string => m !! "access_token")) in H.
  vm_compute in H. discriminate.
Qed.

(** A network failure during the re-fetch leaves the token in place. *)
Lemma refreshUser_failure_witness :
  let e := {| code := Some "ERR_NETWORK"; response := None; message := "Network Error" |} in
  let w := AuthProvider.initial (ls_set "access_token" "tok" fresh_browser) in
  fst (AuthProvider.refreshUser (fun _ => Rejected e) w) = Resolved JNull
  /\ localStorage (AuthProvider.window (snd (AuthProvider.refreshUser (fun _ => Rejected e) w)))
     = localStorage (AuthProvider.window w).
Proof.
  intros e w.
  destruct (refreshUser_failure (fun _ => Rejected e) w e eq_refl)
    as (H1 & _ & _ & _ & _ & _ & H2 & _).
  split; [exact H1 | exact (proj1 (H2 eq_refl))].
Defined.

(** The claim C9 as stated fails: the session holds the unknown role as
    received, and the guard of a user-only route, deciding on it, turns
    the user away instead of treating the role as [user]. *)
Lemma session_keeps_unknown_role :
  let w := snd (AuthProvider.checkAuthStatus superadmin_backend
                  (AuthProvider.initial (ls_set "access_token" "tok" fresh_browser))) in
  prop (AuthProvider.user w) "role" = JStr "superadmin"
  /\ enumerated_role (prop (AuthProvider.user w) "role") = false
  /\ fst (AppRoleHome.ProtectedRoute (RouteProps ["user"] false)
            (AuthProvider.user w) "/user" ∅) = Navigate "/dashboard"
  /\ fst (AppRoleHome.ProtectedRoute (RouteProps ["user"] false)
            (JObj {["role" := JStr "user"]}) "/user" ∅) = Children.
Proof.
  vm_compute. repeat split; reflexivity.
Qed.

(** The record of the backend above is held unchanged. *)
Lemma session_holds_user_as_received_witness :
  let w := AuthProvider.initial (ls_set "access_token" "tok" fresh_browser) in
  AuthProvider.user (snd (AuthProvider.checkAuthStatus superadmin_backend w))
  = JObj (<["id" := JStr "u9"]> (<["role" := JStr "superadmin"]> ∅)).
Proof.
  intros w.
  exact (proj1 (session_holds_user_as_received superadmin_backend w
                  (HttpResponse 200 (JObj (<["id" := JStr "u9"]> (<["role" := JStr "superadmin"]> ∅))))
                  "tok" eq_refl eq_refl)).
Defined.

(* --------------------------------------------------------------------- *)
(** ** Login failures *)
(* --------------------------------------------------------------------- *)

(** C2: the code at the failing input. A login refused with HTTP 401 and
    a body resolves with [{success: false, error}] where [error] is the
    body's [detail]: [makeRequest] has replaced the axios error by a
    plain [Error] before [getErrorMessage] can look at the status. The
    fixed sentence is returned only for a 401 without a body. *)
Theorem login_401_reports_body_detail :
  let stringify := fun _ : value => "{}" in
  let fixed := JStr "Invalid email or password. Please check your credentials." in
  fst (AuthProvider.login wrong_password_backend stringify "user@test.com" "wrong"
         (AuthProvider.initial fresh_browser))
  = Resolved (AuthProvider.Failure (JStr "Incorrect email or password"))
  /\ JStr "Incorrect email or password" <> fixed
  /\ AuthProvider.getErrorMessage
       {| code := Some "ERR_BAD_REQUEST";
          response := Some (HttpResponse 401
                              (JObj {["detail" := JStr "Incorrect email or password"]}));
          message := "Request failed with status code 401" |} "login"
     = Resolved fixed
  /\ fst (AuthProvider.login
            (fun _ => Rejected {| code := Some "ERR_BAD_REQUEST";
                                  response := Some (HttpResponse 401 (JStr ""));
                                  message := "Request failed with status code 401" |})
            stringify "user@test.com" "wrong" (AuthProvider.initial fresh_browser))
     = Resolved (AuthProvider.Failure fixed).
Proof.
  vm_compute. repeat split; try reflexivity. discriminate.
Qed.

Section LoginTotal.

Variable net : request -> settled http_response.
Variable JSON_stringify : value -> string.

(** An error that has no response is always given a message. *)
Lemma getErrorMessage_plain (e : js_error) (action : string) :
  response e = None -> exists m, AuthProvider.getErrorMessage e action = Resolved m.
Proof.
  intros Hr. unfold AuthProvider.getErrorMessage. rewrite Hr.
  destruct (match code e with
            | Some c => String.eqb c "ERR_NETWORK" || String.eqb c "ECONNABORTED"
            | None => false
            end); [eauto |].
  destruct (negb (String.eqb (message e) "")); eauto.
Qed.

(** So is one whose response body is falsy: no branch reads further into
    the body. *)
Lemma getErrorMessage_falsy_body (e : js_error) (action : string) :
  truthy (ApiService.response_data e) = false ->
  exists m, AuthProvider.getErrorMessage e action = Resolved m.
Proof.
  intros Hf. destruct (response e) as [r |] eqn:Hr; [| by apply getErrorMessage_plain].
  unfold AuthProvider.getErrorMessage. rewrite Hr.
  unfold ApiService.response_data in Hf. rewrite Hr in Hf.
  destruct (match code e with
            | Some c => String.eqb c "ERR_NETWORK" || String.eqb c "ECONNABORTED"
            | None => false
            end); [eauto |].
  assert (Hd : opt_prop (data r) "detail" = JUndefined).
  { unfold opt_prop. destruct (data r); simpl in *; try reflexivity; discriminate. }
  rewrite Hd.
  repeat match goal with |- context [if ?c then _ else _] => destruct c end; eauto.
Qed.

(** [login] never rejects: whatever the network answers, it resolves with
    a success or a failure record. *)
Lemma login_never_rejects (email password : string) (w : AuthProvider.world) :
  exists o, fst (AuthProvider.login net JSON_stringify email password w) = Resolved o.
Proof.
  unfold AuthProvider.login, finally, try_catch, AuthProvider.call, ApiService.login.
  unfold mbind, M_bind, bind, modify. simpl.
  match goal with
  | |- context [ApiService.makeRequest net ?m ?u ?bd ?b] =>
      destruct (net (ApiService.request_interceptor m u bd b)) as [resp | e] eqn:Hnet
  end.
  - rewrite (makeRequest_resolved net _ _ _ _ _ Hnet).
    unfold ApiService.store_session, get_prop.
    destruct (data resp) as [| | b | n | s | items | fields] eqn:Hd; simpl;
      try (eexists; reflexivity);
      unfold mbind, M_bind, bind, modify, mret, M_ret, ret; simpl;
      repeat match goal with
             | |- context [if ?c then _ else _] => destruct c; simpl
             end; eexists; reflexivity.
  - rewrite (makeRequest_rejected net _ _ _ _ _ Hnet). simpl.
    destruct (truthy (ApiService.response_data e)) eqn:Ht.
    + destruct (getErrorMessage_plain (new_Error
                  (or_else (prop (ApiService.response_data e) "detail")
                     (or_else (prop (ApiService.response_data e) "message")
                        (JStr "Request failed")))) "login" eq_refl) as [m Hm].
      rewrite Hm. eexists; reflexivity.
    + destruct (getErrorMessage_falsy_body e "login" Ht) as [m Hm].
      rewrite Hm. eexists; reflexivity.
Qed.

(** Whenever the refusal carries a truthy body, whatever its status,
    what [login] reports is read from the body: the status never reaches
    [getErrorMessage]. *)
Lemma login_refused_with_body (email password : string) (w : AuthProvider.world)
    (e : js_error) :
  net (ApiService.request_interceptor "post" "/api/auth/login"
         (JObj (<["email" := JStr (AuthProvider.toLowerCase (AuthProvider.trim email))]>
               (<["password" := JStr password]> ∅)))
         (AuthProvider.window w)) = Rejected e ->
  truthy (ApiService.response_data e) = true ->
  let text := to_string (or_else (prop (ApiService.response_data e) "detail")
                           (or_else (prop (ApiService.response_data e) "message")
                              (JStr "Request failed"))) in
  fst (AuthProvider.login net JSON_stringify email password w)
  = Resolved (AuthProvider.Failure
                (JStr (if String.eqb text "" then "Login failed. Please try again."
                       else text))).
Proof.
  intros Hnet Ht text.
  unfold AuthProvider.login, finally, try_catch, AuthProvider.call, ApiService.login.
  unfold mbind, M_bind, bind, modify. simpl.
  rewrite (makeRequest_rejected net _ _ _ _ _ Hnet). simpl. rewrite Ht.
  unfold AuthProvider.getErrorMessage, new_Error. simpl. fold text.
  destruct (String.eqb text ""); reflexivity.
Qed.

End LoginTotal.

(* --------------------------------------------------------------------- *)
(** ** The analytics summary *)
(* --------------------------------------------------------------------- *)

Section Analytics.

Variable net : request -> settled http_response.

Lemma fallback_is_zeroed :
  (forall k, k ∈ ApiService.summary_fields ->
             ApiService.analytics_fallback !! k = Some (JNum 0))
  /\ ApiService.analytics_fallback !! "error" = Some (JBool true).
Proof.
  split; [| vm_compute; reflexivity].
  intros k Hk. unfold ApiService.summary_fields in Hk.
  repeat (apply elem_of_cons in Hk as [-> | Hk]; [vm_compute; reflexivity |]).
  by apply elem_of_nil in Hk.
Qed.

Lemma defaults_then_spread (f : gmap string value) (k : string) :
  k ∈ ApiService.summary_fields ->
  spread (ApiService.analytics_defaults (JObj f)) f !! k
  = Some (default (JNum 0) (f !! k)).
Proof.
  intros Hk. unfold spread. rewrite lookup_union.
  assert (Hd : ApiService.analytics_defaults (JObj f) !! k
               = Some (or_else (default JUndefined (f !! k)) (JNum 0))).
  { unfold ApiService.summary_fields in Hk. unfold ApiService.analytics_defaults.
    repeat (apply elem_of_cons in Hk as [-> | Hk];
            [repeat (rewrite lookup_insert_ne by discriminate);
             by rewrite lookup_insert_eq |]).
    by apply elem_of_nil in Hk. }
  rewrite Hd. destruct (f !! k); reflexivity.
Qed.

(** C10, as amended. [getUserAnalytics] never rejects: it always
    resolves with an object. For a failed request, and for a response
    whose body is [null], that object has every summary field 0 and
    [error] true. For a response whose body is an object, a summary field
    read under its own name and absent from the body is 0, and one the
    body gives as a number or as any other truthy value is the body's
    value, unchanged: a number when the backend sent a number, and not
    coerced otherwise. [total_campaigns], when the body does not give
    it, is [campaigns_count || 0]. *)
Theorem getUserAnalytics_summary (b : browser) :
  let q := ApiService.request_interceptor "get" "/api/analytics/user" JNull b in
  (exists fields, fst (ApiService.getUserAnalytics net b) = Resolved (JObj fields))
  /\ (forall e, net q = Rejected e ->
        fst (ApiService.getUserAnalytics net b) = Resolved (JObj ApiService.analytics_fallback))
  /\ (forall resp, net q = Resolved resp -> nullish (data resp) = true ->
        fst (ApiService.getUserAnalytics net b) = Resolved (JObj ApiService.analytics_fallback))
  /\ (forall resp f, net q = Resolved resp -> data resp = JObj f ->
        exists fields,
          fst (ApiService.getUserAnalytics net b) = Resolved (JObj fields)
          /\ (forall k, k ∈ ApiService.summary_fields ->
                (f !! k = None -> fields !! k = Some (JNum 0))
                /\ (forall v, f !! k = Some v -> is_number v || truthy v = true ->
                               fields !! k = Some v))
          /\ (f !! "total_campaigns" = None ->
              fields !! "total_campaigns"
              = Some (or_else (prop (JObj f) "campaigns_count") (JNum 0))))
  /\ (forall k, k ∈ ApiService.summary_fields ->
                ApiService.analytics_fallback !! k = Some (JNum 0))
  /\ ApiService.analytics_fallback !! "error" = Some (JBool true).
Proof.
  intros q.
  assert (Hrej : forall e, net q = Rejected e ->
            fst (ApiService.getUserAnalytics net b)
            = Resolved (JObj ApiService.analytics_fallback)).
  { intros e Hnet. unfold ApiService.getUserAnalytics, try_catch.
    unfold mbind, M_bind, bind.
    by rewrite (makeRequest_rejected net _ _ _ _ _ Hnet). }
  assert (Hres : forall resp, net q = Resolved resp ->
            fst (ApiService.getUserAnalytics net b)
            = Resolved (JObj (if nullish (data resp) then ApiService.analytics_fallback
                              else spread (ApiService.analytics_defaults (data resp))
                                     (ApiService.own_props (data resp))))).
  { intros resp Hnet. unfold ApiService.getUserAnalytics, try_catch, get_prop.
    unfold mbind, M_bind, bind.
    rewrite (makeRequest_resolved net _ _ _ _ _ Hnet).
    destruct (nullish (data resp)); reflexivity. }
  split; [| split; [exact Hrej | split; [| split; [| exact fallback_is_zeroed]]]].
  - destruct (net q) as [resp | e] eqn:Hnet; eauto.
  - intros resp Hnet Hn. rewrite (Hres resp Hnet), Hn. reflexivity.
  - intros resp f Hnet Hd. rewrite (Hres resp Hnet), Hd. simpl.
    eexists; split; [reflexivity |]. split.
    + intros k Hk. rewrite (defaults_then_spread f k Hk). split.
      * by intros ->.
      * by intros v -> _.
    + intros Hnone. unfold spread. rewrite lookup_union, Hnone.
      reflexivity.
Qed.

End Analytics.

(** The claim C10 as stated fails on that response: the request
    succeeded, and the rate of the result is the text the backend sent,
    not a number. Nothing in [getUserAnalytics] converts a value. *)
Lemma analytics_fields_not_numbers :
  exists fields,
    fst (ApiService.getUserAnalytics loose_analytics_backend fresh_browser)
    = Resolved (JObj fields)
    /\ fields !! "success_rate" = Some (JStr "87%")
    /\ is_number (default JUndefined (fields !! "success_rate")) = false
    /\ fields !! "campaigns_count" = Some (JNum 12)
    /\ fields !! "websites_count" = Some (JNum 0)
    /\ fields !! "error" = None.
Proof.
  eexists. split; [vm_compute; reflexivity |].
  vm_compute. repeat split; reflexivity.
Qed.

(** A network failure gives the zeroed summary. *)
Lemma getUserAnalytics_summary_witness :
  fst (ApiService.getUserAnalytics
         (fun _ => Rejected {| code := Some "ERR_NETWORK"; response := None;
                               message := "Network Error" |}) fresh_browser)
  = Resolved (JObj ApiService.analytics_fallback).
Proof.
  destruct (getUserAnalytics_summary
              (fun _ => Rejected {| code := Some "ERR_NETWORK"; response := None;
                                    message := "Network Error" |}) fresh_browser)
    as (_ & H & _).
  exact (H _ eq_refl).
Defined.

(* --------------------------------------------------------------------- *)
(** ** The sockets: what a message can and cannot do *)
(* --------------------------------------------------------------------- *)

Section SocketFacts.
Import WebSocket.

Lemma received_cons (ev : ws_event) (rest : list ws_event) :
  received (ev :: rest) = (received [ev] ++ received rest)%list.
Proof. by destruct ev as [| [data |] |]. Qed.

Lemma socket_handle_dispatched (ev : ws_event) (ws : socket) :
  dispatched (socket_handle ev ws)
  = (filter (fun d => forwards d = true) (received [ev]) ++ dispatched ws)%list.
Proof.
  destruct ev as [| [data |] |]; simpl.
  - unfold send_ping. simpl. reflexivity.
  - unfold received. simpl. rewrite filter_cons.
    destruct (decide (forwards data = true)) as [Hf | Hf].
    + by rewrite Hf.
    + apply not_true_is_false in Hf. by rewrite Hf.
  - reflexivity.
  - reflexivity.
Qed.

Lemma socket_run_dispatched (evs : list ws_event) (ws : socket) :
  dispatched (socket_run evs ws)
  = (rev (filter (fun d => forwards d = true) (received evs)) ++ dispatched ws)%list.
Proof.
  revert ws. induction evs as [| ev rest IH]; intros ws; [reflexivity |].
  change (socket_run (ev :: rest) ws) with (socket_run rest (socket_handle ev ws)).
  rewrite IH, socket_handle_dispatched, (received_cons ev rest).
  rewrite filter_app, rev_app_distr, <- app_assoc. f_equal.
  destruct ev as [| [data |] |]; try reflexivity.
  unfold received. simpl. rewrite filter_cons. by destruct (decide _).
Qed.

(** Messages leave the socket as it is: open if it was, its ping
    interval armed if it was, nothing sent. *)
Lemma socket_messages_keep_state (messages : list (option value)) (ws : socket) :
  readyState (socket_run (OnMessage <$> messages) ws) = readyState ws
  /\ pingInterval (socket_run (OnMessage <$> messages) ws) = pingInterval ws
  /\ frames (socket_run (OnMessage <$> messages) ws) = frames ws.
Proof.
  revert ws. induction messages as [| m rest IH]; intros ws; [by repeat split |].
  rewrite fmap_cons.
  change (socket_run (OnMessage m :: (OnMessage <$> rest)) ws)
    with (socket_run (OnMessage <$> rest) (socket_handle (OnMessage m) ws)).
  destruct (IH (socket_handle (OnMessage m) ws)) as (-> & -> & ->).
  destruct m as [data |]; simpl; [| by repeat split].
  destruct (forwards data); by repeat split.
Qed.

(** No event of a socket makes the hook call [close] or drop the socket
    it holds. *)
Lemma hook_socket_events_close_nothing (events : list (nat * ws_event)) (h : hook) :
  let h' := hook_run ((fun e => FromSocket (fst e) (snd e)) <$> events) h in
  close_calls h' = close_calls h /\ held h' = held h /\ created h' = created h
  /\ alive h' = alive h.
Proof.
  revert h. induction events as [| [k ev] rest IH]; intros h; [by repeat split |].
  rewrite fmap_cons. cbn [fst snd]. cbv zeta.
  change (hook_run (FromSocket k ev :: ?l) h) with (hook_run l (hook_step (FromSocket k ev) h)).
  destruct (IH (hook_step (FromSocket k ev) h)) as (E1 & E2 & E3 & E4).
  cbv zeta in E1, E2, E3, E4. rewrite E1, E2, E3, E4.
  simpl. destruct (delivers k ev h); [| by repeat split].
  destruct ev as [| [data |] |]; by repeat split.
Qed.

End SocketFacts.

(* --------------------------------------------------------------------- *)
(** ** Status polling *)
(* --------------------------------------------------------------------- *)

Module Polling.
Import FormSubmitterPage.

Lemma run_app flag (evs1 evs2 : list event) (p : page) :
  run flag (evs1 ++ evs2) p = run flag evs2 (run flag evs1 p).
Proof. unfold run. apply fold_left_app. Qed.

Lemma prim_eqb_eq (a b : value) : prim_eqb a b = true -> a = b.
Proof.
  destruct a, b; simpl; try discriminate; try reflexivity.
  - intros H. by apply Bool.eqb_prop in H as ->.
  - intros H. by apply Z.eqb_eq in H as ->.
  - intros H. by apply String.eqb_eq in H as ->.
Qed.

Lemma object_is_same (a : value) : object_is false a a = true.
Proof.
  destruct a; simpl; try reflexivity.
  - apply Bool.eqb_reflx.
  - apply Z.eqb_refl.
  - apply String.eqb_refl.
Qed.

Lemma object_is_replaced (a b : value) : object_is true a b = true -> a = b.
Proof.
  destruct b; simpl; try discriminate; apply prim_eqb_eq.
Qed.

Lemma object_is_null (a : value) : object_is false a JNull = true -> a = JNull.
Proof. simpl. apply prim_eqb_eq. Qed.

(** What the two halves of the callback can do to the fields the effect
    depends on. *)
Lemma on_error_frame (cl : closure) (p : page) :
  processingCampaignId (on_error cl p) = processingCampaignId p
  /\ campaignStatus (on_error cl p) = campaignStatus p
  /\ statusCheckErrors (on_error cl p) = (statusCheckErrors p + 1)%Z
  /\ polls (on_error cl p) = polls p
  /\ inflight (on_error cl p) = inflight p
  /\ (statusInterval (on_error cl p) = statusInterval p
      \/ statusInterval (on_error cl p) = None).
Proof.
  unfold on_error, clearInterval.
  destruct (cap_errors cl >=? 10)%Z; simpl; [| by auto 10].
  destruct (statusInterval p) as [cl' |] eqn:Hi; simpl; [| by rewrite ?Hi; auto 10].
  destruct (timer_id cl' =? timer_id cl)%nat; simpl; rewrite ?Hi; auto 10.
Qed.

Lemma on_status_frame flag (status : value) (cl : closure) (p : page) :
  (processingCampaignId (on_status flag status cl p) = processingCampaignId p
   \/ processingCampaignId (on_status flag status cl p) = JNull)
  /\ campaignStatus (on_status flag status cl p) = status
  /\ polls (on_status flag status cl p) = polls p
  /\ inflight (on_status flag status cl p) = inflight p
  /\ (statusInterval (on_status flag status cl p) = statusInterval p
      \/ statusInterval (on_status flag status cl p) = None).
Proof.
  unfold on_status.
  set (p1 := setStatusCheckErrors _ (setCampaignStatus status p)).
  assert (H1 : processingCampaignId p1 = processingCampaignId p
               /\ campaignStatus p1 = status /\ polls p1 = polls p
               /\ inflight p1 = inflight p /\ statusInterval p1 = statusInterval p)
    by (repeat split; reflexivity).
  destruct H1 as (Hid & Hst & Hpo & Hin & Hiv).
  destruct (nullish status).
  { destruct (on_error_frame cl p1) as (E1 & E2 & _ & E4 & E5 & E6).
    rewrite E1, E2, E4, E5, Hid, Hst, Hpo, Hin, <- Hiv. auto 10. }
  destruct (truthy (prop status "is_complete")); [| by rewrite Hid, Hst, Hpo, Hin, Hiv; auto 10].
  set (p2 := setProcessingCampaignId JNull (clearInterval (timer_id cl) p1)).
  assert (H2 : processingCampaignId p2 = JNull
               /\ campaignStatus p2 = status /\ polls p2 = polls p
               /\ inflight p2 = inflight p
               /\ (statusInterval p2 = statusInterval p \/ statusInterval p2 = None)).
  { unfold p2, clearInterval. rewrite <- Hiv, <- Hst, <- Hpo, <- Hin.
    destruct (statusInterval p1) as [cl' |] eqn:Hi; simpl; [| rewrite ?Hi; by auto 10].
    destruct (timer_id cl' =? timer_id cl)%nat; simpl; rewrite ?Hi; auto 10. }
  destruct H2 as (Gid & Gst & Gpo & Gin & Giv).
  assert (Herr : (processingCampaignId (on_error cl p2) = processingCampaignId p
                  \/ processingCampaignId (on_error cl p2) = JNull)
                 /\ campaignStatus (on_error cl p2) = status
                 /\ polls (on_error cl p2) = polls p
                 /\ inflight (on_error cl p2) = inflight p
                 /\ (statusInterval (on_error cl p2) = statusInterval p
                     \/ statusInterval (on_error cl p2) = None)).
  { destruct (on_error_frame cl p2) as (E1 & E2 & _ & E4 & E5 & E6).
    rewrite E1, E2, E4, E5, Gid, Gst, Gpo, Gin.
    repeat split; auto. destruct E6 as [-> | ->]; auto. }
  destruct (prop status "status"); try (simpl; rewrite ?Gid, ?Gst, ?Gpo, ?Gin; by auto 10).
  repeat match goal with
         | |- context [if ?c then _ else _] => destruct c
         end; simpl; rewrite ?Gid, ?Gst, ?Gpo, ?Gin; auto 10.
Qed.

Lemma on_status_complete flag (status : value) (cl : closure) (p : page) :
  nullish status = false ->
  truthy (prop status "is_complete") = true ->
  processingCampaignId (on_status flag status cl p) = JNull.
Proof.
  intros Hn Hc. unfold on_status. rewrite Hn, Hc.
  destruct (prop status "status"); try reflexivity.
  repeat match goal with
         | |- context [if ?c then _ else _] => destruct c
         end; try reflexivity.
  by destruct (on_error_frame cl
       (setProcessingCampaignId JNull
          (clearInterval (timer_id cl)
             (setStatusCheckErrors (fun _ => 0%Z) (setCampaignStatus status p)))))
    as (-> & _).
Qed.


Lemma commit_justified (same : bool) (p : page) :
  (same = true -> interval_justified p) -> interval_justified (commit same p).
Proof.
  intros H. unfold commit. destruct same; [by apply H |].
  destruct (should_poll p) eqn:Hs; intros cl; simpl; [by rewrite ?Hs | discriminate].
Qed.

Lemma step_justified flag (ev : event) (p : page) :
  interval_justified p -> interval_justified (step flag ev p).
Proof.
  intros Hp. destruct ev as [campaign_id total_urls | | k r]; simpl.
  - destruct (truthy campaign_id) eqn:Ht; [| exact Hp].
    apply commit_justified. intros _ cl _.
    unfold should_poll. simpl. by rewrite Ht.
  - destruct (statusInterval p) as [cl |] eqn:Hi; [| exact Hp].
    intros cl'. simpl. rewrite Hi. intros _. by apply (Hp cl).
  - destruct (inflight p !! k) as [cl |] eqn:Hk; [| exact Hp].
    set (p0 := set_inflight (delete k (inflight p)) p).
    destruct r as [status | e]; apply commit_justified; intros Hsame cl' Hcl'.
    + destruct (on_status_frame flag status cl p0) as (Hid & Hst & _ & _ & Hiv).
      apply andb_prop in Hsame as [Hsame _]. apply andb_prop in Hsame as [Hsid Hsic].
      apply object_is_replaced in Hsic.
      destruct Hiv as [Hiv | Hiv]; [| congruence].
      rewrite Hiv in Hcl'. specialize (Hp cl' Hcl').
      unfold should_poll in *. rewrite <- Hsic.
      destruct Hid as [Hid | Hid].
      * rewrite Hid. exact Hp.
      * rewrite Hid in Hsid. apply object_is_null in Hsid.
        rewrite Hsid in Hp. discriminate.
    + destruct (on_error_frame cl p0) as (Hid & Hst & _ & _ & _ & Hiv).
      destruct Hiv as [Hiv | Hiv]; [| congruence].
      rewrite Hiv in Hcl'. specialize (Hp cl' Hcl').
      unfold should_poll in *. by rewrite Hid, Hst.
Qed.

Lemma run_justified flag (evs : list event) (p : page) :
  interval_justified p -> interval_justified (run flag evs p).
Proof.
  revert p. induction evs as [| ev evs IH]; intros p Hp; [exact Hp |].
  apply IH. by apply step_justified.
Qed.

Lemma mounted_justified : interval_justified mounted.
Proof. intros cl. discriminate. Qed.

(** Once [processingCampaignId] is [null], ticks and settled requests
    leave it [null], install no interval and issue no request. *)
Lemma idle_step flag (ev : event) (p : page) :
  interval_justified p -> processingCampaignId p = JNull -> not_submit ev = true ->
  processingCampaignId (step flag ev p) = JNull
  /\ statusInterval (step flag ev p) = None
  /\ polls (step flag ev p) = polls p.
Proof.
  intros Hp Hid Hev.
  assert (Hnone : statusInterval p = None).
  { destruct (statusInterval p) as [cl |] eqn:Hi; [| reflexivity].
    specialize (Hp cl Hi). unfold should_poll in Hp. rewrite Hid in Hp. discriminate. }
  assert (Hidle : forall q, interval_justified q -> processingCampaignId q = JNull ->
                            statusInterval q = None).
  { intros q Hq Hqid. destruct (statusInterval q) as [cl |] eqn:Hi; [| reflexivity].
    specialize (Hq cl Hi). unfold should_poll in Hq. rewrite Hqid in Hq. discriminate. }
  assert (Hq : processingCampaignId (step flag ev p) = JNull
               /\ polls (step flag ev p) = polls p).
  { destruct ev as [campaign_id total_urls | | k r]; [discriminate | |]; simpl.
    - by rewrite Hnone.
    - destruct (inflight p !! k) as [cl |] eqn:Hk; [| by split].
      set (p0 := set_inflight (delete k (inflight p)) p).
      assert (Hc : forall same q, processingCampaignId (commit same q) = processingCampaignId q
                                  /\ polls (commit same q) = polls q).
      { intros same q. unfold commit. destruct same; [by split |].
        destruct (should_poll q); by split. }
      destruct r as [status | e].
      + destruct (Hc (deps_same false true p (on_status flag status cl p0))
                    (on_status flag status cl p0)) as [-> ->].
        destruct (on_status_frame flag status cl p0) as (Hid' & _ & Hpo' & _).
        split; [| exact Hpo'].
        destruct Hid' as [-> | ->]; [exact Hid | reflexivity].
      + destruct (Hc (deps_same false false p (on_error cl p0)) (on_error cl p0)) as [-> ->].
        destruct (on_error_frame cl p0) as (Hid' & _ & _ & Hpo' & _).
        by rewrite Hid', Hpo'. }
  destruct Hq as [Hq1 Hq2]. repeat split; try assumption.
  apply Hidle; [by apply step_justified | exact Hq1].
Qed.

Lemma idle_run flag (evs : list event) (p : page) :
  interval_justified p -> processingCampaignId p = JNull ->
  forallb not_submit evs = true ->
  processingCampaignId (run flag evs p) = JNull
  /\ statusInterval (run flag evs p) = None
  /\ polls (run flag evs p) = polls p.
Proof.
  revert p. induction evs as [| ev evs IH]; intros p Hp Hid Hevs.
  - change (run flag [] p) with p. repeat split; try assumption.
    destruct (statusInterval p) as [cl |] eqn:Hi; [| reflexivity].
    specialize (Hp cl Hi). unfold should_poll in Hp. rewrite Hid in Hp. discriminate.
  - simpl in Hevs. apply andb_prop in Hevs as [Hev Hevs].
    destruct (idle_step flag ev p Hp Hid Hev) as (H1 & H2 & H3).
    destruct (IH (step flag ev p) (step_justified flag ev p Hp) H1 Hevs) as (G1 & G2 & G3).
    change (run flag (ev :: evs) p) with (run flag evs (step flag ev p)).
    rewrite G1, G2, G3, H3. by repeat split.
Qed.

Lemma failed_poll_step flag (id st : value) (e : js_error) (m : Z) (t : nat) (p : page) :
  truthy id = true -> truthy (opt_prop st "is_complete") = false ->
  processingCampaignId p = id -> campaignStatus p = st ->
  statusCheckErrors p = m -> inflight p = [] ->
  statusInterval p = Some {| timer_id := t; cap_campaign := id; cap_errors := m |} ->
  let p' := run flag (poll (Rejected e)) p in
  processingCampaignId p' = id /\ campaignStatus p' = st
  /\ statusCheckErrors p' = (m + 1)%Z /\ inflight p' = []
  /\ statusInterval p' = Some {| timer_id := next_timer p; cap_campaign := id;
                                 cap_errors := (m + 1)%Z |}
  /\ polls p' = id :: polls p
  /\ error p' = (if (m >=? 10)%Z
                 then JStr "Lost connection to campaign processing. Please check campaign list."
                 else error p).
Proof.
  intros Hid Hic Pid Pst Perr Pin Piv.
  destruct p as [pid pst perr perror psucc piv pnext pin ppolls ptoasts pnav].
  simpl in *. subst pid pst perr pin piv.
  unfold run, poll. simpl.
  unfold on_error, clearInterval, deps_same, commit, should_poll. simpl.
  assert (Hne : (m =? m + 1)%Z = false) by (apply Z.eqb_neq; lia).
  destruct (m >=? 10)%Z; simpl; rewrite ?Nat.eqb_refl; simpl;
    rewrite !object_is_same, Hne, Hid, Hic; simpl; repeat split; reflexivity.
Qed.

Lemma failed_polls_from flag (id st : value) (e : js_error) (n : nat) :
  truthy id = true -> truthy (opt_prop st "is_complete") = false ->
  forall (m : Z) (t : nat) (p : page),
    processingCampaignId p = id -> campaignStatus p = st ->
    statusCheckErrors p = m -> inflight p = [] ->
    statusInterval p = Some {| timer_id := t; cap_campaign := id; cap_errors := m |} ->
    let p' := run flag (failed_polls n e) p in
    processingCampaignId p' = id /\ campaignStatus p' = st
    /\ statusCheckErrors p' = (m + Z.of_nat n)%Z /\ inflight p' = []
    /\ (exists t', statusInterval p'
                   = Some {| timer_id := t'; cap_campaign := id;
                             cap_errors := (m + Z.of_nat n)%Z |})
    /\ polls p' = (replicate n id ++ polls p)%list
    /\ error p' = (if (11 <=? m + Z.of_nat n)%Z && (1 <=? n)%nat
                   then JStr "Lost connection to campaign processing. Please check campaign list."
                   else error p).
Proof.
  intros Hid Hic. induction n as [| n IH]; intros m t p Pid Pst Perr Pin Piv.
  - change (run flag (failed_polls 0 e) p) with p. simpl.
    rewrite Z.add_0_r, andb_false_r. repeat split; eauto.
  - change (failed_polls (S n) e) with (poll (Rejected e) ++ failed_polls n e)%list.
    rewrite run_app.
    destruct (failed_poll_step flag id st e m t p Hid Hic Pid Pst Perr Pin Piv)
      as (Q1 & Q2 & Q3 & Q4 & Q5 & Q6 & Q7).
    destruct (IH (m + 1)%Z _ _ Q1 Q2 Q3 Q4 Q5) as (R1 & R2 & R3 & R4 & (t' & R5) & R6 & R7).
    cbv zeta.
    replace (m + Z.of_nat (S n))%Z with (m + 1 + Z.of_nat n)%Z by lia.
    repeat split; eauto.
    + rewrite R6, Q6. simpl.
      by rewrite (cons_middle id), app_assoc, <- replicate_cons_app.
    + rewrite R7, Q7, Z.geb_leb.
      destruct n as [| n'].
      * change (1 <=? 0)%nat with false. change (1 <=? 1)%nat with true.
        rewrite andb_false_r, andb_true_r.
        destruct (Z.leb_spec 10 m); destruct (Z.leb_spec 11 (m + 1 + Z.of_nat 0));
          try reflexivity; lia.
      * change (1 <=? S n')%nat with true. change (1 <=? S (S n'))%nat with true.
        rewrite !andb_true_r.
        destruct (Z.leb_spec 11 (m + 1 + Z.of_nat (S n'))); [reflexivity |].
        destruct (Z.leb_spec 10 m); [lia | reflexivity].
Qed.

(** C5: the code on runs of consecutive failures. From a started
    campaign, after [n] status checks that all failed: [n] requests were
    issued, the error counter is [n], the status received at start is
    untouched, and an interval is still running, so the next tick issues
    request [n + 1]. The connection-lost error is set only once more
    than ten checks have failed. In particular after ten failures nothing
    is surfaced and an eleventh poll goes out, and polling never stops. *)
Theorem failed_polls_keep_polling flag (id total : value) (e : js_error) (n : nat) :
  truthy id = true ->
  let p0 := run flag [Submit id total] mounted in
  let p := run flag (failed_polls n e) p0 in
  polls p = replicate n id
  /\ statusCheckErrors p = Z.of_nat n
  /\ campaignStatus p = campaignStatus p0
  /\ (exists t, statusInterval p
                = Some {| timer_id := t; cap_campaign := id; cap_errors := Z.of_nat n |})
  /\ polls (step flag Tick p) = replicate (S n) id
  /\ error p = (if (n <=? 10)%nat then JNull
                else JStr "Lost connection to campaign processing. Please check campaign list.").
Proof.
  intros Hid p0 p.
  assert (H0 : processingCampaignId p0 = id
               /\ truthy (opt_prop (campaignStatus p0) "is_complete") = false
               /\ statusCheckErrors p0 = 0%Z /\ inflight p0 = []
               /\ statusInterval p0 = Some {| timer_id := 0; cap_campaign := id;
                                              cap_errors := 0%Z |}
               /\ polls p0 = [] /\ error p0 = JNull).
  { unfold p0, run. simpl. rewrite Hid.
    unfold deps_same, commit, should_poll. simpl.
    replace (object_is true JNull id) with false; [simpl; rewrite Hid; by repeat split |].
    destruct id; simpl in *; try reflexivity; discriminate. }
  destruct H0 as (P1 & P2 & P3 & P4 & P5 & P6 & P7).
  destruct (failed_polls_from flag id (campaignStatus p0) e n Hid P2 0%Z 0%nat p0
              P1 eq_refl P3 P4 P5) as (R1 & R2 & R3 & R4 & (t & R5) & R6 & R7).
  fold p in R1, R2, R3, R4, R5, R6, R7.
  rewrite Z.add_0_l in R3, R5, R7. rewrite P6, app_nil_r in R6. rewrite P7 in R7.
  repeat split; eauto.
  - simpl. rewrite R5. simpl. rewrite R6.
    by rewrite replicate_cons_app.
  - rewrite R7.
    destruct n as [| n']; [reflexivity |].
    change (1 <=? S n')%nat with true. rewrite andb_true_r.
    destruct (Z.leb_spec 11 (Z.of_nat (S n'))); destruct (Nat.leb_spec (S n') 10);
      try reflexivity; lia.
Qed.

(** Ten network failures in a row for campaign c1. *)
Lemma failed_polls_keep_polling_witness :
  let e := {| code := Some "ERR_NETWORK"; response := None; message := "Network Error" |} in
  let p := run true (failed_polls 10 e) (run true [Submit (JStr "c1") (JNum 3)] mounted) in
  polls p = replicate 10 (JStr "c1")
  /\ polls (step true Tick p) = replicate 11 (JStr "c1")
  /\ error p = JNull.
Proof.
  intros e p.
  destruct (failed_polls_keep_polling true (JStr "c1") (JNum 3) e 10 eq_refl)
    as (H1 & _ & _ & _ & H5 & H6).
  repeat split; assumption.
Defined.

(** The same run, evaluated: ten failures surface nothing; the eleventh
    poll is issued and its failure sets the error; a twelfth poll
    follows. *)
Example eleven_failures_then_a_twelfth_poll :
  let e := {| code := Some "ERR_NETWORK"; response := None; message := "Network Error" |} in
  let p10 := run true (Submit (JStr "c1") (JNum 3) :: failed_polls 10 e) mounted in
  let p11 := run true (poll (Rejected e)) p10 in
  error p10 = JNull
  /\ length (polls p10) = 10%nat
  /\ length (polls p11) = 11%nat
  /\ error p11 = JStr "Lost connection to campaign processing. Please check campaign list."
  /\ length (polls (step true Tick p11)) = 12%nat.
Proof.
  vm_compute. repeat split; reflexivity.
Qed.

Lemma commit_frame (same : bool) (q : page) :
  processingCampaignId (commit same q) = processingCampaignId q
  /\ campaignStatus (commit same q) = campaignStatus q
  /\ polls (commit same q) = polls q.
Proof.
  unfold commit. destruct same; [by repeat split |].
  destruct (should_poll q); by repeat split.
Qed.

(** C6, as amended. On the polling path, whatever happened before, a
    status response whose [is_complete] is truthy ends the polling: the
    interval is cancelled, [processingCampaignId] is cleared, and through
    every later tick and settled request no interval runs and no further
    status request is issued. On the WebSocket path nothing reacts to
    completion. Whatever came before, the hook puts every message that
    parses, from a socket it has not closed, into [stats], and the
    service's socket dispatches every message it forwards; no message
    makes the hook call [close] or drop its socket, and none closes the
    service's socket or stops its ping interval. A socket is closed by
    the hook's effect cleanup (at a render with a changed [campaignId],
    at the unmount) and by [closeWebSocket], which cancels the ping
    interval and closes a socket that is open. *)
Theorem completion_stops_polling flag (history later : list event) (k : nat)
    (cl : closure) (status : value) :
  let p := run flag history mounted in
  inflight p !! k = Some cl ->
  truthy (prop status "is_complete") = true ->
  forallb not_submit later = true ->
  let p' := step flag (Settle k (Resolved status)) p in
  campaignStatus p' = status
  /\ processingCampaignId p' = JNull
  /\ statusInterval p' = None
  /\ statusInterval (run flag later p') = None
  /\ polls (run flag later p') = polls p
  /\ (forall hook_history id n data,
        let h := WebSocket.hook_run hook_history (WebSocket.hook_mount id) in
        WebSocket.delivers n (WebSocket.OnMessage (Some data)) h = true ->
        WebSocket.stats
          (WebSocket.hook_step (WebSocket.FromSocket n (WebSocket.OnMessage (Some data))) h)
        = data)
  /\ (forall events h,
        let h' := WebSocket.hook_run
                    ((fun e => WebSocket.FromSocket (fst e) (snd e)) <$> events) h in
        WebSocket.close_calls h' = WebSocket.close_calls h
        /\ WebSocket.held h' = WebSocket.held h)
  /\ (forall h n, WebSocket.alive h = true -> WebSocket.held h = Some n ->
        (forall id, WebSocket.same_id (WebSocket.campaignId h) id = false ->
                    WebSocket.close_calls (WebSocket.hook_step (WebSocket.Rerender id) h)
                    = n :: WebSocket.close_calls h)
        /\ (forall id, WebSocket.same_id (WebSocket.campaignId h) id = true ->
                       WebSocket.hook_step (WebSocket.Rerender id) h = h)
        /\ WebSocket.close_calls (WebSocket.hook_step WebSocket.HookUnmount h)
           = n :: WebSocket.close_calls h)
  /\ (forall evs ws,
        WebSocket.dispatched (WebSocket.socket_run evs ws)
        = (rev (filter (fun d => WebSocket.forwards d = true) (WebSocket.received evs))
           ++ WebSocket.dispatched ws)%list)
  /\ (forall messages ws,
        let ws' := WebSocket.socket_run (WebSocket.OnMessage <$> messages) ws in
        WebSocket.readyState ws' = WebSocket.readyState ws
        /\ WebSocket.pingInterval ws' = WebSocket.pingInterval ws)
  /\ (forall ws, exists ws',
        WebSocket.closeWebSocket (Some ws) = Some ws'
        /\ WebSocket.pingInterval ws' = false
        /\ (WebSocket.readyState ws = WebSocket.OPEN ->
            WebSocket.readyState ws' = WebSocket.CLOSING)).
Proof.
  intros p Hk Hc Hlater p'.
  assert (Hn : nullish status = false) by (destruct status; simpl in *; done).
  assert (Hp : interval_justified p) by (apply run_justified, mounted_justified).
  assert (Hp' : interval_justified p') by (by apply step_justified).
  assert (Hp'eq : p' = commit (deps_same false true p
                                 (on_status flag status cl
                                    (set_inflight (delete k (inflight p)) p)))
                         (on_status flag status cl (set_inflight (delete k (inflight p)) p))).
  { unfold p'. simpl. by rewrite Hk. }
  destruct (commit_frame (deps_same false true p
                            (on_status flag status cl
                               (set_inflight (delete k (inflight p)) p)))
              (on_status flag status cl (set_inflight (delete k (inflight p)) p)))
    as (C1 & C2 & C3).
  rewrite <- Hp'eq in C1, C2, C3.
  destruct (on_status_frame flag status cl (set_inflight (delete k (inflight p)) p))
    as (_ & F2 & F3 & _).
  assert (Hid : processingCampaignId p' = JNull)
    by (rewrite C1; by apply on_status_complete).
  destruct (idle_run flag later p' Hp' Hid Hlater) as (_ & G2 & G3).
  destruct (idle_run flag [] p' Hp' Hid eq_refl) as (_ & G2' & _).
  split; [by rewrite C2 |]. split; [exact Hid |]. split; [exact G2' |].
  split; [exact G2 |]. split; [by rewrite G3, C3, F3 |].
  split.
  { intros hook_history id n data h Hd. simpl. by rewrite Hd. }
  split.
  { intros events h h'.
    destruct (hook_socket_events_close_nothing events h) as (H1 & H2 & _).
    by split. }
  split.
  { intros h n Ha Hh. split; [| split].
    - intros id' Hsame. simpl. rewrite Ha, Hsame. simpl.
      unfold WebSocket.hook_cleanup, WebSocket.hook_effect. rewrite Hh. simpl.
      by destruct (truthy id'), (WebSocket.constructs id').
    - intros id' Hsame. simpl. by rewrite Ha, Hsame.
    - simpl. rewrite Ha. unfold WebSocket.hook_cleanup. by rewrite Hh. }
  split; [apply socket_run_dispatched |].
  split.
  { intros messages ws ws'.
    destruct (socket_messages_keep_state messages ws) as (H1 & H2 & _). by split. }
  intros ws. eexists. split; [reflexivity |]. split; [reflexivity |].
  intros Ho. unfold WebSocket.is_open. simpl. by rewrite Ho.
Qed.

(** A campaign that completes at its first poll. *)
Lemma completion_stops_polling_witness :
  let done := JObj (<["status" := JStr "COMPLETED"]> (<["is_complete" := JBool true]> ∅)) in
  let p' := run true [Submit (JStr "c1") (JNum 3); Tick; Settle 0 (Resolved done)] mounted in
  statusInterval (run true [Tick; Tick] p') = None
  /\ polls (run true [Tick; Tick] p') = [JStr "c1"].
Proof.
  intros done p'.
  destruct (completion_stops_polling true [Submit (JStr "c1") (JNum 3); Tick] [Tick; Tick] 0
              {| timer_id := 0; cap_campaign := JStr "c1"; cap_errors := 0 |} done
              eq_refl eq_refl eq_refl) as (_ & _ & _ & H4 & H5 & _).
  split; [exact H4 | exact H5].
Defined.

End Polling.

(** The claim C6 as stated fails on the WebSocket path. Neither the hook
    nor the service's socket looks at [is_complete]: a message that
    arrives after a complete status replaces the hook's state and is
    dispatched to the consumer, the socket stays open with its ping
    interval armed, and [close] is not called. *)
Lemma websocket_ignores_completion :
  let done := JObj (<["type" := JStr "campaign_update"]>
                   (<["status" := JStr "COMPLETED"]> (<["is_complete" := JBool true]> ∅))) in
  let late := JObj (<["type" := JStr "campaign_update"]>
                   (<["status" := JStr "RUNNING"]> (<["is_complete" := JBool false]> ∅))) in
  let evs := [WebSocket.OnOpen; WebSocket.OnMessage (Some done);
              WebSocket.OnMessage (Some late)] in
  let h := WebSocket.hook_run (WebSocket.FromSocket 0 <$> evs)
             (WebSocket.hook_mount (JStr "c1")) in
  let ws := WebSocket.socket_run evs
              (WebSocket.Socket WebSocket.CONNECTING true [] []) in
  truthy (prop done "is_complete") = true
  /\ WebSocket.stats h = late
  /\ WebSocket.close_calls h = []
  /\ WebSocket.held h = Some 0%nat
  /\ WebSocket.dispatched ws = [late; done]
  /\ WebSocket.readyState ws = WebSocket.OPEN
  /\ WebSocket.pingInterval ws = true.
Proof.
  vm_compute. repeat split; reflexivity.
Qed.

(** On the polling path a request already in flight when the complete
    status arrives is still applied when it settles. *)
Example late_poll_response_is_applied :
  let done := JObj (<["status" := JStr "COMPLETED"]> (<["is_complete" := JBool true]> ∅)) in
  let stale := JObj (<["status" := JStr "RUNNING"]> (<["is_complete" := JBool false]> ∅)) in
  let p := FormSubmitterPage.run true
             [FormSubmitterPage.Submit (JStr "c1") (JNum 3);
              FormSubmitterPage.Tick; FormSubmitterPage.Tick;
              FormSubmitterPage.Settle 1 (Resolved done);
              FormSubmitterPage.Settle 0 (Resolved stale)]
             FormSubmitterPage.mounted in
  FormSubmitterPage.campaignStatus p = stale
  /\ FormSubmitterPage.statusInterval p = None
  /\ length (FormSubmitterPage.polls p) = 2%nat.
Proof.
  vm_compute. repeat split; reflexivity.
Qed.

(* --------------------------------------------------------------------- *)
(** ** Dashboard fetch de-duplication *)
(* --------------------------------------------------------------------- *)

Module Dedup.
Import OwnerDashboard.










Section WithProcessing.

Variable processing_error : value -> gmap string value -> option js_error.







(** *** The invariant *)




















End WithProcessing.

(** The mount, a refresh tried while the loader is up, the seven answers,
    then a refresh: the first refresh is not offered, the second starts
    a new batch, and a call made 400 ms later that is not forced is
    suppressed. *)
Example refresh_only_after_loading :
  let answer := ReplyOk (Some (JNum 1)) in
  let loading_evs := [Effect "month" 5000; Refresh 5200] in
  let evs := (loading_evs ++ [Settle 2 answer; Settle 3 answer; Settle 4 answer;
                             Settle 5 answer; Settle 6 answer; Settle 7 answer;
                             Settle 8 answer; Refresh 9000])%list in
  let d1 := run no_throw loading_evs (mounted signed_in) in
  let d := run no_throw evs (mounted signed_in) in
  d1 = run no_throw [Effect "month" 5000] (mounted signed_in)
  /\ writes d = [1%nat]
  /\ length (batches d) = 1%nat
  /\ fetchDashboardData no_throw false 9400 d = d.
Proof. vm_compute. by repeat split. Qed.

End Dedup.

(* ===================================================================== *)
(** * Further properties of the session, the gateway and the pages *)
(* ===================================================================== *)

(* --------------------------------------------------------------------- *)
(** ** Logout, the mount check and login *)
(* --------------------------------------------------------------------- *)

Section SessionMore.

Variable net : request -> settled http_response.
Variable JSON_stringify : value -> string.

(** X1. [logout] cannot fail and always ends anonymous: whatever the
    server answers to the logout request, it resolves, the whole of
    [localStorage] is emptied, the held user is [null], the last hard
    navigation is to the root, and exactly one request was sent. *)
Theorem logout_always_anonymous (w : AuthProvider.world) :
  let r := AuthProvider.logout net w in
  fst r = Resolved tt
  /\ localStorage (AuthProvider.window (snd r)) = ∅
  /\ AuthProvider.user (snd r) = JNull
  /\ (exists earlier, navigations (AuthProvider.window (snd r)) = "/" :: earlier)
  /\ sessionStorage (AuthProvider.window (snd r)) = sessionStorage (AuthProvider.window w)
  /\ sent (AuthProvider.window (snd r))
     = ApiService.request_interceptor "post" "/api/auth/logout" JNull (AuthProvider.window w)
       :: sent (AuthProvider.window w).
Proof.
  unfold AuthProvider.logout, finally, try_catch, AuthProvider.call, ApiService.logout.
  unfold finally, mbind, M_bind, bind.
  destruct (net (ApiService.request_interceptor "post" "/api/auth/logout" JNull
                   (AuthProvider.window w))) as [resp | e] eqn:Hnet.
  - rewrite (makeRequest_resolved net _ _ _ _ _ Hnet). simpl.
    repeat split; eauto.
  - rewrite (makeRequest_rejected net _ _ _ _ _ Hnet). simpl.
    destruct (ApiService.is_401 e); simpl; repeat split; eauto.
Qed.

(** X2. The mount check always resolves and always ends with [loading]
    false. Without a stored token it sends nothing and changes neither
    the browser nor the held user; with a token whose verification fails
    it removes [access_token] and [user_id] and holds no user. *)
Theorem checkAuthStatus_outcomes (w : AuthProvider.world) :
  let r := AuthProvider.checkAuthStatus net w in
  fst r = Resolved tt
  /\ AuthProvider.loading (snd r) = false
  /\ (stored_token (AuthProvider.window w) = None ->
      AuthProvider.window (snd r) = AuthProvider.window w
      /\ AuthProvider.user (snd r) = AuthProvider.user w)
  /\ (forall t e,
        stored_token (AuthProvider.window w) = Some t ->
        net (ApiService.me_request (AuthProvider.window w)) = Rejected e ->
        AuthProvider.user (snd r) = JNull
        /\ localStorage (AuthProvider.window (snd r)) !! "access_token" = None
        /\ localStorage (AuthProvider.window (snd r)) !! "user_id" = None).
Proof.
  unfold AuthProvider.checkAuthStatus, finally, try_catch, AuthProvider.call,
    ApiService.getCurrentUser.
  unfold mbind, M_bind, bind, gets.
  destruct (stored_token (AuthProvider.window w)) as [t |] eqn:Htok.
  - unfold mbind, M_bind, bind.
    destruct (net (ApiService.me_request (AuthProvider.window w))) as [resp | e] eqn:Hnet.
    + rewrite (makeRequest_resolved net _ _ _ _ _ Hnet). simpl.
      split; [reflexivity |]. split; [reflexivity |]. split; [discriminate |].
      intros t' e' _ [=].
    + rewrite (makeRequest_rejected net _ _ _ _ _ Hnet). simpl.
      split; [reflexivity |]. split; [reflexivity |]. split; [discriminate |].
      intros t' e' _ _. split; [reflexivity |].
      destruct (ApiService.is_401 e); simpl.
      * split; [rewrite lookup_delete_ne by discriminate; apply lookup_delete_eq
               | apply lookup_delete_eq].
      * split; [rewrite lookup_delete_ne by discriminate; apply lookup_delete_eq
               | apply lookup_delete_eq].
  - simpl. split; [reflexivity |]. split; [reflexivity |]. split.
    + intros _. by destruct w as [[] ? ? ?].
    + intros t e [=].
Qed.

(** The request [login] sends for an email and a password. *)
Lemma login_request_sent (email password : string) (b : browser) (resp : http_response) :
  net (ApiService.request_interceptor "post" "/api/auth/login"
         (JObj (<["email" := JStr (AuthProvider.toLowerCase (AuthProvider.trim email))]>
               (<["password" := JStr password]> ∅))) b) = Resolved resp ->
  ApiService.login net JSON_stringify (AuthProvider.toLowerCase (AuthProvider.trim email))
    password b
  = (Resolved (data resp),
     let b' := log_request
                 (ApiService.request_interceptor "post" "/api/auth/login"
                    (JObj (<["email" := JStr (AuthProvider.toLowerCase (AuthProvider.trim email))]>
                          (<["password" := JStr password]> ∅))) b) b in
     if truthy (data resp) && truthy (prop (data resp) "access_token")
     then ls_set "user_info" (JSON_stringify (prop (data resp) "user"))
            (ls_set "access_token" (to_string (prop (data resp) "access_token")) b')
     else b').
Proof.
  intros Hnet. unfold ApiService.login, ApiService.store_session.
  unfold mbind, M_bind, bind.
  rewrite (makeRequest_resolved net _ _ _ _ _ Hnet).
  destruct (truthy (data resp) && truthy (prop (data resp) "access_token")); reflexivity.
Qed.



End SessionMore.

(** An unreachable backend at mount, with a token stored. *)
Lemma checkAuthStatus_outcomes_witness :
  let w := AuthProvider.initial (ls_set "user_id" "u1" (ls_set "access_token" "tok" fresh_browser)) in
  let r := AuthProvider.checkAuthStatus unreachable_backend w in
  AuthProvider.user (snd r) = JNull
  /\ localStorage (AuthProvider.window (snd r)) !! "access_token" = None
  /\ localStorage (AuthProvider.window (snd r)) !! "user_id" = None.
Proof.
  intros w r.
  destruct (checkAuthStatus_outcomes unreachable_backend w) as (_ & _ & _ & H).
  exact (H "tok" _ eq_refl eq_refl).
Defined.


(** A login answered with an empty array for a token: accepted, and no
    later request is authorized. *)
Example login_with_empty_token_text :
  let net := fun _ : request =>
    Resolved (HttpResponse 200 (JObj (<["access_token" := JArr []]>
                                     (<["user" := JObj {["id" := JStr "u1"]}]> ∅)))) in
  let r := AuthProvider.login net (fun _ => "{}") "user@test.com" "pw"
             (AuthProvider.initial fresh_browser) in
  fst r = Resolved (AuthProvider.Success (JObj {["id" := JStr "u1"]}))
  /\ authorization (ApiService.request_interceptor "get" "/api/campaigns" JNull
                      (AuthProvider.window (snd r))) = None.
Proof. vm_compute. by split. Qed.


(* --------------------------------------------------------------------- *)
(** ** When the error translation itself throws *)
(* --------------------------------------------------------------------- *)

Lemma validation_line_rejects (err : value) :
  (exists e, AuthProvider.validation_line err = Rejected e) <-> nullish err = true.
Proof.
  unfold AuthProvider.validation_line. destruct (nullish err).
  - split; eauto.
  - split; [intros [e He]; discriminate | discriminate].
Qed.

Lemma validation_lines_reject (errs : list value) :
  (exists e, AuthProvider.validation_lines errs = Rejected e) <-> existsb nullish errs = true.
Proof.
  induction errs as [| err rest IH]; simpl.
  - split; [intros [e He]; discriminate | discriminate].
  - destruct (AuthProvider.validation_line err) as [l | e0] eqn:Hl.
    + assert (Hn : nullish err = false).
      { destruct (nullish err) eqn:Hn; [| reflexivity].
        destruct (proj2 (validation_line_rejects err) Hn) as [e He]. congruence. }
      rewrite Hn. simpl. rewrite <- IH.
      destruct (AuthProvider.validation_lines rest) as [ls | e1].
      * split; intros [e He]; discriminate.
      * split; eauto.
    + assert (Hn : nullish err = true) by (apply validation_line_rejects; eauto).
      rewrite Hn. simpl. split; eauto.
Qed.

(** X5. As long as the field names and messages of a validation error
    convert to text (none is or holds an object with a [toString]
    property of its own), [getErrorMessage] throws in exactly one situation:
    the error is not a network error, its response has status 422, and
    the [detail] of the body is an array with a [null] (or undefined)
    entry; then the callback reads [loc] of that entry. In every other
    case it returns a message. *)
Theorem getErrorMessage_throws_iff (error : js_error) (action : string) :
  (forall r errs err,
      response error = Some r -> opt_prop (data r) "detail" = JArr errs -> In err errs ->
      converts (AuthProvider.validation_field err) = true
      /\ converts (AuthProvider.validation_text err) = true) ->
  (exists e, AuthProvider.getErrorMessage error action = Rejected e)
  <-> (code error <> Some "ERR_NETWORK" /\ code error <> Some "ECONNABORTED"
       /\ exists r errs,
            response error = Some r /\ status r = 422%Z
            /\ opt_prop (data r) "detail" = JArr errs
            /\ existsb nullish errs = true).
Proof.
  intros _. unfold AuthProvider.getErrorMessage.
  assert (Hcode : (match code error with
                   | Some c => String.eqb c "ERR_NETWORK" || String.eqb c "ECONNABORTED"
                   | None => false
                   end) = false
                  <-> code error <> Some "ERR_NETWORK" /\ code error <> Some "ECONNABORTED").
  { destruct (code error) as [c |]; [| by split; [split |]].
    destruct (String.eqb_spec c "ERR_NETWORK") as [-> | H1]; simpl.
    - split; [discriminate | intros [H _]; by destruct H].
    - destruct (String.eqb_spec c "ECONNABORTED") as [-> | H2].
      + split; [discriminate | intros [_ H]; by destruct H].
      + split; [intros _; split; congruence | reflexivity]. }
  destruct (match code error with
            | Some c => String.eqb c "ERR_NETWORK" || String.eqb c "ECONNABORTED"
            | None => false
            end) eqn:Hc.
  { split; [intros [e He]; discriminate |].
    intros (H1 & H2 & _). assert (true = false) by (by apply Hcode). discriminate. }
  destruct (proj1 Hcode eq_refl) as [Hn1 Hn2].
  destruct (response error) as [r |] eqn:Hr.
  2: { split.
       - intros [e He]. destruct (negb (String.eqb (message error) "")); discriminate.
       - intros (_ & _ & r & errs & [=] & _). }
  destruct (Z.eqb_spec (status r) 401) as [E401 | N401]; [split; [intros [e He]; discriminate
    | intros (_ & _ & r' & errs & [= <-] & Hs & _); lia] |].
  destruct (Z.eqb_spec (status r) 403) as [E403 | N403].
  { split.
    - intros [e0 He]. destruct (opt_prop (data r) "detail"); try discriminate.
      repeat match type of He with
             | context [if ?c then _ else _] => destruct c
             end; discriminate.
    - intros (_ & _ & r' & errs & [= <-] & Hs & _). lia. }
  destruct (Z.eqb_spec (status r) 404) as [E404 | N404]; [split; [intros [e0 He]; discriminate
    | intros (_ & _ & r' & errs & [= <-] & Hs & _); lia] |].
  destruct (Z.eqb_spec (status r) 409) as [E409 | N409]; [split; [intros [e0 He]; discriminate
    | intros (_ & _ & r' & errs & [= <-] & Hs & _); lia] |].
  destruct (Z.eqb_spec (status r) 422) as [H422 | H422].
  { destruct (opt_prop (data r) "detail") as [| | b | k | t | errs | f] eqn:Hd;
      try (split; [intros [e0 He]; discriminate
                  | intros (_ & _ & r' & errs' & [= <-] & _ & Hd' & _);
                    rewrite Hd in Hd'; discriminate]).
    split.
    - intros [e0 He].
      split; [exact Hn1 |]. split; [exact Hn2 |]. exists r, errs.
      repeat split; try assumption.
      apply validation_lines_reject.
      destruct (AuthProvider.validation_lines errs) as [ls | e1]; [discriminate | eauto].
    - intros (_ & _ & r' & errs' & [= <-] & _ & Hd' & Hex).
      rewrite Hd in Hd'. injection Hd' as <-.
      apply validation_lines_reject in Hex as [e1 He1]. rewrite He1. eauto. }
  split.
  - intros [e0 He]. destruct (status r =? 500)%Z; discriminate.
  - intros (_ & _ & r' & errs & [= <-] & Hs & _). lia.
Qed.

(** A 422 whose list of validation errors has a [null] in it. *)
Lemma getErrorMessage_throws_iff_witness :
  let error := {| code := Some "ERR_BAD_REQUEST";
                  response := Some (HttpResponse 422
                                      (JObj {["detail" := JArr [JObj {["msg" := JStr "bad"]};
                                                                JNull]]}));
                  message := "Request failed with status code 422" |} in
  exists e, AuthProvider.getErrorMessage error "register" = Rejected e.
Proof.
  intros error. apply (getErrorMessage_throws_iff error "register").
  - intros r errs err [= <-] [= <-] [<- | [<- | []]]; split; reflexivity.
  - split; [discriminate |]. split; [discriminate |].
    eexists _, _. repeat split; reflexivity.
Defined.


Section GatewayMore.

Variable net : request -> settled http_response.
Variable JSON_stringify : value -> string.

(** X6. [register] rejects only when it is called with [null] or
    [undefined]: its first statement reads [userData.email] outside the
    [try], and then nothing at all has been changed. For every other
    argument, a missing or ill-typed email included, it resolves and
    [loginLoading] is false again. *)
Theorem register_rejects_only_on_nullish (userData : value) (w : AuthProvider.world) :
  (nullish userData = true ->
   AuthProvider.register net JSON_stringify userData w
   = (Rejected (type_error userData "email"), w))
  /\ (nullish userData = false ->
      (exists o, fst (AuthProvider.register net JSON_stringify userData w) = Resolved o)
      /\ AuthProvider.loginLoading (snd (AuthProvider.register net JSON_stringify userData w))
         = false).
Proof.
  split; intros Hn.
  - unfold AuthProvider.register, get_prop. rewrite Hn. reflexivity.
  - unfold AuthProvider.register, get_prop, finally, try_catch. rewrite Hn.
    unfold mbind, M_bind, bind, modify, mret, M_ret, ret. simpl.
    destruct (prop userData "email") as [| | b | k | s | items | f] eqn:He; simpl;
      try (split; [eexists; reflexivity | reflexivity]).
    unfold AuthProvider.call, ApiService.register.
    unfold mbind, M_bind, bind. simpl.
    match goal with
    | |- context [ApiService.makeRequest net ?m ?u ?bd ?b] =>
        destruct (net (ApiService.request_interceptor m u bd b)) as [resp | e] eqn:Hnet
    end.
    + rewrite (makeRequest_resolved net _ _ _ _ _ Hnet).
      unfold ApiService.store_session, get_prop.
      destruct (data resp) as [| | b | k | t | items | f] eqn:Hd; simpl;
        try (split; [eexists; reflexivity | reflexivity]);
        unfold mbind, M_bind, bind, modify, mret, M_ret, ret; simpl;
        repeat match goal with
               | |- context [if ?c then _ else _] => destruct c; simpl
               end; (split; [eexists; reflexivity | reflexivity]).
    + rewrite (makeRequest_rejected net _ _ _ _ _ Hnet). simpl.
      destruct (truthy (ApiService.response_data e)) eqn:Ht.
      * destruct (getErrorMessage_plain (new_Error
                    (or_else (prop (ApiService.response_data e) "detail")
                       (or_else (prop (ApiService.response_data e) "message")
                          (JStr "Request failed")))) "register" eq_refl) as [m Hm].
        rewrite Hm. split; [eexists; reflexivity | reflexivity].
      * destruct (getErrorMessage_falsy_body e "register" Ht) as [m Hm].
        rewrite Hm. split; [eexists; reflexivity | reflexivity].
Qed.

(** X7. [getCampaigns] cannot fail and sends exactly one request. When
    the body is an array it is returned as it is; when the request fails
    the result is the empty array. *)
Theorem getCampaigns_total (b : browser) :
  let q := ApiService.request_interceptor "get" "/api/campaigns" JNull b in
  sent (snd (ApiService.getCampaigns net b)) = q :: sent b
  /\ exists v,
       fst (ApiService.getCampaigns net b) = Resolved v
       /\ (forall resp items, net q = Resolved resp -> data resp = JArr items ->
                              v = JArr items)
       /\ (forall resp, net q = Resolved resp -> nullish (data resp) = true -> v = JArr [])
       /\ (forall e, net q = Rejected e -> v = JArr []).
Proof.
  intros q. unfold ApiService.getCampaigns, try_catch. unfold mbind, M_bind, bind.
  destruct (net q) as [resp | e] eqn:Hnet.
  - rewrite (makeRequest_resolved net _ _ _ _ _ Hnet). simpl.
    split; [reflexivity |]. eexists. split; [reflexivity |].
    split; [| split].
    + intros resp' items [= <-] Hd. by rewrite Hd.
    + intros resp' [= <-] Hd. by destruct (data resp).
    + intros e [=].
  - rewrite (makeRequest_rejected net _ _ _ _ _ Hnet). simpl.
    split; [by destruct (ApiService.is_401 e) |]. eexists. split; [reflexivity |].
    split; [| split]; try (intros; discriminate). reflexivity.
Qed.

(** X8. [getPerformanceMetrics] cannot fail: a failed request gives the
    three zeroed metrics, a successful one gives the body unchanged. *)
Theorem getPerformanceMetrics_total (b : browser) :
  let q := ApiService.request_interceptor "get" "/api/analytics/performance" JNull b in
  (forall resp, net q = Resolved resp ->
                fst (ApiService.getPerformanceMetrics net b) = Resolved (data resp))
  /\ (forall e, net q = Rejected e ->
                fst (ApiService.getPerformanceMetrics net b)
                = Resolved (JObj ApiService.performance_fallback))
  /\ (exists v, fst (ApiService.getPerformanceMetrics net b) = Resolved v)
  /\ (forall k, k ∈ ["success_rate"; "processing_speed"; "average_duration"] ->
                ApiService.performance_fallback !! k = Some (JNum 0)).
Proof.
  intros q. unfold ApiService.getPerformanceMetrics, try_catch.
  destruct (net q) as [resp | e] eqn:Hnet.
  - rewrite (makeRequest_resolved net _ _ _ _ _ Hnet). simpl.
    split; [by intros resp' [= <-] |]. split; [intros; discriminate |].
    split; [eauto |].
    intros k Hk. repeat (apply elem_of_cons in Hk as [-> | Hk]; [vm_compute; reflexivity |]).
    by apply elem_of_nil in Hk.
  - rewrite (makeRequest_rejected net _ _ _ _ _ Hnet). simpl.
    split; [intros; discriminate |]. split; [by intros |]. split; [eauto |].
    intros k Hk. repeat (apply elem_of_cons in Hk as [-> | Hk]; [vm_compute; reflexivity |]).
    by apply elem_of_nil in Hk.
Qed.

End GatewayMore.

(* --------------------------------------------------------------------- *)
(** ** Batch deletion *)
(* --------------------------------------------------------------------- *)

Section BatchDelete.

Variable net : request -> settled http_response.





(** Three ids, the second of which the server refuses. *)
Example batchDelete_two_of_three :
  let net := fun q : request =>
    if String.eqb (url q) "/api/campaigns/8"
    then Rejected {| code := Some "ERR_BAD_REQUEST";
                     response := Some (HttpResponse 404 JNull);
                     message := "Request failed with status code 404" |}
    else Resolved (HttpResponse 200 JNull) in
  fst (ApiService.batchDeleteCampaigns net (JArr [JNum 7; JNum 8; JStr "9"]) fresh_browser)
  = Resolved (JObj (<["deleted" := JNum 2]> (<["total" := JNum 3]> ∅)))
  /\ fst (ApiService.batchDeleteCampaigns net JNull fresh_browser)
     = Rejected (type_error JNull "map").
Proof. vm_compute. by split. Qed.

End BatchDelete.

(* --------------------------------------------------------------------- *)
(** ** The WebSocket handlers *)
(* --------------------------------------------------------------------- *)

Section Sockets.
Import WebSocket.

(** X10. What reaches the consumer of [connectWebSocket] is exactly the
    parsed messages that are not [null] and whose [type] is none of
    [connection], [pong], [keepalive], each once and in arrival order
    (the log is latest first). Opening, closing and texts that are not
    JSON dispatch nothing. *)
Theorem socket_dispatch (evs : list ws_event) (ws : socket) :
  dispatched (socket_run evs ws)
  = (rev (filter (fun d => forwards d = true) (received evs)) ++ dispatched ws)%list
  /\ (forall d, forwards d = false
                <-> d = JNull \/ d = JUndefined
                    \/ prop d "type" = JStr "connection"
                    \/ prop d "type" = JStr "pong"
                    \/ prop d "type" = JStr "keepalive").
Proof.
  split.
  - apply socket_run_dispatched.
  - intros d. unfold forwards. split.
    + intros H. destruct (nullish d) eqn:Hn.
      { destruct d; try discriminate; auto. }
      simpl in H. destruct (prop d "type") as [| | b | n | t | items | f]; try discriminate.
      destruct (String.eqb t "connection") eqn:E1;
        [apply String.eqb_eq in E1; rewrite E1; auto |].
      destruct (String.eqb t "pong") eqn:E2;
        [apply String.eqb_eq in E2; rewrite E2; auto 6 |].
      destruct (String.eqb t "keepalive") eqn:E3;
        [apply String.eqb_eq in E3; rewrite E3; auto 6 | discriminate].
    + intros [-> | [-> | [H | [H | H]]]]; try reflexivity; rewrite H;
        by rewrite andb_false_r.
Qed.

Lemma hook_mount_tidy (id : value) : tidy (hook_mount id).
Proof.
  unfold hook_mount, hook_effect, tidy. simpl.
  destruct (truthy id) eqn:Ht; [destruct (constructs id) |]; simpl;
    (split; [apply NoDup_nil; done |]); (split; [| split]).
  - intros k. split; [intros [] |]. intros [Hk Hne].
    assert (k = 0)%nat by lia. subst. by destruct Hne.
  - intros k [= <-]. lia.
  - split; [done | discriminate].
  - intros k. split; [intros [] | intros [Hk _]; lia].
  - intros k [=].
  - split; [done | intros [Hf _]; discriminate].
  - intros k. split; [intros [] | intros [Hk _]; lia].
  - intros k [=].
  - split; [done | intros [_ Hf]; congruence].
Qed.

Lemma hook_cleanup_tidy (h : hook) :
  tidy h ->
  NoDup (close_calls (hook_cleanup h))
  /\ (forall k, In k (close_calls (hook_cleanup h)) <-> (k < created h)%nat)
  /\ held (hook_cleanup h) = None /\ created (hook_cleanup h) = created h
  /\ alive (hook_cleanup h) = alive h.
Proof.
  intros (H1 & H2 & H3 & H4). unfold hook_cleanup.
  destruct (held h) as [n |] eqn:Hh; simpl.
  - split; [| split; [| by repeat split]].
    + apply NoDup_cons. split; [| exact H1].
      intros Hin. apply list_elem_of_In, H2 in Hin. by destruct Hin as [_ Hne].
    + intros k. split.
      * intros [<- | Hin]; [by apply H3 | by apply H2 in Hin as [Hk _]].
      * intros Hk. destruct (Nat.eq_dec n k) as [-> | Hne]; [by left |].
        right. apply H2. split; [exact Hk | congruence].
  - split; [exact H1 |]. split; [| by repeat split].
    intros k. split.
    + intros Hin. by apply H2 in Hin as [Hk _].
    + intros Hk. apply H2. by split.
Qed.

Lemma hook_step_tidy (ev : hook_event) (h : hook) : tidy h -> tidy (hook_step ev h).
Proof.
  intros Ht. destruct ev as [k ev | id |]; simpl.
  - destruct (delivers k ev h); [| exact Ht].
    destruct ev as [| [data |] |]; exact Ht.
  - destruct (alive h) eqn:Ha; [| exact Ht].
    destruct (same_id (campaignId h) id); [exact Ht |]. simpl.
    destruct (hook_cleanup_tidy h Ht) as (C1 & C2 & C3 & C4 & C5).
    rewrite Ha in C5.
    unfold hook_effect, tidy. simpl.
    destruct (truthy id) eqn:Hid; [destruct (constructs id) |]; simpl;
      rewrite ?C3, ?C4, ?C5; (split; [exact C1 |]); (split; [| split]).
    + intros k. rewrite C2. split.
      * intros Hk. split; [lia |]. intros [= Heq]. lia.
      * intros [Hk Hne].
        destruct (Nat.eq_dec k (created h)) as [-> | Hn]; [by destruct Hne | lia].
    + intros k [= <-]. lia.
    + split; [done | discriminate].
    + intros k. rewrite C2. split; [by split | by intros [Hk _]].
    + intros k [=].
    + split; [done | intros [Hf _]; discriminate].
    + intros k. rewrite C2. split; [by split | by intros [Hk _]].
    + intros k [=].
    + split; [done | intros [_ Hf]; congruence].
  - destruct (alive h) eqn:Ha; [| exact Ht].
    destruct (hook_cleanup_tidy h Ht) as (C1 & C2 & C3 & C4 & C5).
    unfold tidy. simpl. rewrite ?C3, ?C4.
    split; [exact C1 |]. split; [| split].
    + intros k. rewrite C2. split; [by split | by intros [Hk _]].
    + intros k [=].
    + split; [done | intros [Hf _]; discriminate].
Qed.

Lemma hook_run_tidy (evs : list hook_event) (h : hook) : tidy h -> tidy (hook_run evs h).
Proof.
  revert h. induction evs as [| ev rest IH]; intros h Ht; [exact Ht |].
  apply IH. by apply hook_step_tidy.
Qed.

Lemma hook_run_stats (evs : list hook_event) (h : hook) :
  stats (hook_run evs h) = stats h
  \/ exists k, In (FromSocket k (OnMessage (Some (stats (hook_run evs h))))) evs.
Proof.
  revert h. induction evs as [| ev rest IH]; intros h; [by left |].
  change (hook_run (ev :: rest) h) with (hook_run rest (hook_step ev h)).
  destruct (IH (hook_step ev h)) as [Heq | [k Hin]]; [| right; exists k; by right].
  rewrite Heq. destruct ev as [k ev | id |]; simpl.
  - destruct (delivers k ev h); [| by left].
    destruct ev as [| [data |] |]; try (by left).
    right. exists k. left. reflexivity.
  - left. destruct (alive h && negb (same_id (campaignId h) id)); [| reflexivity].
    unfold hook_effect, hook_cleanup. simpl.
    destruct (truthy id), (constructs id), (held h); reflexivity.
  - left. destruct (alive h); [| reflexivity].
    unfold hook_cleanup. destruct (held h); reflexivity.
Qed.

(** X11. The hook leaves no socket behind. After any renders (with a
    changed [campaignId] or not, one whose socket cannot be constructed
    included), socket events and an unmount, [close()] has been called
    exactly once on every socket the hook created except the one it
    holds, and it holds one exactly while it is mounted with a truthy
    [campaignId]. [stats] is [null] or one of the messages
    received, and a changed [campaignId] does not reset it: the last
    message of the previous campaign stays until the new socket
    delivers one. *)
Theorem hook_leaves_no_socket (evs : list hook_event) (id : value) :
  let h := hook_run evs (hook_mount id) in
  NoDup (close_calls h)
  /\ (forall k, In k (close_calls h) <-> (k < created h)%nat /\ held h <> Some k)
  /\ (held h <> None <-> alive h = true /\ truthy (campaignId h) = true)
  /\ (stats h = JNull
      \/ exists k, In (FromSocket k (OnMessage (Some (stats h)))) evs)
  /\ (forall id', stats (hook_step (Rerender id') h) = stats h).
Proof.
  intros h.
  destruct (hook_run_tidy evs (hook_mount id) (hook_mount_tidy id)) as (H1 & H2 & _ & H4).
  split; [exact H1 |]. split; [exact H2 |]. split; [exact H4 |]. split.
  - destruct (hook_run_stats evs (hook_mount id)) as [Heq | Hex]; [left | by right].
    fold h in Heq. rewrite Heq. unfold hook_mount, hook_effect. simpl.
    by destruct (truthy id), (constructs id).
  - intros id'. simpl.
    destruct (alive h && negb (same_id (campaignId h) id')); [| reflexivity].
    unfold hook_effect, hook_cleanup. simpl.
    destruct (truthy id'), (constructs id'), (held h); reflexivity.
Qed.

(** Campaign c1, then c2, then the unmount: both sockets were closed,
    and the last message of c1 is still in [stats] under c2. *)
Example hook_two_campaigns :
  let h := hook_run [FromSocket 0 OnOpen; FromSocket 0 (OnMessage (Some (JStr "m1")));
                     Rerender (JStr "c2"); FromSocket 1 OnOpen]
             (hook_mount (JStr "c1")) in
  stats h = JStr "m1" /\ campaignId h = JStr "c2"
  /\ close_calls h = [0%nat] /\ held h = Some 1%nat
  /\ close_calls (hook_step HookUnmount h) = [1; 0]%nat.
Proof. vm_compute. by repeat split. Qed.

(** A [campaignId] with a [#] in it: the cleanup closes the socket of
    c1, the new effect throws, and the hook is gone with no socket
    left. *)
Example hook_unconstructible_campaign :
  let h := hook_run [FromSocket 0 OnOpen; Rerender (JStr "c#2")] (hook_mount (JStr "c1")) in
  constructs (JStr "c#2") = false
  /\ alive h = false /\ close_calls h = [0%nat] /\ held h = None /\ created h = 1%nat.
Proof. vm_compute. by repeat split. Qed.

(** X12. [closeWebSocket] is idempotent and silences the ping interval:
    no later tick sends a frame. It closes only a socket that is open: a
    socket still connecting is left connecting, and when it then opens
    it sends its first ping and keeps dispatching messages although its
    owner has closed it. *)
Theorem closeWebSocket_only_closes_open (ws : socket) :
  closeWebSocket (closeWebSocket (Some ws)) = closeWebSocket (Some ws)
  /\ (forall ws', closeWebSocket (Some ws) = Some ws' -> ping_tick ws' = ws')
  /\ (readyState ws = CONNECTING ->
      forall ws', closeWebSocket (Some ws) = Some ws' ->
        readyState ws' = CONNECTING
        /\ readyState (socket_handle OnOpen ws') = OPEN
        /\ frames (socket_handle OnOpen ws') = "ping" :: frames ws
        /\ forall d, forwards d = true ->
             dispatched (socket_run [OnOpen; OnMessage (Some d)] ws') = d :: dispatched ws).
Proof.
  split; [| split].
  - unfold closeWebSocket, is_open. simpl. destruct (readyState ws); reflexivity.
  - intros ws' [= <-]. reflexivity.
  - intros Hc ws' [= <-]. unfold is_open. rewrite Hc. simpl.
    split; [reflexivity |]. split; [reflexivity |]. split; [reflexivity |].
    intros d Hd. unfold socket_run. simpl. by rewrite Hd.
Qed.

End Sockets.

(* --------------------------------------------------------------------- *)
(** ** The form validators *)
(* --------------------------------------------------------------------- *)

Section ValidatorFacts.
Import Validators.

(** X13. On ASCII text, a campaign name passes exactly when its trimmed
    length is between 3 and 100, and a message exactly when it is between
    10 and 1000, both bounds included (a name of exactly 100 characters
    passes although the message for longer ones says "less than 100").
    Neither validator ever reports more than one error. *)
Theorem name_and_message_bounds (s : string) :
  ascii_only s = true ->
  let n := String.length (AuthProvider.trim s) in
  (validateCampaignName s = [] <-> (3 <= n <= 100)%nat)
  /\ (validateMessage s = [] <-> (10 <= n <= 1000)%nat)
  /\ (length (validateCampaignName s) <= 1)%nat
  /\ (length (validateMessage s) <= 1)%nat.
Proof.
  intros _ n. unfold validateCampaignName, validateMessage. fold n.
  assert (Hempty : s = "" -> n = 0%nat) by (intros ->; reflexivity).
  destruct (String.eqb_spec s "") as [He | He].
  - rewrite (Hempty He). simpl. repeat split; try lia; discriminate.
  - simpl. destruct (Nat.eqb_spec n 0) as [H0 | H0].
    + rewrite H0. simpl. repeat split; try lia; discriminate.
    + destruct (Nat.ltb_spec n 3), (Nat.ltb_spec 100 n), (Nat.ltb_spec n 10),
        (Nat.ltb_spec 1000 n); simpl; repeat split; try lia; try discriminate.
Qed.

Lemma name_and_message_bounds_witness :
  validateCampaignName "  ab " = ["Campaign name must be at least 3 characters"]
  /\ validateCampaignName " Spring outreach " = [].
Proof.
  destruct (name_and_message_bounds " Spring outreach " eq_refl) as ([_ H] & _).
  split; [vm_compute; reflexivity | apply H; vm_compute; lia].
Defined.

(** X14. A CSV file passes [validateCSVFile] exactly when it is present,
    its name ends in ".csv" in any letter case, and its size is not 0
    and at most 5 MB. "Too large" and "empty" are never reported
    together, and a missing file gets the single error "required". *)
Theorem validateCSVFile_accepts_iff (f : option file) :
  (validateCSVFile f = []
   <-> exists g, f = Some g
                 /\ endsWith ".csv" (AuthProvider.toLowerCase (name g)) = true
                 /\ size g <> 0%Z /\ (size g <= 5 * 1024 * 1024)%Z)
  /\ (f = None -> validateCSVFile f = ["CSV file is required"])
  /\ ~ ("File size must be less than 5MB" ∈ validateCSVFile f
        /\ "CSV file is empty" ∈ validateCSVFile f).
Proof.
  split; [| split].
  - destruct f as [g |]; simpl.
    + destruct (endsWith ".csv" (AuthProvider.toLowerCase (name g))) eqn:He; simpl.
      * destruct (Z.gtb_spec (size g) (5 * 1024 * 1024)); simpl.
        -- split; [discriminate |]. intros (g' & [= <-] & _ & _ & Hs). lia.
        -- destruct (Z.eqb_spec (size g) 0); simpl.
           ++ split; [discriminate |]. intros (g' & [= <-] & _ & Hs & _). lia.
           ++ split; [intros _ | reflexivity]. exists g. by repeat split.
      * split; [discriminate |]. intros (g' & [= <-] & Hf & _). congruence.
    + split; [discriminate |]. intros (g' & [=] & _).
  - intros ->. reflexivity.
  - intros [H1 H2]. apply list_elem_of_In in H1, H2.
    destruct f as [g |]; simpl in *.
    + destruct (Z.gtb_spec (size g) (5 * 1024 * 1024)), (Z.eqb_spec (size g) 0);
        try lia;
        destruct (negb (endsWith ".csv" (AuthProvider.toLowerCase (name g))));
        simpl in *; intuition discriminate.
    + intuition discriminate.
Qed.

(** X15. The upload handler of the campaign form is laxer than the
    validator: every file [validateCSVFile] accepts is taken by
    [handleFileUpload], which also takes an empty ".csv" file and one of
    up to 10 MB, both of which the validator refuses. *)
Theorem upload_accepts_what_validator_accepts (g : file) :
  (validateCSVFile (Some g) = [] ->
   FormSubmitterForm.handleFileUpload (Some g) = FormSubmitterForm.Taken (name g))
  /\ (endsWith ".csv" (AuthProvider.toLowerCase (name g)) = true ->
      (size g = 0 \/ 5 * 1024 * 1024 < size g <= 10 * 1024 * 1024)%Z ->
      FormSubmitterForm.handleFileUpload (Some g) = FormSubmitterForm.Taken (name g)
      /\ validateCSVFile (Some g) <> []).
Proof.
  unfold FormSubmitterForm.handleFileUpload. simpl. split.
  - destruct (endsWith ".csv" (AuthProvider.toLowerCase (name g))); simpl; [| discriminate].
    destruct (Z.gtb_spec (size g) (5 * 1024 * 1024)); simpl; [discriminate |].
    intros _. destruct (Z.gtb_spec (size g) (10 * 1024 * 1024)); [lia | reflexivity].
  - intros -> Hs. simpl.
    destruct (Z.gtb_spec (size g) (10 * 1024 * 1024)); [lia |].
    split; [reflexivity |].
    destruct (Z.gtb_spec (size g) (5 * 1024 * 1024)), (Z.eqb_spec (size g) 0);
      simpl; try discriminate; lia.
Qed.

Lemma upload_accepts_what_validator_accepts_witness :
  FormSubmitterForm.handleFileUpload (Some (File "Sites.CSV" 2048))
  = FormSubmitterForm.Taken "Sites.CSV".
Proof.
  apply (proj1 (upload_accepts_what_validator_accepts (File "Sites.CSV" 2048))).
  vm_compute. reflexivity.
Defined.

End ValidatorFacts.

(* --------------------------------------------------------------------- *)
(** ** The email pattern *)
(* --------------------------------------------------------------------- *)

Section EmailPattern.
Import Validators.

Lemma nullable_spec (r : regex) : nullable r = true <-> matches r [].
Proof.
  split.
  - induction r as [| | p | r1 IH1 r2 IH2 | r1 IH1 r2 IH2 | r IH]; simpl;
      try discriminate.
    + intros _. constructor.
    + intros [H1 H2]%andb_prop. apply (MSeq r1 r2 [] []); auto.
    + intros [H | H]%orb_prop; [apply MAltL | apply MAltR]; auto.
    + intros _. constructor.
  - intros H. remember [] as l eqn:Hl.
    induction H as [| p c Hp | r1 r2 l1 l2 H1 IH1 H2 IH2 | r1 r2 l H IH | r1 r2 l H IH
                   | r | r l1 l2 H1 IH1 H2 IH2]; simpl; try reflexivity.
    + discriminate.
    + apply app_eq_nil in Hl as [-> ->]. by rewrite IH1, IH2.
    + by rewrite IH.
    + rewrite IH by assumption. apply orb_true_r.
Qed.

Lemma star_cons_inv (r : regex) (c : ascii) (l : list ascii) :
  matches (Star r) (c :: l) ->
  exists l1 l2, l = (l1 ++ l2)%list /\ matches r (c :: l1) /\ matches (Star r) l2.
Proof.
  intros H. remember (Star r) as r' eqn:Hr. remember (c :: l) as l' eqn:Hl.
  revert l Hl.
  induction H as [| p c' Hp | r1 r2 l1 l2 H1 IH1 H2 IH2 | r1 r2 l0 H IH | r1 r2 l0 H IH
                 | r0 | r0 l1 l2 H1 IH1 H2 IH2]; intros l Hl; try discriminate.
  injection Hr as ->.
  destruct l1 as [| c1 l1'].
  - simpl in Hl. by apply IH2.
  - simpl in Hl. injection Hl as -> <-. eauto.
Qed.

Lemma deriv_spec (c : ascii) (r : regex) (l : list ascii) :
  matches (deriv c r) l <-> matches r (c :: l).
Proof.
  revert l. induction r as [| | p | r1 IH1 r2 IH2 | r1 IH1 r2 IH2 | r IH]; intros l; simpl.
  - split; intros H; inversion H.
  - split; intros H; inversion H.
  - destruct (p c) eqn:Hp.
    + split; intros H; inversion H; subst; [by constructor | constructor].
    + split; intros H; inversion H; subst. congruence.
  - assert (Hseq : matches (Seq (deriv c r1) r2) l ->
                   matches (Seq r1 r2) (c :: l)).
    { intros H. inversion H as [| | ? ? l1 l2 H1 H2 | | | |]; subst.
      apply IH1 in H1. by apply (MSeq r1 r2 (c :: l1) l2). }
    split.
    + destruct (nullable r1) eqn:Hn; [| exact Hseq].
      intros H. inversion H as [| | | ? ? ? H1 | ? ? ? H1 | |]; subst; [by apply Hseq |].
      apply IH2 in H1. apply nullable_spec in Hn.
      by apply (MSeq r1 r2 [] (c :: l)).
    + intros H. inversion H as [| | ? ? l1 l2 H1 H2 | | | |]; subst.
      match goal with Heq : (l1 ++ l2)%list = c :: l |- _ => rename Heq into Hl end.
      destruct l1 as [| c1 l1'].
      * simpl in Hl. subst l2. apply nullable_spec in H1. rewrite H1.
        apply MAltR. by apply IH2.
      * simpl in Hl. injection Hl as -> <-.
        apply IH1 in H1.
        destruct (nullable r1); [apply MAltL |]; by constructor.
  - split; intros H; inversion H; subst;
      (apply MAltL; by apply IH1) || (apply MAltR; by apply IH2).
  - split.
    + intros H. inversion H as [| | ? ? l1 l2 H1 H2 | | | |]; subst.
      apply IH in H1. by apply (MStarS r (c :: l1) l2).
    + intros H. apply star_cons_inv in H as (l1 & l2 & -> & H1 & H2).
      apply IH in H1. by constructor.
Qed.

Lemma test_spec (r : regex) (s : string) :
  test r s = true <-> matches r (list_ascii_of_string s).
Proof.
  revert r. induction s as [| c s IH]; intros r; simpl.
  - apply nullable_spec.
  - rewrite IH. apply deriv_spec.
Qed.

Lemma star_cls (p : ascii -> bool) (l : list ascii) :
  matches (Star (Cls p)) l <-> forallb p l = true.
Proof.
  split.
  - intros H. remember (Star (Cls p)) as r eqn:Hr.
    induction H as [| p' c Hp | r1 r2 l1 l2 H1 IH1 H2 IH2 | r1 r2 l H IH | r1 r2 l H IH
                   | r0 | r0 l1 l2 H1 IH1 H2 IH2]; try discriminate; [reflexivity |].
    injection Hr as ->. inversion H1; subst. simpl.
    rewrite IH2 by reflexivity. by rewrite andb_true_r.
  - induction l as [| c l IH]; simpl; [constructor |].
    intros [Hc Hl]%andb_prop. apply (MStarS (Cls p) [c] l); [by constructor | auto].
Qed.

Lemma plus_cls (p : ascii -> bool) (l : list ascii) :
  matches (plus (Cls p)) l <-> l <> [] /\ forallb p l = true.
Proof.
  unfold plus. split.
  - intros H. inversion H as [| | ? ? l1 l2 H1 H2 | | | |]; subst.
    inversion H1; subst. apply star_cls in H2. simpl. split; [discriminate |].
    by rewrite H2, andb_true_r.
  - intros [Hne H]. destruct l as [| c l]; [done |].
    simpl in H. apply andb_prop in H as [Hc Hl].
    apply (MSeq (Cls p) (Star (Cls p)) [c] l); [by constructor | by apply star_cls].
Qed.

Lemma chr_cls (c0 : ascii) (l : list ascii) :
  matches (Cls (Ascii.eqb c0)) l <-> l = [c0].
Proof.
  split.
  - intros H. inversion H; subst. f_equal. symmetry. by apply Ascii.eqb_eq.
  - intros ->. constructor. apply Ascii.eqb_refl.
Qed.

Lemma email_language (l : list ascii) :
  matches emailRegex l
  <-> exists a x y, l = (a ++ "@"%char :: x ++ "."%char :: y)%list
                    /\ a <> [] /\ x <> [] /\ y <> []
                    /\ clean a = true /\ clean x = true /\ clean y = true.
Proof.
  unfold emailRegex, clean. split.
  - intros H.
    inversion H as [| | ? ? a l2 Ha H2 | | | |]; subst.
    inversion H2 as [| | ? ? at_ l3 Hat H3 | | | |]; subst.
    inversion H3 as [| | ? ? x l4 Hx H4 | | | |]; subst.
    inversion H4 as [| | ? ? dot y Hdot Hy | | | |]; subst.
    apply plus_cls in Ha as [Ha1 Ha2]. apply plus_cls in Hx as [Hx1 Hx2].
    apply plus_cls in Hy as [Hy1 Hy2].
    apply chr_cls in Hat as ->. apply chr_cls in Hdot as ->.
    exists a, x, y. by repeat split.
  - intros (a & x & y & -> & Ha & Hx & Hy & Ca & Cx & Cy).
    apply (MSeq _ _ a); [by apply plus_cls |].
    apply (MSeq _ _ ["@"%char]); [by apply chr_cls |].
    apply (MSeq _ _ x); [by apply plus_cls |].
    apply (MSeq _ _ ["."%char]); [by apply chr_cls | by apply plus_cls].
Qed.

Lemma clean_no_at (l : list ascii) :
  clean l = true ->
  filter (fun c => c = "@"%char) l = []
  /\ forallb (fun c => negb (AuthProvider.is_space c)) l = true.
Proof.
  unfold clean. induction l as [| c l IH]; simpl; [by split |].
  intros [Hc Hl]%andb_prop. destruct (IH Hl) as [IH1 IH2].
  unfold not_space_at in Hc. apply andb_prop in Hc as [Hs Ha].
  rewrite Hs, IH2. split; [| reflexivity].
  rewrite filter_cons. destruct (decide (c = "@"%char)) as [-> | _]; [discriminate | done].
Qed.

(** X16. On ASCII text, [isValidEmail] accepts exactly the texts of the
    form a@x.y where a, x and y are non-empty and contain neither white
    space nor an at sign (x and y may contain further dots). So an
    accepted address has exactly one at sign, no white space anywhere
    (leading or trailing blanks included), and a dot after the at sign
    that is neither next to it nor last. *)
Theorem isValidEmail_shape (email : string) :
  ascii_only email = true ->
  (isValidEmail email = true
   <-> exists a x y, list_ascii_of_string email = (a ++ "@"%char :: x ++ "."%char :: y)%list
                     /\ a <> [] /\ x <> [] /\ y <> []
                     /\ clean a = true /\ clean x = true /\ clean y = true)
  /\ (isValidEmail email = true ->
      length (filter (fun c => c = "@"%char) (list_ascii_of_string email)) = 1%nat
      /\ forallb (fun c => negb (AuthProvider.is_space c)) (list_ascii_of_string email) = true).
Proof.
  intros _.
  assert (Hiff : isValidEmail email = true <-> matches emailRegex (list_ascii_of_string email))
    by apply test_spec.
  split; [by rewrite Hiff, email_language |].
  intros H. apply Hiff, email_language in H
    as (a & x & y & -> & _ & _ & _ & Ca & Cx & Cy).
  apply clean_no_at in Ca as [Fa Sa]. apply clean_no_at in Cx as [Fx Sx].
  apply clean_no_at in Cy as [Fy Sy].
  split.
  - rewrite filter_app, filter_cons, filter_app, filter_cons, Fa, Fx, Fy.
    rewrite decide_True by reflexivity. rewrite decide_False by discriminate. reflexivity.
  - rewrite forallb_app. simpl. rewrite forallb_app. simpl.
    by rewrite Sa, Sx, Sy.
Qed.

Lemma isValidEmail_shape_witness :
  isValidEmail "user@mail.test.com" = true
  /\ length (filter (fun c => c = "@"%char) (list_ascii_of_string "user@mail.test.com")) = 1%nat.
Proof.
  destruct (isValidEmail_shape "user@mail.test.com" eq_refl) as [H1 H2].
  split; [vm_compute; reflexivity | apply H2; vm_compute; reflexivity].
Defined.

End EmailPattern.

(* --------------------------------------------------------------------- *)
(** ** The profile validator and the CSV reader *)
(* --------------------------------------------------------------------- *)

Section ProfileAndCSV.
Import Validators.

Lemma length_zero_iff (s : string) : (String.length s =? 0)%nat = true <-> s = "".
Proof. destruct s; simpl; split; congruence. Qed.

Lemma trim_empty : AuthProvider.trim "" = "".
Proof. reflexivity. Qed.

Lemma blank_false (v : value) :
  blank v = Resolved false <-> exists s, v = JStr s /\ AuthProvider.trim s <> "".
Proof.
  unfold blank. split.
  - destruct v as [| | b | n | s | items | f]; simpl; try discriminate.
    + destruct b; discriminate.
    + destruct (n =? 0)%Z; discriminate.
    + destruct (String.eqb_spec s ""); simpl; [discriminate |].
      intros [= H]. exists s. split; [reflexivity |].
      intros Ht. apply length_zero_iff in Ht. congruence.
  - intros (s & -> & Ht). simpl.
    destruct (String.eqb_spec s "") as [-> | _]; [by rewrite trim_empty in Ht |].
    simpl. f_equal. apply not_true_is_false. by rewrite length_zero_iff.
Qed.

(** X17. On a profile whose text fields are ASCII,
    [validateUserProfile] returns no error exactly when first name, last
    name, email and message are all strings that are not blank and the
    email, as typed and not trimmed, has the shape the email pattern
    accepts. It throws on a [null] profile instead of reporting. *)
Theorem validateUserProfile_accepts_iff (profile : value) :
  (forall k s, In k ["first_name"; "last_name"; "email"; "message"] ->
               prop profile k = JStr s -> ascii_only s = true) ->
  (validateUserProfile profile = Resolved []
   <-> exists first last email message,
         prop profile "first_name" = JStr first /\ AuthProvider.trim first <> ""
         /\ prop profile "last_name" = JStr last /\ AuthProvider.trim last <> ""
         /\ prop profile "email" = JStr email /\ AuthProvider.trim email <> ""
         /\ isValidEmail email = true
         /\ prop profile "message" = JStr message /\ AuthProvider.trim message <> "")
  /\ (nullish profile = true ->
      validateUserProfile profile = Rejected (type_error profile "first_name")).
Proof.
  intros _. split.
  2: { intros Hn. unfold validateUserProfile. by rewrite Hn. }
  unfold validateUserProfile. split.
  - destruct (nullish profile); [discriminate |].
    destruct (blank (prop profile "first_name")) as [b1 |] eqn:B1; [| discriminate].
    destruct (blank (prop profile "last_name")) as [b2 |] eqn:B2; [| discriminate].
    destruct (blank (prop profile "email")) as [b3 |] eqn:B3; [| discriminate].
    destruct (blank (prop profile "message")) as [b4 |] eqn:B4; [| discriminate].
    destruct (isValidEmail (to_string (prop profile "email"))) eqn:Hv;
      destruct b1, b2, b3, b4; simpl; try discriminate.
    apply blank_false in B1 as (first & E1 & T1). apply blank_false in B2 as (last & E2 & T2).
    apply blank_false in B3 as (email & E3 & T3).
    apply blank_false in B4 as (message & E4 & T4).
    rewrite E3 in Hv. simpl in Hv.
    intros _. exists first, last, email, message. by repeat split.
  - intros (first & last & email & message & E1 & T1 & E2 & T2 & E3 & T3 & Hv & E4 & T4).
    assert (Hn : nullish profile = false).
    { destruct profile; simpl in *; try discriminate; reflexivity. }
    rewrite Hn.
    rewrite (proj2 (blank_false (prop profile "first_name"))) by eauto.
    rewrite (proj2 (blank_false (prop profile "last_name"))) by eauto.
    rewrite (proj2 (blank_false (prop profile "email"))) by eauto.
    rewrite (proj2 (blank_false (prop profile "message"))) by eauto.
    rewrite E3. simpl. by rewrite Hv.
Qed.

(** A complete profile. *)
Lemma validateUserProfile_accepts_iff_witness :
  validateUserProfile
    (JObj (<["first_name" := JStr "Ada"]> (<["last_name" := JStr "Byron"]>
          (<["email" := JStr "ada@example.org"]> (<["message" := JStr "Hello"]> ∅)))))
  = Resolved [].
Proof.
  apply validateUserProfile_accepts_iff.
  - intros k s [<- | [<- | [<- | [<- | []]]]] [= <-]; reflexivity.
  - exists "Ada", "Byron", "ada@example.org", "Hello".
    repeat split; try reflexivity; discriminate.
Defined.


Section WithURL.

Variable parse_url : string -> option string.

Lemma parse_lines_spec (lines : list string) :
  forall (index : nat) (acc : list string * list string),
    let kept := filter (fun l => skipped l = false) lines in
    let r := parse_lines parse_url index lines acc in
    fst r = (fst acc ++ omap parse_url (AuthProvider.trim <$> kept))%list
    /\ snd r = (snd acc ++ omap id (imap (fun j l => line_error parse_url (index + j) l) lines))%list
    /\ (length (fst r) + length (snd r)
        = length (fst acc) + length (snd acc) + length kept)%nat.
Proof.
  induction lines as [| line rest IH]; intros index acc.
  - simpl. rewrite !app_nil_r, Nat.add_0_r. by repeat split.
  - cbv zeta. change (parse_lines parse_url index (line :: rest) acc)
      with (parse_lines parse_url (S index) rest (parse_line parse_url index line acc)).
    destruct (IH (S index) (parse_line parse_url index line acc)) as (I1 & I2 & I3).
    rewrite I1, I2. rewrite I1, I2 in I3. clear I1 I2.
    rewrite filter_cons, imap_cons. rewrite Nat.add_0_r.
    assert (Himap : imap ((fun j l => line_error parse_url (index + j) l) ∘ S) rest
                    = imap (fun j l => line_error parse_url (S index + j) l) rest).
    { apply imap_ext. intros j l _. simpl. f_equal. lia. }
    rewrite Himap. unfold parse_line, line_error in *.
    destruct (skipped line) eqn:Hs.
    + rewrite decide_False by congruence. simpl. repeat split; try reflexivity. exact I3.
    + rewrite decide_True by reflexivity. rewrite fmap_cons. simpl.
      destruct (parse_url (AuthProvider.trim line)) as [href |]; simpl in *.
      * rewrite <- !app_assoc. repeat split; try reflexivity.
        rewrite !length_app in *. simpl in *. lia.
      * rewrite <- !app_assoc. repeat split; try reflexivity.
        rewrite !length_app in *. simpl in *. lia.
Qed.

(** X18. On ASCII text [parseCSVContent] loses no line: every line that
    is not blank and is not the word "url" or "website" (in any letter
    case, on any line, not only the first) ends up either in [urls], as
    the normalised form of its trimmed text, or in [errors] with its
    1-based line number in the original text; [urls] keeps the order of
    the lines. *)
Theorem parseCSVContent_partitions (csvText : string) :
  ascii_only csvText = true ->
  let lines := split_lines csvText in
  let kept := filter (fun l => skipped l = false) lines in
  let r := parseCSVContent parse_url csvText in
  fst r = omap parse_url (AuthProvider.trim <$> kept)
  /\ snd r = omap id (imap (line_error parse_url) lines)
  /\ (length (fst r) + length (snd r) = length kept)%nat.
Proof.
  intros _ lines kept r.
  destruct (parse_lines_spec lines 0 ([], [])) as (H1 & H2 & H3).
  repeat split; assumption.
Qed.

End WithURL.

(** A file with a header, a blank line, two addresses and a line that is
    not a URL, read with a parser that accepts what starts with
    "https://". *)
Lemma parseCSVContent_partitions_witness :
  let parse s := if String.prefix "https://" s then Some (s +:+ "/") else None in
  let text := "Website" +:+ String "010" "https://a.test " +:+ String "010" ""
              +:+ String "010" "not a url" +:+ String "010" "  https://b.test" in
  fst (parseCSVContent parse text) = ["https://a.test/"; "https://b.test/"]
  /\ snd (parseCSVContent parse text) = ["Line 4: Invalid URL - not a url"].
Proof.
  intros parse text.
  destruct (parseCSVContent_partitions parse text eq_refl) as (H1 & H2 & _).
  split; [rewrite H1 | rewrite H2]; vm_compute; reflexivity.
Defined.

End ProfileAndCSV.

(* --------------------------------------------------------------------- *)
(** ** The route table, the header badge and the login redirect *)
(* --------------------------------------------------------------------- *)

Section RolesAndRoutes.

(** With [requiresContactInfo] off, the guard of a signed-in user decides
    on the role alone. *)
Lemma guard_on_role_alone (props : route_props) (user : value) (path : string)
    (ss : gmap string string) :
  truthy user = true ->
  requiresContactInfo props = false ->
  AppRoleHome.ProtectedRoute props user path ss
  = if role_rejected props user
    then (Navigate (AppRoleHome.getDefaultPathForRole (prop user "role")), ss)
    else (Children, ss).
Proof.
  intros Hu Hc. unfold AppRoleHome.ProtectedRoute, needs_contact_info.
  rewrite Hu, Hc. simpl. by destruct (role_rejected props user).
Qed.

(** Every entry of the route table has [requiresContactInfo] off and
    allows some of the three lower-case roles, or everyone. *)
Lemma routes_entries (path : string) (props : route_props) :
  In (path, props) AppRoleHomeRoutes.routes ->
  requiresContactInfo props = false
  /\ forall r, In r (allowedRoles props) -> In r ["owner"; "admin"; "user"].
Proof.
  unfold AppRoleHomeRoutes.routes. intros H.
  repeat (destruct H as [H | H];
          [injection H as <- <-; split; [reflexivity | simpl; intuition] |]).
  destruct H.
Qed.

Lemma route_in_table (path : string) (props : route_props) :
  AppRoleHomeRoutes.route path = Some props ->
  In (path, props) AppRoleHomeRoutes.routes.
Proof.
  unfold AppRoleHomeRoutes.route. intros H.
  destruct (List.find _ _) as [[p q] |] eqn:Hf; [| discriminate].
  injection H as <-. apply List.find_some in Hf as [Hin Heq].
  simpl in Heq. apply String.eqb_eq in Heq. by subst.
Qed.

Lemma truthy_opt_prop (v : value) (k : string) :
  truthy v = true -> opt_prop v k = prop v k.
Proof. by destruct v. Qed.

Lemma includes_spec (xs : list string) (s : string) :
  includes xs (JStr s) = true <-> In s xs.
Proof.
  simpl. rewrite existsb_exists. split.
  - intros (x & Hin & Heq). apply String.eqb_eq in Heq. by subst.
  - intros Hin. exists s. split; [done | apply String.eqb_refl].
Qed.

(** X19. The header folds the letter case of the role and the guard does
    not: a user whose role is "owner" or "admin" in another letter case
    wears the Owner or Admin badge, and is turned away to "/dashboard"
    from every route of the table that names roles. *)
Theorem badge_folds_case_guard_does_not (user : value) (s : string) :
  prop user "role" = JStr s ->
  s <> AuthProvider.toLowerCase s ->
  In (AuthProvider.toLowerCase s) ["owner"; "admin"] ->
  Header.getRoleInfo user
  = Resolved (if String.eqb (AuthProvider.toLowerCase s) "owner" then "Owner" else "Admin")
  /\ forall path props ss,
       In (path, props) AppRoleHomeRoutes.routes ->
       allowedRoles props <> [] ->
       AppRoleHome.ProtectedRoute props user path ss = (Navigate "/dashboard", ss).
Proof.
  intros Hrole Hcase Hlow.
  assert (Hu : truthy user = true) by (by destruct user).
  assert (Hs : ~ In s ["owner"; "admin"; "user"]).
  { intros [<- | [<- | [<- | []]]]; by apply Hcase. }
  assert (Hne : s <> "") by (intros ->; by apply Hcase).
  split.
  - unfold Header.getRoleInfo, Header.getUserRole.
    rewrite (truthy_opt_prop _ _ Hu), Hrole. simpl.
    apply String.eqb_neq in Hne. unfold or_else. simpl. rewrite Hne. simpl.
    destruct Hlow as [<- | [<- | []]]; reflexivity.
  - intros path props ss Hin Hsome.
    destruct (routes_entries _ _ Hin) as [Hc Hroles].
    rewrite (guard_on_role_alone _ _ _ _ Hu Hc), Hrole.
    assert (Hinc : includes (allowedRoles props) (JStr s) = false).
    { apply not_true_iff_false. rewrite includes_spec. intros Hi. by apply Hs, Hroles. }
    unfold role_rejected. rewrite Hrole, Hinc.
    destruct (allowedRoles props) as [| a rest]; [done |]. simpl.
    destruct (String.eqb_spec s "owner") as [-> | _]; [exfalso; apply Hs; simpl; tauto |].
    destruct (String.eqb_spec s "admin") as [-> | _]; [exfalso; apply Hs; simpl; tauto |].
    reflexivity.
Qed.

(** A user whose role came back capitalised. *)
Lemma badge_folds_case_guard_does_not_witness :
  let user := JObj {["role" := JStr "Owner"]} in
  Header.getRoleInfo user = Resolved "Owner"
  /\ AppRoleHome.ProtectedRoute (RouteProps ["owner"] false) user "/owner" ∅
     = (Navigate "/dashboard", ∅).
Proof.
  intros user.
  destruct (badge_folds_case_guard_does_not user "Owner" eq_refl) as [H1 H2].
  - discriminate.
  - simpl. tauto.
  - split; [exact H1 |]. apply H2; [simpl; tauto | discriminate].
Defined.

(** X20. For a signed-in user no redirect of the route table leads to
    another redirect: whenever a guarded path renders a redirect (from
    its guard, or from [RoleDashboard] behind "/dashboard"), the target
    is a path of the table that renders its page for that user, and
    nothing was written to [sessionStorage]. *)
Theorem redirects_land_in_one_step (user : value) (path target : string)
    (ss ss' : gmap string string) :
  truthy user = true ->
  AppRoleHomeRoutes.render path user ss = Some (Navigate target, ss') ->
  ss' = ss /\ AppRoleHomeRoutes.render target user ss = Some (Children, ss).
Proof.
  intros Hu. unfold AppRoleHomeRoutes.render at 1.
  destruct (AppRoleHomeRoutes.route path) as [props |] eqn:Hroute; [| discriminate].
  destruct (routes_entries _ _ (route_in_table _ _ Hroute)) as [Hc _].
  rewrite (guard_on_role_alone _ _ _ _ Hu Hc).
  assert (Howner : prop user "role" = JStr "owner" ->
            AppRoleHomeRoutes.render "/owner" user ss = Some (Children, ss)).
  { intros Hr. unfold AppRoleHomeRoutes.render.
    change (AppRoleHomeRoutes.route "/owner") with (Some (RouteProps ["owner"] false)). cbv beta iota.
    rewrite (guard_on_role_alone (RouteProps ["owner"] false) _ _ _ Hu eq_refl).
    unfold role_rejected. rewrite Hr. reflexivity. }
  assert (Hadmin : prop user "role" = JStr "admin" ->
            AppRoleHomeRoutes.render "/admin" user ss = Some (Children, ss)).
  { intros Hr. unfold AppRoleHomeRoutes.render.
    change (AppRoleHomeRoutes.route "/admin") with (Some (RouteProps ["admin"; "owner"] false)). cbv beta iota.
    rewrite (guard_on_role_alone (RouteProps ["admin"; "owner"] false) _ _ _ Hu eq_refl).
    unfold role_rejected. rewrite Hr. reflexivity. }
  assert (Hdash : prop user "role" <> JStr "owner" -> prop user "role" <> JStr "admin" ->
            AppRoleHomeRoutes.render "/dashboard" user ss = Some (Children, ss)).
  { intros Ho Ha. unfold AppRoleHomeRoutes.render.
    change (AppRoleHomeRoutes.route "/dashboard") with (Some (RouteProps [] false)). cbv beta iota.
    rewrite (guard_on_role_alone (RouteProps [] false) _ _ _ Hu eq_refl).
    unfold role_rejected. simpl.
    unfold AppRoleHomeRoutes.RoleDashboard. rewrite (truthy_opt_prop _ _ Hu).
    destruct (prop user "role") as [| | b | n | r | items | f]; try reflexivity.
    destruct (String.eqb_spec r "owner") as [-> | _]; [done |].
    destruct (String.eqb_spec r "admin") as [-> | _]; [done |]. reflexivity. }
  destruct (role_rejected props user).
  - intros [= <- <-]. split; [reflexivity |].
    destruct (default_path_cases (prop user "role"))
      as [[Hr Hp] | [[Hr Hp] | (Ho & Ha & Hp)]]; rewrite Hp; auto.
  - destruct (String.eqb path "/dashboard"); [| discriminate].
    unfold AppRoleHomeRoutes.RoleDashboard. rewrite (truthy_opt_prop _ _ Hu).
    destruct (prop user "role") as [| | b | n | r | items | f] eqn:Hr; try discriminate.
    destruct (String.eqb_spec r "owner") as [-> | _].
    { intros [= <- <-]. auto. }
    destruct (String.eqb_spec r "admin") as [-> | _]; [| discriminate].
    intros [= <- <-]. auto.
Qed.

(** An admin opening the owner's page is sent to "/admin", which renders. *)
Lemma redirects_land_in_one_step_witness :
  let admin := JObj {["role" := JStr "admin"]} in
  (∅ : gmap string string) = ∅
  /\ AppRoleHomeRoutes.render "/admin" admin ∅ = Some (Children, ∅).
Proof.
  intros admin.
  apply (redirects_land_in_one_step admin "/owner" "/admin" ∅ ∅);
    [reflexivity | vm_compute; reflexivity].
Defined.

End RolesAndRoutes.

Section LoginRedirect.

Variable net : request -> settled http_response.
Variable JSON_stringify : value -> string.

(** The world a successful login leaves. *)
Lemma login_succeeds (email password : string) (w : AuthProvider.world)
    (resp : http_response) :
  let q := ApiService.request_interceptor "post" "/api/auth/login"
             (JObj (<["email" := JStr (AuthProvider.toLowerCase (AuthProvider.trim email))]>
                   (<["password" := JStr password]> ∅)))
             (AuthProvider.window w) in
  net q = Resolved resp ->
  truthy (prop (data resp) "access_token") = true ->
  truthy (prop (data resp) "user") = true ->
  let user := prop (data resp) "user" in
  let token := to_string (prop (data resp) "access_token") in
  let b := ls_set "access_token" token
             (ls_set "user_info" (JSON_stringify user)
                (ls_set "access_token" token (log_request q (AuthProvider.window w)))) in
  AuthProvider.login net JSON_stringify email password w
  = (Resolved (AuthProvider.Success user),
     {| AuthProvider.window :=
          if truthy (prop user "id") then ls_set "user_id" (to_string (prop user "id")) b
          else b;
        AuthProvider.user := user;
        AuthProvider.loading := AuthProvider.loading w;
        AuthProvider.loginLoading := false |}).
Proof.
  intros q Hnet Htok Huser user token b.
  assert (Hobj : truthy (data resp) = true /\ nullish (data resp) = false)
    by (destruct (data resp); simpl in *; try discriminate; by split).
  destruct Hobj as [Htr Hnn].
  unfold AuthProvider.login, finally, try_catch, AuthProvider.call.
  unfold mbind, M_bind, bind, modify. simpl.
  rewrite (login_request_sent _ _ _ _ _ _ Hnet). cbv zeta.
  unfold get_prop. rewrite Htr, Htok, Hnn. simpl.
  unfold mbind, M_bind, bind, modify, mret, M_ret, ret. simpl. rewrite Htok, Huser. simpl.
  fold user. destruct (truthy (prop user "id")); reflexivity.
Qed.

(** X21. The path the guard remembers does not survive the login. An
    anonymous visitor turned away from a path is sent to the root and the
    path is stored; after a login (with an ASCII email) that succeeds
    there, in whichever order [handleLogin]'s continuation and App's effects run, the stored
    path is forgotten, it is assigned to the location exactly once, and
    the last location assigned is the role's default path. *)
Theorem login_forgets_guarded_path (props : route_props)
    (path email password : string) (w : AuthProvider.world) (resp : http_response)
    (effects_first : bool) :
  Validators.ascii_only email = true ->
  truthy (AuthProvider.user w) = false ->
  path <> "" ->
  sessionStorage (AuthProvider.window w) !! "redirectAfterContactInfo" = None ->
  let turned_away :=
    AppRoleHome.ProtectedRoute props (AuthProvider.user w) path
      (sessionStorage (AuthProvider.window w)) in
  let w1 := AuthProvider.on_window
              (AppRoleHomeRoutes.set_sessionStorage (snd turned_away)) w in
  net (ApiService.request_interceptor "post" "/api/auth/login"
         (JObj (<["email" := JStr (AuthProvider.toLowerCase (AuthProvider.trim email))]>
               (<["password" := JStr password]> ∅)))
         (AuthProvider.window w1)) = Resolved resp ->
  truthy (prop (data resp) "access_token") = true ->
  truthy (prop (data resp) "user") = true ->
  stringifies (prop (data resp) "access_token") = true ->
  stringifies (prop (prop (data resp) "user") "id") = true ->
  let home := AppRoleHome.getDefaultPathForRole (prop (prop (data resp) "user") "role") in
  let r := AppRoleHomeRoutes.login_at_root net JSON_stringify effects_first email password w1 in
  fst turned_away = Navigate "/"
  /\ fst r = Resolved (AuthProvider.Success (prop (data resp) "user"))
  /\ AuthProvider.user (snd r) = prop (data resp) "user"
  /\ navigations (AuthProvider.window (snd r))
     = ((if effects_first then [home; path; home] else [home; path])
        ++ navigations (AuthProvider.window w))%list
  /\ sessionStorage (AuthProvider.window (snd r))
     = delete "redirectAfterLogin" (sessionStorage (AuthProvider.window w)).
Proof.
  intros _ Ha Hpath Hci turned_away w1 Hnet Htok Huser _ _ home r.
  assert (Hobj : truthy (data resp) = true /\ nullish (data resp) = false)
    by (destruct (data resp); simpl in *; try discriminate; by split).
  destruct Hobj as [Htr Hnn].
  assert (Hun : nullish (prop (data resp) "user") = false)
    by (destruct (prop (data resp) "user"); simpl in *; try discriminate; reflexivity).
  assert (Hta : turned_away
                = (Navigate "/", <["redirectAfterLogin" := path]>
                                   (sessionStorage (AuthProvider.window w)))).
  { unfold turned_away, AppRoleHome.ProtectedRoute. by rewrite Ha. }
  split; [by rewrite Hta |].
  apply String.eqb_neq in Hpath.
  pose proof (login_succeeds email password w1 resp Hnet Htok Huser) as Hlogin.
  cbv zeta in Hlogin. clearbody turned_away. subst turned_away.
  unfold r, AppRoleHomeRoutes.login_at_root, AppRoleHomeRoutes.handleLogin.
  destruct effects_first;
    unfold mbind, M_bind, bind; rewrite Hlogin;
    unfold AppRoleHomeRoutes.after_login, AppRoleHomeRoutes.login_effects,
      AppRoleHomeRoutes.follow_remembered, opt_prop;
    unfold mbind, M_bind, bind, modify, gets, mret, M_ret, ret; simpl;
    rewrite ?Huser, ?Hun; simpl;
    destruct (truthy (prop (prop (data resp) "user") "id")); simpl;
    repeat first [ rewrite delete_insert_eq | rewrite lookup_delete_eq
                 | rewrite lookup_insert_eq | rewrite Hpath
                 | rewrite lookup_delete_ne by discriminate
                 | rewrite lookup_insert_ne by discriminate
                 | rewrite Hci | rewrite Huser | rewrite Hun | progress simpl ];
    by repeat split.
Qed.

End LoginRedirect.

(** A visitor turned away from "/campaigns" logs in at the expiring
    backend: the last location assigned is "/dashboard". *)
Lemma login_forgets_guarded_path_witness :
  let w := AuthProvider.initial fresh_browser in
  let turned_away := AppRoleHome.ProtectedRoute (RouteProps [] false) JNull "/campaigns" ∅ in
  let r := AppRoleHomeRoutes.login_at_root expiring_backend (fun _ => "{}") false
             "user@test.com" "pw"
             (AuthProvider.on_window
                (AppRoleHomeRoutes.set_sessionStorage (snd turned_away)) w) in
  navigations (AuthProvider.window (snd r)) = ["/dashboard"; "/campaigns"]
  /\ sessionStorage (AuthProvider.window (snd r)) = delete "redirectAfterLogin" ∅.
Proof.
  intros w turned_away r.
  edestruct (login_forgets_guarded_path expiring_backend (fun _ => "{}")
               (RouteProps [] false) "/campaigns" "user@test.com" "pw" w)
    as (_ & _ & _ & H4 & H5);
    [reflexivity | reflexivity | discriminate | reflexivity | vm_compute; reflexivity
     | reflexivity | reflexivity | reflexivity | reflexivity |].
  split; [exact H4 | exact H5].
Defined.

(* --------------------------------------------------------------------- *)
(** ** Which campaigns the page polls for *)
(* --------------------------------------------------------------------- *)

Section PollTargets.
Import FormSubmitterPage.

Variable flag : bool.

Lemma tracks_more (ids more : list value) (p : page) :
  tracks ids p -> tracks (ids ++ more)%list p.
Proof.
  intros (H1 & H2 & H3 & H4). repeat split.
  - intros Ht. apply in_or_app. auto.
  - intros cl Hcl. apply in_or_app. eauto.
  - eapply Forall_impl; [exact H3 |]. intros cl Hcl. apply in_or_app. auto.
  - eapply Forall_impl; [exact H4 |]. intros id Hid. apply in_or_app. auto.
Qed.

Lemma commit_tracks (same : bool) (ids : list value) (p : page) :
  tracks ids p -> tracks ids (commit same p).
Proof.
  intros (H1 & H2 & H3 & H4). unfold commit. destruct same; [by repeat split |].
  destruct (should_poll p) eqn:Hs; repeat split; simpl; try assumption.
  - intros cl [= <-]. simpl. apply H1.
    unfold should_poll in Hs. by apply andb_prop in Hs as [Hs _].
  - intros cl [=].
Qed.

(** What the callback's two halves leave of a tracked page. *)
Lemma shrunk_tracks (ids : list value) (p p' : page) :
  tracks ids p ->
  (processingCampaignId p' = processingCampaignId p \/ processingCampaignId p' = JNull) ->
  polls p' = polls p -> inflight p' = inflight p ->
  (statusInterval p' = statusInterval p \/ statusInterval p' = None) ->
  tracks ids p'.
Proof.
  intros (H1 & H2 & H3 & H4) Hid Hpo Hin Hiv. repeat split.
  - destruct Hid as [-> | ->]; [exact H1 | discriminate].
  - intros cl. destruct Hiv as [-> | ->]; [apply H2 | discriminate].
  - by rewrite Hin.
  - by rewrite Hpo.
Qed.

Lemma step_tracks (ev : event) (ids : list value) (p : page) :
  tracks ids p -> tracks (ids ++ submitted [ev])%list (step flag ev p).
Proof.
  intros Hp. destruct ev as [campaign_id total_urls | | k r]; simpl.
  - destruct (truthy campaign_id) eqn:Ht; simpl; [| by apply tracks_more].
    apply commit_tracks. destruct Hp as (H1 & H2 & H3 & H4). repeat split; simpl.
    + intros _. apply in_or_app. right. by left.
    + intros cl Hcl. apply in_or_app. eauto.
    + eapply Forall_impl; [exact H3 |]. intros cl Hcl. apply in_or_app. auto.
    + eapply Forall_impl; [exact H4 |]. intros id Hid. apply in_or_app. auto.
  - apply tracks_more. destruct Hp as (H1 & H2 & H3 & H4).
    destruct (statusInterval p) as [cl |] eqn:Hi; [| by repeat split; rewrite ?Hi].
    repeat split; simpl.
    + exact H1.
    + rewrite Hi. intros cl' [= <-]. by apply H2.
    + apply Forall_app. split; [exact H3 |]. apply Forall_cons. split; [by apply H2 | apply Forall_nil; done].
    + apply Forall_cons. split; [by apply H2 | exact H4].
  - apply tracks_more.
    destruct (inflight p !! k) as [cl |] eqn:Hk; [| exact Hp].
    set (p0 := set_inflight (delete k (inflight p)) p).
    assert (Hp0 : tracks ids p0).
    { destruct Hp as (H1 & H2 & H3 & H4). repeat split; simpl; try assumption.
      rewrite Forall_forall in H3 |- *. intros x Hx. apply H3.
      eapply elem_of_sublist; [exact Hx | apply sublist_delete]. }
    destruct r as [status | e]; apply commit_tracks.
    + destruct (Polling.on_status_frame flag status cl p0) as (Hid & _ & Hpo & Hin & Hiv).
      by apply (shrunk_tracks ids p0).
    + destruct (Polling.on_error_frame cl p0) as (Hid & _ & _ & Hpo & Hin & Hiv).
      apply (shrunk_tracks ids p0); auto.
Qed.

Lemma run_tracks (evs : list event) :
  forall (ids : list value) (p : page),
    tracks ids p -> tracks (ids ++ submitted evs)%list (run flag evs p).
Proof.
  induction evs as [| ev evs IH]; intros ids p Hp.
  - simpl. by rewrite app_nil_r.
  - change (run flag (ev :: evs) p) with (run flag evs (step flag ev p)).
    change (submitted (ev :: evs)) with (submitted ([ev] ++ evs)).
    unfold submitted. rewrite omap_app. fold (submitted [ev]). fold (submitted evs).
    rewrite app_assoc. apply IH. by apply step_tracks.
Qed.

Lemma submitted_truthy (evs : list event) (id : value) :
  In id (submitted evs) -> truthy id = true.
Proof.
  unfold submitted. intros Hin. apply list_elem_of_In, list_elem_of_omap in Hin.
  destruct Hin as (ev & _ & Hev).
  destruct ev as [campaign_id total_urls | | k r]; try discriminate.
  destruct (truthy campaign_id) eqn:Ht; [| discriminate]. by injection Hev as <-.
Qed.

(** X22. From the mounted page, through any sequence of submissions,
    ticks and settled requests, every status request the page issues is
    for the truthy campaign id of a submission that was accepted before
    it; in particular nothing is polled before the first such
    submission. *)
Theorem polls_only_for_submitted (evs : list event) :
  Forall (fun id => In id (submitted evs) /\ truthy id = true)
    (polls (run flag evs mounted))
  /\ (submitted evs = [] -> polls (run flag evs mounted) = []).
Proof.
  assert (Hm : tracks [] mounted).
  { repeat split; simpl; try discriminate; apply Forall_nil; done. }
  destruct (run_tracks evs [] mounted Hm) as (_ & _ & _ & H4). simpl in H4.
  split.
  - eapply Forall_impl; [exact H4 |]. intros id Hid. split; [exact Hid |].
    by apply (submitted_truthy evs).
  - intros Hnone. rewrite Hnone in H4.
    destruct (polls (run flag evs mounted)) as [| id rest]; [reflexivity |].
    apply Forall_cons in H4 as [[] _].
Qed.

End PollTargets.

(* --------------------------------------------------------------------- *)
(** ** The dashboard after it unmounted *)
(* --------------------------------------------------------------------- *)

Section Unmounted.
Import OwnerDashboard.

Variable processing_error : value -> gmap string value -> option js_error.

Lemma quiet_refl (d : dashboard) : mountedRef d = false -> quiet d d.
Proof. intros H. by repeat split. Qed.

Lemma quiet_trans (d1 d2 d3 : dashboard) : quiet d1 d2 -> quiet d2 d3 -> quiet d1 d3.
Proof.
  intros (_ & A2 & A3 & A4 & A5 & A6 & A7 & A8) (B1 & B2 & B3 & B4 & B5 & B6 & B7 & B8).
  repeat split; congruence.
Qed.

Lemma finish_quiet (d : dashboard) : mountedRef d = false -> quiet d (finish d).
Proof. intros H. unfold finish. simpl. rewrite H. by repeat split. Qed.

Lemma resume_quiet (f : fetch) (r : settled value) (d : dashboard) :
  mountedRef d = false -> quiet d (resume processing_error f r d).
Proof.
  intros H. unfold resume.
  destruct (List.find _ (batches d)) as [b |]; [| by apply quiet_refl].
  destruct (at_phase b) as [| analyticsData dataMap pending].
  - rewrite H. simpl.
    apply (quiet_trans _ (drop_batch (batch_id b) d)); [by repeat split |].
    by apply finish_quiet.
  - destruct pending as [| [| n]]; try (by repeat split).
    unfold complete. simpl. rewrite H. simpl.
    apply (quiet_trans _ (drop_batch (batch_id b) d)); [by repeat split |].
    by apply finish_quiet.
Qed.

Lemma drain_quiet (aborted : list fetch) :
  forall d, mountedRef d = false -> quiet d (drain processing_error aborted d).
Proof.
  induction aborted as [| f rest IH]; intros d H; [by apply quiet_refl |].
  simpl. pose proof (resume_quiet f (Resolved JNull) d H) as Hq.
  eapply quiet_trans; [exact Hq |]. apply IH. by destruct Hq.
Qed.

Lemma settle_quiet (id : nat) (r : reply) (d : dashboard) :
  mountedRef d = false -> quiet d (step processing_error (Settle id r) d).
Proof.
  intros H. simpl.
  destruct (List.find _ (flying d)) as [f |]; [| by apply quiet_refl].
  set (d0 := set_work _ _ _ _ d).
  assert (H0 : quiet d d0) by (by repeat split).
  assert (H1 : quiet d0 (snd (fetchAPI_result r d0))).
  { destruct r as [[v |] | st statusText | e]; simpl; try (by repeat split).
    destruct (st =? 401)%Z; by repeat split. }
  destruct (fetchAPI_result r d0) as [res d1]. simpl in H1.
  eapply quiet_trans; [exact H0 |]. eapply quiet_trans; [exact H1 |].
  apply resume_quiet. by destruct H1.
Qed.

(** X23. Once the dashboard unmounted, nothing that settles later
    reaches the screen: through the unmount (which aborts the current
    batch) and any sequence of network answers after it, [loading],
    [error], the displayed data, the notifications and the selected
    period stay as they were at the unmount, no batched update is
    applied and no further request is issued. *)
Theorem unmounted_dashboard_is_quiet (d : dashboard) (answers : list (nat * reply)) :
  let d' := run processing_error
              (Unmount :: map (fun a => Settle (fst a) (snd a)) answers) d in
  mountedRef d' = false
  /\ selectedPeriod d' = selectedPeriod d
  /\ loading d' = loading d
  /\ error d' = error d
  /\ view d' = view d
  /\ notifications d' = notifications d
  /\ writes d' = writes d
  /\ issued d' = issued d.
Proof.
  intros d'. change (quiet d d'). unfold d'.
  change (run processing_error (Unmount :: ?evs) d)
    with (run processing_error evs (step processing_error Unmount d)).
  assert (Hu : quiet d (step processing_error Unmount d)).
  { simpl. set (d0 := set_refs _ _ _ false d).
    assert (H0 : quiet d d0) by (by repeat split).
    assert (H1 : quiet d0 (snd (abort_current d0)) ).
    { unfold abort_current. destruct (abortControllerRef d0); by repeat split. }
    eapply quiet_trans; [exact H0 |]. eapply quiet_trans; [exact H1 |].
    apply drain_quiet. by destruct H1. }
  revert Hu. generalize (step processing_error Unmount d). clear d'.
  induction answers as [| [id r] rest IH]; intros d1 H1; [exact H1 |].
  simpl. apply IH. eapply quiet_trans; [exact H1 |].
  apply settle_quiet. by destruct H1.
Qed.

End Unmounted.

(* --------------------------------------------------------------------- *)
(** ** The submit check of the campaign form *)
(* --------------------------------------------------------------------- *)

Section FormChecks.
Import Validators.

Lemma trimmed_length (s : string) (n : nat) :
  (S n <= String.length (AuthProvider.trim s))%nat ->
  String.eqb (AuthProvider.trim s) "" = false.
Proof.
  intros H. apply String.eqb_neq. intros He. rewrite He in H. simpl in H. lia.
Qed.

(** X24. On ASCII text the submit check of the campaign form is laxer
    than the validators. It passes exactly when the trimmed name and message are
    not empty and there is a file or a campaign being edited; so a name
    and a message that [validateCampaignName] and [validateMessage]
    accept always pass it, and so does a name of one or two characters
    or a message of fewer than ten, which the validators refuse. *)
Theorem form_accepts_what_validators_accept (campaign_name message_template : string)
    (editing has_file : bool) :
  ascii_only campaign_name = true -> ascii_only message_template = true ->
  let passes :=
    FormSubmitterForm.submit_errors campaign_name message_template editing has_file = [] in
  (passes <-> AuthProvider.trim campaign_name <> ""
              /\ editing || has_file = true
              /\ AuthProvider.trim message_template <> "")
  /\ (validateCampaignName campaign_name = [] ->
      validateMessage message_template = [] ->
      editing || has_file = true -> passes)
  /\ (passes ->
      (String.length (AuthProvider.trim campaign_name) < 3)%nat
      \/ (String.length (AuthProvider.trim message_template) < 10)%nat ->
      validateCampaignName campaign_name <> [] \/ validateMessage message_template <> []).
Proof.
  intros _ _ passes.
  assert (Hiff : passes <-> AuthProvider.trim campaign_name <> ""
                            /\ editing || has_file = true
                            /\ AuthProvider.trim message_template <> "").
  { unfold passes, FormSubmitterForm.submit_errors.
    destruct (String.eqb_spec (AuthProvider.trim campaign_name) "") as [E1 | E1],
             (String.eqb_spec (AuthProvider.trim message_template) "") as [E2 | E2],
             editing, has_file; simpl; split;
      try discriminate; try (intros (? & ? & ?); congruence); by auto. }
  split; [exact Hiff |]. split.
  - unfold validateCampaignName, validateMessage. intros Hn Hm Hf. apply Hiff.
    split; [| split; [exact Hf |]]; apply String.eqb_neq.
    + destruct (String.eqb campaign_name "" || _); [discriminate |].
      destruct (Nat.ltb_spec (String.length (AuthProvider.trim campaign_name)) 3);
        [discriminate |]. by apply (trimmed_length _ 2).
    + destruct (String.eqb message_template "" || _); [discriminate |].
      destruct (Nat.ltb_spec (String.length (AuthProvider.trim message_template)) 10);
        [discriminate |]. by apply (trimmed_length _ 9).
  - intros _ [Hshort | Hshort]; [left | right];
      unfold validateCampaignName, validateMessage.
    + destruct (String.eqb campaign_name "" || _); [discriminate |].
      destruct (Nat.ltb_spec (String.length (AuthProvider.trim campaign_name)) 3);
        [discriminate | lia].
    + destruct (String.eqb message_template "" || _); [discriminate |].
      destruct (Nat.ltb_spec (String.length (AuthProvider.trim message_template)) 10);
        [discriminate | lia].
Qed.

(** A two-letter name and a short message: the form passes them, the
    validators refuse one of them at least. *)
Lemma form_accepts_what_validators_accept_witness :
  FormSubmitterForm.submit_errors "ab" "hi" false true = []
  /\ (validateCampaignName "ab" <> [] \/ validateMessage "hi" <> []).
Proof.
  destruct (form_accepts_what_validators_accept "ab" "hi" false true eq_refl eq_refl)
    as (H1 & _ & H3).
  assert (Hp : FormSubmitterForm.submit_errors "ab" "hi" false true = []).
  { apply H1. repeat split; discriminate || reflexivity. }
  split; [exact Hp |]. apply (H3 Hp). left. vm_compute. lia.
Defined.

End FormChecks.
